(** * Document-store search synchronisation: a shallow embedding

    The development follows the three TypeScript sources of the repository:

    - [src/index.ts]: the enrichment client and the field mapper
      ([fetchAndPopulateFromFastAPI], [mapAPIFieldsToStrapi]) with the
      pre-save hooks (module [Mapper]), and the post-save hooks that go
      through the [MeiliSearchManager] (module [Lifecycle]);
    - [src/api/document-store/services/meilisearch-manager.ts]: the index
      manager (module [Manager]);
    - the earlier variant of [src/index.ts], whose pre-save hooks and
      mapper are the same text and whose post-save hooks use the inline
      helpers [indexToMeiliSearch] and [removeFromMeiliSearch] (module
      [Inline]);
    - [src/api/document-store/controllers/meilisearch-controller.ts]: the
      refresh, clear and rebuild endpoints (module [Controller]).

    JavaScript values are modelled by the inductive type [JS.value]; the
    asynchronous code is sequential ([await] at every call), so it is
    written in a state-and-exception monad over a [World] that records the
    external calls made so far and the time.

    A [throw] or a rejected promise carries any value, and a conversion
    to a string can throw; both matter where a handler reads
    [error.message] and where values are joined into texts.  Log output
    ([console.log], [strapi.log]) is not part of the model; evaluating
    the arguments of a log call is, where it reads a property of a caught
    value or builds the text of a request.  What the other log lines
    print are keys and timestamps of the store (numbers, strings, dates)
    and counts. *)

From Stdlib Require Import String Ascii List ZArith Lia Bool Arith.
From Stdlib Require Import Floats.SpecFloat DecimalString.
Import ListNotations.
Local Open Scope string_scope.
Set Warnings "-register-all".


(* ================================================================== *)
(** * JavaScript values and the built-ins the program uses             *)
(* ================================================================== *)

Module JS.

(** A JavaScript number is an IEEE-754 double, a string is a sequence of
    code units (here the 8-bit range, read as Latin-1), an object is its
    list of own properties in insertion order. *)
Inductive value : Type :=
| VUndefined
| VNull
| VBool (b : bool)
| VNum (n : spec_float)
| VStr (s : string)
| VArr (elems : list value)
| VObj (props : list (string * value)).

Definition obj : Type := list (string * value).

(** What a [throw] or a rejected promise carries: an [Error] instance with
    its message (what the run time and the client libraries construct), or
    any other value, [null] and [undefined] included. *)
Inductive exn : Type :=
| Error (message : string)
| Thrown (v : value).

Inductive result (A : Type) : Type :=
| Ok (a : A)
| Throw (e : exn).
Arguments Ok {A} a.
Arguments Throw {A} e.

Definition rbind {A B} (r : result A) (k : A -> result B) : result B :=
  match r with
  | Ok a => k a
  | Throw e => Throw e
  end.

(** The host supplies what ECMAScript leaves to the implementation or what
    lies outside this development: the decimal rendering of a double and
    the date formats [Date.parse] accepts beyond the ISO format. *)
Class Host : Type := {
  Number_toString : spec_float -> string;
  Date_parse_fallback : string -> option Z
}.

(** ** Truthiness and the operators built on it *)

Definition number_is_falsy (n : spec_float) : bool :=
  match n with
  | S754_zero _ | S754_nan => true
  | _ => false
  end.

(** [ToBoolean]: what [!v], [v || w], [v && w] and [filter(Boolean)] test. *)
Definition truthy (v : value) : bool :=
  match v with
  | VUndefined | VNull => false
  | VBool b => b
  | VNum n => negb (number_is_falsy n)
  | VStr s => negb (String.eqb s "")
  | VArr _ | VObj _ => true
  end.

(** [a || b] *)
Definition or_else (a b : value) : value := if truthy a then a else b.

Definition is_undefined (v : value) : bool :=
  match v with VUndefined => true | _ => false end.
Definition is_null (v : value) : bool :=
  match v with VNull => true | _ => false end.
Definition is_nullish (v : value) : bool := is_undefined v || is_null v.
(** [v === ''] *)
Definition is_empty_string (v : value) : bool :=
  match v with VStr s => String.eqb s "" | _ => false end.
Definition is_array (v : value) : bool :=
  match v with VArr _ => true | _ => false end.

(** [a === b].  Two objects or arrays reaching a comparison of this program
    always come from different sources (a stored record and a request
    payload), hence are different references.  Numbers are compared as
    doubles in canonical form. *)
Definition strict_eq (a b : value) : bool :=
  match a, b with
  | VUndefined, VUndefined => true
  | VNull, VNull => true
  | VBool x, VBool y => Bool.eqb x y
  | VNum x, VNum y => SFeqb x y
  | VStr x, VStr y => String.eqb x y
  | _, _ => false
  end.

(** ** Objects *)

(** Own-property lookup. *)
Fixpoint lookup (o : obj) (k : string) : option value :=
  match o with
  | [] => None
  | (k', v) :: o' => if String.eqb k' k then Some v else lookup o' k
  end.

(** [o.hasOwnProperty(k)] *)
Definition hasOwnProperty (o : obj) (k : string) : bool :=
  match lookup o k with Some _ => true | None => false end.

(** [o[k]] on an object: [undefined] when the property is missing. *)
Definition get (o : obj) (k : string) : value :=
  match lookup o k with Some v => v | None => VUndefined end.

(** [o[k] = v]: replaces the property in place, or appends it. *)
Fixpoint set (o : obj) (k : string) (v : value) : obj :=
  match o with
  | [] => [(k, v)]
  | (k', v') :: o' =>
      if String.eqb k' k then (k, v) :: o' else (k', v') :: set o' k v
  end.

(** [v.k] on a value that is neither [null] nor [undefined]; the names read
    by this program are no properties of primitives or arrays. *)
Definition prop (v : value) (k : string) : value :=
  match v with
  | VObj o => get o k
  | _ => VUndefined
  end.

(** [v.k] on any value: a [TypeError] on [null] and [undefined]. *)
Definition get_prop (v : value) (k : string) : result value :=
  if is_nullish v
  then Throw (Error ("Cannot read properties of null or undefined (reading '"
                       ++ k ++ "')"))
  else Ok (prop v k).

(** [error.message] for a caught value. *)
Definition error_message (error : exn) : result value :=
  match error with
  | Error message => Ok (VStr message)
  | Thrown v => get_prop v "message"
  end.

(** ** Strings *)

Fixpoint join (sep : string) (l : list string) : string :=
  match l with
  | [] => ""
  | [s] => s
  | s :: l' => s ++ sep ++ join sep l'
  end.

Definition lower_ascii (c : ascii) : ascii :=
  let n := nat_of_ascii c in
  if (((65 <=? n) && (n <=? 90))
      || ((192 <=? n) && (n <=? 222) && negb (n =? 215)))%nat
  then ascii_of_nat (n + 32)
  else c.

(** [String.prototype.toLowerCase] *)
Fixpoint toLowerCase (s : string) : string :=
  match s with
  | EmptyString => EmptyString
  | String c s' => String (lower_ascii c) (toLowerCase s')
  end.

(** White space and line terminators of the code-unit range. *)
Definition is_space (c : ascii) : bool :=
  let n := nat_of_ascii c in
  (((9 <=? n) && (n <=? 13)) || (n =? 32) || (n =? 160))%nat.

Fixpoint trimStart (s : string) : string :=
  match s with
  | EmptyString => EmptyString
  | String c s' => if is_space c then trimStart s' else s
  end.

Fixpoint trimEnd (s : string) : string :=
  match s with
  | EmptyString => EmptyString
  | String c s' =>
      match trimEnd s' with
      | EmptyString => if is_space c then EmptyString else String c EmptyString
      | t => String c t
      end
  end.

(** [String.prototype.trim] *)
Definition trim (s : string) : string := trimEnd (trimStart s).

(** Whether the character [c] occurs in [s]. *)
Fixpoint has_char (c : ascii) (s : string) : bool :=
  match s with
  | EmptyString => false
  | String a s' => Ascii.eqb a c || has_char c s'
  end.

(** [s.includes(t)] restated as a proposition. *)
Definition contains (s t : string) : Prop :=
  exists pre post, s = pre ++ t ++ post.

Section WithHost.
Context {host : Host}.

(** [ToString], with [Array.prototype.toString] being [join(',')].  The
    properties of an object hold no functions, so an own [toString]
    property is not callable and hides the inherited method: the inherited
    [valueOf] then returns the object itself and the conversion throws a
    [TypeError].  Without it the inherited [toString] answers. *)
Fixpoint ToString (v : value) : result string :=
  match v with
  | VUndefined => Ok "undefined"
  | VNull => Ok "null"
  | VBool true => Ok "true"
  | VBool false => Ok "false"
  | VNum n => Ok (Number_toString n)
  | VStr s => Ok s
  | VArr l =>
      rbind ((fix strings (l : list value) : result (list string) :=
                match l with
                | [] => Ok []
                | x :: l' =>
                    rbind (if is_nullish x then Ok "" else ToString x) (fun s =>
                    rbind (strings l') (fun ss => Ok (s :: ss)))
                end) l)
            (fun ss => Ok (join "," ss))
  | VObj o =>
      if hasOwnProperty o "toString"
      then Throw (Error "Cannot convert object to primitive value")
      else Ok "[object Object]"
  end.

(** The string an array element contributes to [join]: [null] and
    [undefined] render as [""]. *)
Definition element_string (x : value) : result string :=
  if is_nullish x then Ok "" else ToString x.

(** The elements are converted from left to right; the first conversion
    that throws ends the [join]. *)
Fixpoint element_strings (l : list value) : result (list string) :=
  match l with
  | [] => Ok []
  | x :: l' =>
      rbind (element_string x) (fun s =>
      rbind (element_strings l') (fun ss => Ok (s :: ss)))
  end.

(** [arr.join(sep)] *)
Definition array_join (sep : string) (l : list value) : result string :=
  rbind (element_strings l) (fun ss => Ok (join sep ss)).

End WithHost.

(** [arr.filter(Boolean)] *)
Definition filter_Boolean (l : list value) : list value := filter truthy l.

(** [allowed.includes(v)] for an array of strings. *)
Definition includes (allowed : list string) (v : value) : bool :=
  match v with
  | VStr s => existsb (String.eqb s) allowed
  | _ => false
  end.

(** An integer as a number. *)
Definition num_of_Z (z : Z) : value :=
  match z with
  | Z0 => VNum (S754_zero false)
  | Zpos p => VNum (S754_finite false p 0)
  | Zneg p => VNum (S754_finite true p 0)
  end.

End JS.

(* ================================================================== *)
(** * Dates: [Date.parse] and [Date.prototype.toISOString]             *)
(* ================================================================== *)

Module JSDate.
Import JS.
Local Open Scope Z_scope.

(** Time values are integral milliseconds since the epoch, UTC; [None]
    stands for [NaN] (an invalid date). *)
Definition msPerDay : Z := 86400000.
Definition maxTime : Z := 8640000000000000.

Definition TimeClip (t : Z) : option Z :=
  if Z.abs t <=? maxTime then Some t else None.

Definition Day (t : Z) : Z := t / msPerDay.
Definition TimeWithinDay (t : Z) : Z := t mod msPerDay.

Definition DayFromYear (y : Z) : Z :=
  365 * (y - 1970) + (y - 1969) / 4 - (y - 1901) / 100 + (y - 1601) / 400.

Definition InLeapYear_of (y : Z) : bool :=
  (y mod 4 =? 0) && (negb (y mod 100 =? 0) || (y mod 400 =? 0)).

(** The largest year whose first day is not after [t]: the 400-year cycle
    of 146097 days gives an estimate that is off by at most one. *)
Definition YearFromTime (t : Z) : Z :=
  let d := Day t in
  let y := 1970 + (d * 400) / 146097 in
  if d <? DayFromYear y then y - 1
  else if DayFromYear (y + 1) <=? d then y + 1
  else y.

Definition DayWithinYear (t : Z) : Z := Day t - DayFromYear (YearFromTime t).

(** First day of month [m] (0-based) within a year. *)
Definition month_start (leap : bool) (m : Z) : Z :=
  let l := if leap then 1 else 0 in
  match m with
  | 0 => 0 | 1 => 31 | 2 => 59 + l | 3 => 90 + l | 4 => 120 + l
  | 5 => 151 + l | 6 => 181 + l | 7 => 212 + l | 8 => 243 + l
  | 9 => 273 + l | 10 => 304 + l | 11 => 334 + l
  | _ => 365 + l
  end.

Definition month_of_day (leap : bool) (d : Z) : Z :=
  if d <? month_start leap 1 then 0
  else if d <? month_start leap 2 then 1
  else if d <? month_start leap 3 then 2
  else if d <? month_start leap 4 then 3
  else if d <? month_start leap 5 then 4
  else if d <? month_start leap 6 then 5
  else if d <? month_start leap 7 then 6
  else if d <? month_start leap 8 then 7
  else if d <? month_start leap 9 then 8
  else if d <? month_start leap 10 then 9
  else if d <? month_start leap 11 then 10
  else 11.

Definition MonthFromTime (t : Z) : Z :=
  month_of_day (InLeapYear_of (YearFromTime t)) (DayWithinYear t).

Definition DateFromTime (t : Z) : Z :=
  DayWithinYear t
  - month_start (InLeapYear_of (YearFromTime t)) (MonthFromTime t) + 1.

Definition HourFromTime (t : Z) : Z := (t / 3600000) mod 24.
Definition MinFromTime (t : Z) : Z := (t / 60000) mod 60.
Definition SecFromTime (t : Z) : Z := (t / 1000) mod 60.
Definition msFromTime (t : Z) : Z := t mod 1000.

Definition digit (d : Z) : ascii := ascii_of_nat (48 + Z.to_nat d).

(** [n] in decimal on exactly [w] digits (the low-order ones). *)
Fixpoint pad (w : nat) (n : Z) : string :=
  match w with
  | O => EmptyString
  | S w' => (pad w' (n / 10) ++ String (digit (n mod 10)) EmptyString)%string
  end.

(** Years outside 0..9999 are written as a sign and six digits. *)
Definition year_string (y : Z) : string :=
  if (0 <=? y) && (y <=? 9999) then pad 4 y
  else ((if (y <? 0)%Z then "-" else "+") ++ pad 6 (Z.abs y))%string.

Definition date_string (t : Z) : string :=
  (year_string (YearFromTime t) ++ "-" ++ pad 2 (MonthFromTime t + 1)
     ++ "-" ++ pad 2 (DateFromTime t))%string.

(** [date.toISOString()] of a valid date. *)
Definition toISOString (t : Z) : string :=
  (date_string t ++ "T" ++ pad 2 (HourFromTime t) ++ ":"
     ++ pad 2 (MinFromTime t) ++ ":" ++ pad 2 (SecFromTime t) ++ "."
     ++ pad 3 (msFromTime t) ++ "Z")%string.

(** [s.split(c)[0]]: the part of [s] before the first [c]. *)
Fixpoint split_head (c : ascii) (s : string) : string :=
  match s with
  | EmptyString => EmptyString
  | String a s' => if Ascii.eqb a c then EmptyString else String a (split_head c s')
  end.

(** ** The ISO date-time string format *)

Definition digit_val (c : ascii) : option Z :=
  let n := nat_of_ascii c in
  if ((48 <=? n) && (n <=? 57))%nat then Some (Z.of_nat (n - 48)) else None.

Fixpoint read_digits (n : nat) (acc : Z) (s : string) : option (Z * string) :=
  match n with
  | O => Some (acc, s)
  | S n' =>
      match s with
      | String c s' =>
          match digit_val c with
          | Some d => read_digits n' (10 * acc + d) s'
          | None => None
          end
      | EmptyString => None
      end
  end.

(** Expects the character [c]. *)
Definition read_char (c : ascii) (s : string) : option string :=
  match s with
  | String a s' => if Ascii.eqb a c then Some s' else None
  | EmptyString => None
  end.

(** [YYYY] or a sign and [YYYYYY]; [-000000] is not a year. *)
Definition read_year (s : string) : option (Z * string) :=
  match s with
  | String "+" s' => read_digits 6 0 s'
  | String "-" s' =>
      match read_digits 6 0 s' with
      | Some (y, r) => if y =? 0 then None else Some (- y, r)
      | None => None
      end
  | _ => read_digits 4 0 s
  end.

Definition days_in_month (y m : Z) : Z :=
  month_start (InLeapYear_of y) m - month_start (InLeapYear_of y) (m - 1).

(** [MakeDay] for a month 1..12 and a day of that month. *)
Definition MakeDay (y m d : Z) : Z :=
  DayFromYear y + month_start (InLeapYear_of y) (m - 1) + d - 1.

(** The zone designator: [Z] or a signed [HH:mm]; the result is the offset
    in milliseconds. *)
Definition read_zone (s : string) : option Z :=
  match s with
  | String "Z" EmptyString => Some 0
  | String sg s' =>
      if Ascii.eqb sg "+" || Ascii.eqb sg "-" then
        match read_digits 2 0 s' with
        | Some (h, s1) =>
            match read_char ":" s1 with
            | Some s2 =>
                match read_digits 2 0 s2 with
                | Some (m, EmptyString) =>
                    if (h <=? 23) && (m <=? 59)
                    then Some ((if Ascii.eqb sg "-" then -1 else 1)
                               * (h * 3600000 + m * 60000))
                    else None
                | _ => None
                end
            | None => None
            end
        | None => None
        end
      else None
  | EmptyString => None
  end.

(** [HH:mm], [HH:mm:ss] or [HH:mm:ss.sss], then the zone designator.  The
    result is the time within the day, already shifted to UTC. *)
Definition read_time (s : string) : option Z :=
  match read_digits 2 0 s with
  | Some (h, s1) =>
      match read_char ":" s1 with
      | Some s2 =>
          match read_digits 2 0 s2 with
          | Some (m, s3) =>
              let finish (sec ms : Z) (rest : string) :=
                if (h <=? 23) && (m <=? 59) && (sec <=? 59) then
                  match read_zone rest with
                  | Some off =>
                      Some (h * 3600000 + m * 60000 + sec * 1000 + ms - off)
                  | None => None
                  end
                else None in
              match read_char ":" s3 with
              | Some s4 =>
                  match read_digits 2 0 s4 with
                  | Some (sec, s5) =>
                      match read_char "." s5 with
                      | Some s6 =>
                          match read_digits 3 0 s6 with
                          | Some (ms, s7) => finish sec ms s7
                          | None => None
                          end
                      | None => finish sec 0 s5
                      end
                  | None => None
                  end
              | None => finish 0 0 s3
              end
          | None => None
          end
      | None => None
      end
  | None => None
  end.

(** The strings of the ISO format whose instant does not depend on the
    local time zone: the date-only forms (UTC by definition) and the full
    date followed by a time with a zone designator.  Out-of-range elements
    make the string no instance of the format. *)
Definition parse_iso (s : string) : option Z :=
  match read_year s with
  | Some (y, EmptyString) => Some (MakeDay y 1 1 * msPerDay)
  | Some (y, s1) =>
      match read_char "-" s1 with
      | Some s2 =>
          match read_digits 2 0 s2 with
          | Some (m, s3) =>
              if (1 <=? m) && (m <=? 12) then
                match s3 with
                | EmptyString => Some (MakeDay y m 1 * msPerDay)
                | _ =>
                    match read_char "-" s3 with
                    | Some s4 =>
                        match read_digits 2 0 s4 with
                        | Some (d, s5) =>
                            if (1 <=? d) && (d <=? days_in_month y m) then
                              match s5 with
                              | EmptyString => Some (MakeDay y m d * msPerDay)
                              | String "T" s6 =>
                                  match read_time s6 with
                                  | Some tm =>
                                      Some (MakeDay y m d * msPerDay + tm)
                                  | None => None
                                  end
                              | _ => None
                              end
                            else None
                        | None => None
                        end
                    | None => None
                    end
                end
              else None
          | None => None
          end
      | None => None
      end
  | None => None
  end.

Section WithHost.
Context {host : Host}.

(** [new Date(s).getTime()] for a string [s].  Strings outside the format
    above are left to the host's own formats. *)
Definition Date_parse (s : string) : option Z :=
  match parse_iso s with
  | Some t => TimeClip t
  | None =>
      match Date_parse_fallback s with
      | Some t => TimeClip t
      | None => None
      end
  end.

End WithHost.

End JSDate.
(* ================================================================== *)
(** * The outside world: store, enrichment service, engine, clock      *)
(* ================================================================== *)

Module Effects.
Import JS.

(** The calls that leave the process. *)
Inductive call : Type :=
| EntityFindMany
    (** [strapi.entityService.findMany(uid, {publicationState: 'live', ...})] *)
| EntityFindOne (id : value)
    (** [strapi.entityService.findOne(uid, id)] *)
| DbFindOne (id : value)
    (** [strapi.db.query(uid).findOne({where: {id}, select: [...]})] *)
| AxiosGet (url authorization : string)
| AddDocuments (docs : list value)
| DeleteDocument (id : value)
| DeleteAllDocuments
| GetStats
| Sleep (ms : Z)
    (** a timer of [ms] milliseconds *).

(** The environment answers every call, possibly depending on all the calls
    made before; a call takes some time ([latency], never negative).
    [process.env] holds the enrichment service's address and token. *)
Record Env : Type := {
  respond : list call -> call -> result value;
  latency : list call -> call -> N;
  FASTAPI_BASE_URL : value;
  FASTAPI_TOKEN : value
}.

Record World : Type := { trace : list call; now : Z }.

(** Computations: [None] is a loop that ran out of fuel. *)
Definition M (A : Type) : Type := World -> option (World * result A).

Definition ret {A} (a : A) : M A := fun w => Some (w, Ok a).

Definition throw {A} (e : exn) : M A := fun w => Some (w, Throw e).

Definition lift {A} (r : result A) : M A := fun w => Some (w, r).

Definition bind {A B} (m : M A) (k : A -> M B) : M B :=
  fun w =>
    match m w with
    | None => None
    | Some (w', Ok a) => k a w'
    | Some (w', Throw e) => Some (w', Throw e)
    end.

(** [try { m } catch (error) { h error }] *)
Definition try_catch {A} (m : M A) (h : exn -> M A) : M A :=
  fun w =>
    match m w with
    | None => None
    | Some (w', Ok a) => Some (w', Ok a)
    | Some (w', Throw e) => h e w'
    end.

(** A timer fires no earlier than asked. *)
Definition duration (c : call) : Z :=
  match c with
  | Sleep ms => Z.max 0 ms
  | _ => 0%Z
  end.

(** The world after one more call. *)
Definition after_call (env : Env) (c : call) (w : World) : World :=
  {| trace := trace w ++ [c];
     now := now w + duration c + Z.of_N (latency env (trace w) c) |}.

(** [await] of an external call: it is recorded, time passes, and the
    environment's answer comes back. *)
Definition perform (env : Env) (c : call) : M value :=
  fun w => Some (after_call env c w, respond env (trace w) c).

(** [await new Promise(resolve => setTimeout(resolve, ms))]: a timer does
    not fail. *)
Definition sleep (env : Env) (ms : Z) : M unit :=
  fun w => Some (after_call env (Sleep ms) w, Ok tt).

(** [Date.now()] *)
Definition Date_now : M Z := fun w => Some (w, Ok (now w)).

Declare Scope eff_scope.
Delimit Scope eff_scope with eff.
Notation "x <- m ;; k" := (bind m (fun x => k))
  (at level 61, m at next level, right associativity) : eff_scope.
Notation "m ;;; k" := (bind m (fun _ => k))
  (at level 61, right associativity) : eff_scope.

End Effects.

(* ================================================================== *)
(** * The field mapper and the enrichment client ([src/index.ts])      *)
(* ================================================================== *)

Module Mapper.
Import JS JSDate Effects.

Definition schemaEnums : list (string * list string) :=
  [ ("Client_Type", ["Global Key Client"; "Regional Key Client";
                     "Regional Market Portfolio"; "Client"]);
    ("Document_Confidentiality", ["Not Confidential"; "Confidential"]);
    ("Document_Type", ["Proposal"; "External case study"; "Internal win story";
                       "Experience listing"; "Pitch content";
                       "Marketing material"; "Thought leadership"]);
    ("Document_Sub_Type", ["Sole-source"; "RFP Response"; "Competitive";
                           "Change Order"; "Standalone"; "EOI"; "RFI"; "RFQ"]);
    ("Document_Outcome", ["Won"; "Lost"; "Abandoned"; "Decision in progress";
                          "Scope changed (Proposal Revised)";
                          "Full Proposal Not Yet Submitted"]);
    ("Industry", ["Industry A"; "Industry B"; "Industry C"]);
    ("Sub_Industry", ["Sub A"; "Sub B"; "Sub C"]);
    ("Service", ["Service A"; "Service B"; "Service C"]);
    ("Sub_Service", ["Sub A"; "Sub B"; "Sub C"]);
    ("Business_Unit", ["BU A"; "BU B"; "BU C"]);
    ("Region", ["Region A"; "Region B"; "Region C"]);
    ("Country", ["India"; "USA"; "UK"]);
    ("State", ["Delhi"; "California"; "London"]);
    ("City", ["New Delhi"; "San Francisco"; "Manchester"]);
    ("Commercial_Program", ["R2L"; "High Priority"; "N/A"]) ].

(** [schemaEnums[field]] *)
Fixpoint enum_of (enums : list (string * list string)) (field : string)
  : option (list string) :=
  match enums with
  | [] => None
  | (f, allowed) :: enums' =>
      if String.eqb f field then Some allowed else enum_of enums' field
  end.

Definition validateEnum (field : string) (value : value) : JS.value :=
  match enum_of schemaEnums field with
  | None => value
  | Some allowed =>
      if negb (truthy value) then value
      else if includes allowed value then value else VNull
  end.

(** A transformer handed to [populateField]; its body may throw. *)
Definition Transformer : Type := value -> result value.

(** A transformer whose body only computes. *)
Definition returns (f : value -> value) : Transformer := fun val => Ok (f val).

(** The write, if any, that [populateField] makes. *)
Definition populateField_write (strapiData : obj) (strapiField : string)
    (apiValue : value) (transformer : option Transformer)
  : result (option value) :=
  if negb (truthy (get strapiData strapiField))
     && negb (is_undefined apiValue)
     && negb (is_null apiValue)
     && negb (is_empty_string apiValue)
  then
    rbind (match transformer with
           | Some f => f apiValue
           | None => Ok apiValue
           end) (fun transformedValue =>
    Ok (if negb (is_null transformedValue) then Some transformedValue
        else None))
  else Ok None.

Definition populateField (strapiData : obj) (strapiField : string)
    (apiValue : value) (transformer : option Transformer) : result obj :=
  rbind (populateField_write strapiData strapiField apiValue transformer)
    (fun write =>
       Ok (match write with
           | Some transformedValue => set strapiData strapiField transformedValue
           | None => strapiData
           end)).

(** Description: a string becomes a single-paragraph block list. *)
Definition description_blocks (val : value) : value :=
  match val with
  | VStr _ =>
      VArr [ VObj [ ("type", VStr "paragraph");
                    ("children", VArr [ VObj [ ("type", VStr "text");
                                               ("text", val) ] ]) ] ]
  | _ => val
  end.

(** Author, SMEs: an array becomes a comma-separated string. *)
Definition join_people {host : Host} (val : value) : result value :=
  match val with
  | VArr l => rbind (array_join ", " l) (fun joined => Ok (VStr joined))
  | _ => Ok val
  end.

(** Last_Stage_Change_Date: [date.toISOString().split('T')[0]] of a string
    that parses, [null] of one that does not. *)
Definition stage_change_date {host : Host} (val : value) : value :=
  match val with
  | VStr s =>
      match Date_parse s with
      | Some t => VStr (split_head "T" (toISOString t))
      | None => VNull
      end
  | _ => val
  end.

Section WithHost.
Context {host : Host}.

(** The calls [populateField(field, apiData.field, transformer)] of
    [mapAPIFieldsToStrapi], in the order of the source. *)
Definition field_mappings : list (string * option Transformer) :=
  [ ("Unique_Id", None);
    ("Client_Name", None);
    ("Client_Contact", None);
    ("Client_Contact_Buying_Center", None);
    ("Client_Journey", None);
    ("Document_Value_Range", None);
    ("Competitors", None);
    ("Client_Type", Some (returns (validateEnum "Client_Type")));
    ("Document_Confidentiality", Some (returns (validateEnum "Document_Confidentiality")));
    ("Document_Type", Some (returns (validateEnum "Document_Type")));
    ("Document_Sub_Type", Some (returns (validateEnum "Document_Sub_Type")));
    ("Document_Outcome", Some (returns (validateEnum "Document_Outcome")));
    ("Industry", Some (returns (validateEnum "Industry")));
    ("Sub_Industry", Some (returns (validateEnum "Sub_Industry")));
    ("Service", Some (returns (validateEnum "Service")));
    ("Sub_Service", Some (returns (validateEnum "Sub_Service")));
    ("Business_Unit", Some (returns (validateEnum "Business_Unit")));
    ("Region", Some (returns (validateEnum "Region")));
    ("Country", Some (returns (validateEnum "Country")));
    ("State", Some (returns (validateEnum "State")));
    ("City", Some (returns (validateEnum "City")));
    ("Commercial_Program", Some (returns (validateEnum "Commercial_Program")));
    ("Description", Some (returns description_blocks));
    ("Last_Stage_Change_Date", Some (returns stage_change_date));
    ("Author", Some join_people);
    ("SMEs", Some join_people) ].

(** Runs the calls in order; reading [apiData.field] throws when [apiData]
    is [null] or [undefined], a transformer may throw, and in either case
    the writes made so far stay. *)
Fixpoint apply_mappings (ms : list (string * option Transformer))
    (strapiData : obj) (apiData : value) : obj * result unit :=
  match ms with
  | [] => (strapiData, Ok tt)
  | (field, transformer) :: ms' =>
      match get_prop apiData field with
      | Throw e => (strapiData, Throw e)
      | Ok apiValue =>
          match populateField strapiData field apiValue transformer with
          | Throw e => (strapiData, Throw e)
          | Ok strapiData' => apply_mappings ms' strapiData' apiData
          end
      end
  end.

(** The target object is mutated in place: the result is its final state
    and how the call ended. *)
Definition mapAPIFieldsToStrapi (strapiData : obj) (apiData : value)
  : obj * result unit :=
  apply_mappings field_mappings strapiData apiData.

(** The pre-save code works on the pending record in place: however it
    ends, it leaves a world, a state of the record, and an outcome. *)
Definition Hook : Type := World -> World * obj * result unit.

(** The request of the enrichment client: the address and the
    [Authorization] header are template literals. *)
Definition enrichment_request (env : Env) (data : obj) : result call :=
  rbind (ToString (FASTAPI_BASE_URL env)) (fun base =>
  rbind (ToString (get data "SF_Number")) (fun key =>
  rbind (ToString (FASTAPI_TOKEN env)) (fun token =>
  Ok (AxiosGet (base ++ "/api/salesforce/document/" ++ key)
               ("Bearer " ++ token))))).

(** The [try] block of the enrichment client. *)
Definition enrichment_attempt (env : Env) (data : obj) : Hook :=
  fun w =>
    match enrichment_request env data with
    | Throw e => (w, data, Throw e)
    | Ok request =>
        let w' := after_call env request w in
        match rbind (respond env (trace w) request)
                    (fun response => get_prop response "data") with
        | Throw e => (w', data, Throw e)
        | Ok rdata =>
            if truthy rdata && truthy (prop rdata "success") then
              let apiData := prop rdata "data" in
              let (data', r) := mapAPIFieldsToStrapi data apiData in
              (w', data', r)
            else (w', data, Ok tt)
        end
    end.

(** The enrichment client.  Whatever the [try] block throws is caught,
    with the writes the mapper made before; the handler reads
    [error.message] of what it caught. *)
Definition fetchAndPopulateFromFastAPI (env : Env) (data : obj) : Hook :=
  fun w =>
    let '(w', data', attempt) := enrichment_attempt env data w in
    match attempt with
    | Ok _ => (w', data', Ok tt)
    | Throw error =>
        (w', data', rbind (error_message error) (fun _ => Ok tt))
    end.

(** [beforeCreate], the same in both variants of [src/index.ts]. *)
Definition beforeCreate (env : Env) (data : obj) : Hook :=
  fun w =>
    if truthy (get data "SF_Number")
       && negb (truthy (get data "manualOverride"))
    then fetchAndPopulateFromFastAPI env data w
    else (w, data, Ok tt).

(** [beforeUpdate], the same in both variants of [src/index.ts]; [where_]
    is [event.params.where], and [data.hasOwnProperty] is the method every
    object inherits.  Its handler catches what the lookup and the
    enrichment client throw. *)
Definition beforeUpdate (env : Env) (data where_ : obj) : Hook :=
  fun w =>
    let isPublishOperation := hasOwnProperty data "publishedAt" in
    if isPublishOperation then (w, data, Ok tt)
    else if truthy (get data "SF_Number")
            && negb (truthy (get data "manualOverride"))
    then
      let lookup_call := EntityFindOne (get where_ "id") in
      let w1 := after_call env lookup_call w in
      match respond env (trace w) lookup_call with
      | Throw _ => (w1, data, Ok tt)
      | Ok existingRecord =>
          if negb (truthy existingRecord)
             || negb (strict_eq (prop existingRecord "SF_Number")
                                (get data "SF_Number"))
          then
            let '(w2, data', _) := fetchAndPopulateFromFastAPI env data w1 in
            (w2, data', Ok tt)
          else (w1, data, Ok tt)
      end
    else (w, data, Ok tt).

End WithHost.

End Mapper.

(* ================================================================== *)
(** * Plain-text renderings shared by both indexing paths              *)
(* ================================================================== *)

Module Text.
Import JS.

Section WithHost.
Context {host : Host}.

(** [xs.map(f)] for a callback that may throw. *)
Fixpoint map_result {A B} (f : A -> result B) (l : list A) : result (list B) :=
  match l with
  | [] => Ok []
  | x :: l' =>
      rbind (f x) (fun y => rbind (map_result f l') (fun ys => Ok (y :: ys)))
  end.

(** [children.filter(child => child.type === 'text')] *)
Fixpoint filter_text (children : list value) : result (list value) :=
  match children with
  | [] => Ok []
  | child :: rest =>
      rbind (get_prop child "type") (fun ty =>
      rbind (filter_text rest) (fun kept =>
      Ok (if strict_eq ty (VStr "text") then child :: kept else kept)))
  end.

Definition block_text (block : value) : result string :=
  rbind (get_prop block "children") (fun children =>
  match children with
  | VArr cs =>
      rbind (filter_text cs) (fun kept =>
      array_join " " (List.map (fun child => prop child "text") kept))
  | _ => Ok ""
  end).

Definition extractTextFromBlocks (blocks : value) : result string :=
  match blocks with
  | VArr bs =>
      rbind (map_result block_text bs) (fun texts => Ok (trim (join " " texts)))
  | _ => Ok ""
  end.

Definition attachment_text (attachment : value) : result string :=
  rbind (get_prop attachment "name") (fun name =>
  array_join " "
    (filter_Boolean [ name; prop attachment "alternativeText";
                      prop attachment "caption" ])).

Definition formatAttachments (attachments : value) : result string :=
  match attachments with
  | VArr atts =>
      rbind (map_result attachment_text atts) (fun texts => Ok (join " " texts))
  | _ => Ok ""
  end.

(** [document.k || ''] as a property of the output document. *)
Definition or_empty (document : value) (k : string) : string * value :=
  (k, or_else (prop document k) (VStr "")).

(** The [searchableText] of both paths. *)
Definition searchableText (document : value)
    (descriptionText attachmentsText : string) : result value :=
  rbind (array_join " " (filter_Boolean
    [ prop document "SF_Number";
      prop document "Unique_Id";
      prop document "Client_Name";
      prop document "Client_Contact";
      prop document "Client_Contact_Buying_Center";
      VStr descriptionText;
      prop document "Document_Confidentiality";
      prop document "Industry";
      prop document "Service";
      prop document "Author";
      prop document "SMEs";
      prop document "Competitors";
      VStr attachmentsText ]))
    (fun joined => Ok (VStr (toLowerCase joined))).

(** The [filters] sub-object of both paths. *)
Definition filters (document : value) : value :=
  VObj [ or_empty document "Client_Type";
         or_empty document "Document_Type";
         or_empty document "Document_Sub_Type";
         or_empty document "Document_Confidentiality";
         or_empty document "Industry";
         or_empty document "Sub_Industry";
         or_empty document "Service";
         or_empty document "Sub_Service";
         or_empty document "Business_Unit";
         or_empty document "Region";
         or_empty document "Country";
         or_empty document "State";
         or_empty document "City";
         or_empty document "Commercial_Program";
         or_empty document "Document_Outcome" ].

(** The business fields both paths project, in the order of the source. *)
Definition business_fields (document : value) : list (string * value) :=
  [ or_empty document "SF_Number";
    or_empty document "Unique_Id";
    or_empty document "Client_Name";
    or_empty document "Client_Type";
    or_empty document "Client_Contact";
    or_empty document "Client_Contact_Buying_Center";
    or_empty document "Client_Journey";
    or_empty document "Document_Confidentiality";
    or_empty document "Document_Type";
    or_empty document "Document_Sub_Type";
    or_empty document "Document_Value_Range";
    or_empty document "Document_Outcome";
    or_empty document "Last_Stage_Change_Date";
    or_empty document "Industry";
    or_empty document "Sub_Industry";
    or_empty document "Service";
    or_empty document "Sub_Service";
    or_empty document "Business_Unit";
    or_empty document "Region";
    or_empty document "Country";
    or_empty document "State";
    or_empty document "City";
    or_empty document "Author";
    or_empty document "SMEs";
    or_empty document "Commercial_Program";
    or_empty document "Competitors";
    ("publishedAt", prop document "publishedAt");
    ("createdAt", prop document "createdAt");
    ("updatedAt", prop document "updatedAt");
    ("locale", prop document "locale") ].

End WithHost.

End Text.

(* ================================================================== *)
(** * The index manager ([services/meilisearch-manager.ts])            *)
(* ================================================================== *)

Module Manager.
Import JS Effects Text.
Local Open Scope eff_scope.

Record RebuildStats : Type := { indexed : nat; skipped : nat }.

Record RefreshResult : Type := {
  success : bool;
  message : string;
  stats : option RebuildStats
}.

(** A count in decimal, as a template literal prints it. *)
Definition count_to_string (n : nat) : string :=
  NilEmpty.string_of_uint (Nat.to_uint n).

Definition batchSize : nat := 100.

(** [arr.slice(from, to)] for indices within or beyond the array. *)
Definition slice {A} (l : list A) (from to : nat) : list A :=
  firstn (to - from) (skipn from l).

(** [docs.length], and [v.length] of what is no array. *)
Definition js_length (v : value) : value :=
  match v with
  | VArr l => num_of_Z (Z.of_nat (List.length l))
  | VStr s => num_of_Z (Z.of_nat (String.length s))
  | _ => prop v "length"
  end.

Section WithHost.
Context {host : Host}.

(** 4. Transform Strapi document to MeiliSearch format *)
Definition transformDocumentForSearch (document : value) : result value :=
  rbind (get_prop document "Description") (fun description =>
  rbind (extractTextFromBlocks description) (fun descriptionText =>
  rbind (formatAttachments (prop document "Attachments")) (fun attachmentsText =>
  rbind (searchableText document descriptionText attachmentsText) (fun text =>
  Ok (VObj
        ([ ("id", prop document "id");
           ("documentId", prop document "documentId") ]
         ++ business_fields document
         ++ [ ("Description", VStr descriptionText);
              ("attachments_text", VStr attachmentsText);
              ("searchableText", text);
              ("filters", filters document) ])))))).

Variable env : Env.

(** 10. Wait for MeiliSearch tasks to complete: the [while] loop. *)
Fixpoint waitLoop (fuel : nat) (startTime timeout : Z) : M unit :=
  match fuel with
  | O => fun _ => None
  | S fuel' =>
      t <- Date_now ;;
      if (t - startTime <? timeout)%Z then
        continue <- try_catch
          (stats <- perform env GetStats ;;
           isIndexing <- lift (get_prop stats "isIndexing") ;;
           if negb (truthy isIndexing) then ret false
           else (sleep env 1000 ;;; ret true))
          (fun _ => ret false) ;;
        if (continue : bool) then waitLoop fuel' startTime timeout
        else ret tt
      else ret tt
  end.

(** Every turn of the loop that goes on has slept a second, so
    [timeout / 1000 + 2] turns are never used up. *)
Definition waitForTask (timeout : Z) : M unit :=
  startTime <- Date_now ;;
  waitLoop (Z.to_nat (timeout / 1000) + 2) startTime timeout.

(** 2. Clear all documents from index *)
Definition clearIndex : M unit :=
  try_catch
    (perform env DeleteAllDocuments ;;;
     waitForTask 30000)
    (fun error => throw error).

(** The [for] loop of [rebuildIndex]: one batch per turn, from index [i]. *)
Fixpoint batchLoop (fuel : nat) (searchableDocuments : list value)
    (i indexed skipped : nat) : M RebuildStats :=
  match fuel with
  | O => fun _ => None
  | S fuel' =>
      if (i <? List.length searchableDocuments)%nat then
        let batch := slice searchableDocuments i (i + batchSize) in
        added <- try_catch
          (perform env (AddDocuments batch) ;;; ret true)
          (fun _ => ret false) ;;
        if (added : bool)
        then batchLoop fuel' searchableDocuments (i + batchSize)
               (indexed + List.length batch) skipped
        else batchLoop fuel' searchableDocuments (i + batchSize)
               indexed (skipped + List.length batch)
      else ret {| indexed := indexed; skipped := skipped |}
  end.

(** 3. Rebuild index with all published documents *)
Definition rebuildIndex : M RebuildStats :=
  try_catch
    (documents <- perform env EntityFindMany ;;
     if negb (truthy documents)
        || strict_eq (js_length documents) (num_of_Z 0)
     then ret {| indexed := 0; skipped := 0 |}
     else
       match documents with
       | VArr docs =>
           searchableDocuments <-
             lift (map_result transformDocumentForSearch docs) ;;
           batchLoop (S (List.length searchableDocuments))
             searchableDocuments 0 0 0
       | _ => throw (Error "documents.map is not a function")
       end)
    (fun error => throw error).

(** 1. Refresh entire index (clear and rebuild) *)
Definition refreshIndex : M RefreshResult :=
  try_catch
    (clearIndex ;;;
     result <- rebuildIndex ;;
     ret {| success := true;
            message := "Index refreshed successfully. Indexed "
                       ++ count_to_string (indexed result) ++ " documents.";
            stats := Some result |})
    (fun error =>
       reason <- lift (rbind (error_message error) ToString) ;;
       ret {| success := false;
              message := "Index refresh failed: " ++ reason;
              stats := None |}).

(** 6. Index single document *)
Definition indexDocument (document : value) : M unit :=
  try_catch
    (searchableDocument <- lift (transformDocumentForSearch document) ;;
     perform env (AddDocuments [searchableDocument]) ;;;
     ret tt)
    (fun error => throw error).

(** 7. Remove document from index *)
Definition removeDocument (documentId : value) : M unit :=
  try_catch
    (perform env (DeleteDocument documentId) ;;;
     ret tt)
    (fun error => throw error).

End WithHost.

End Manager.

(* ================================================================== *)
(** * The lifecycle hooks of [src/index.ts] (through the manager)      *)
(* ================================================================== *)

Module Lifecycle.
Import JS Effects.
Local Open Scope eff_scope.

Section WithHost.
Context {host : Host}.
Variable env : Env.

(** Helper function to check if document is actually published *)
Definition checkIfDocumentIsPublished (documentId : value) : M bool :=
  try_catch
    (dbDoc <- perform env (DbFindOne documentId) ;;
     if truthy dbDoc
        && negb (strict_eq (prop dbDoc "publishedAt") VNull)
        && negb (strict_eq (prop dbDoc "publishedAt") VUndefined)
     then ret true
     else ret false)
    (fun _ => ret false).

Definition afterCreate (result : obj) : M unit :=
  isPublished <- checkIfDocumentIsPublished (get result "id") ;;
  if (isPublished : bool) then
    try_catch (Manager.indexDocument env (VObj result)) (fun _ => ret tt)
  else ret tt.

Definition afterUpdate (result : obj) : M unit :=
  isPublished <- checkIfDocumentIsPublished (get result "id") ;;
  if (isPublished : bool) then
    try_catch (Manager.indexDocument env (VObj result)) (fun _ => ret tt)
  else
    try_catch
      (Manager.removeDocument env
         (or_else (get result "documentId") (get result "id")))
      (fun _ => ret tt).

Definition afterDelete (result : obj) : M unit :=
  try_catch
    (Manager.removeDocument env
       (or_else (get result "documentId") (get result "id")))
    (fun _ => ret tt).

End WithHost.

End Lifecycle.

(* ================================================================== *)
(** * The variant of [src/index.ts] with inline indexing helpers       *)
(* ================================================================== *)

Module Inline.
Import JS Effects Text.
Local Open Scope eff_scope.

Section WithHost.
Context {host : Host}.

(** The document [indexToMeiliSearch] sends. *)
Definition searchableDocument (document : value) : result value :=
  rbind (get_prop document "Description") (fun description =>
  rbind (extractTextFromBlocks description) (fun descriptionText =>
  rbind (formatAttachments (prop document "Attachments")) (fun attachmentsText =>
  rbind (searchableText document descriptionText attachmentsText) (fun text =>
  Ok (VObj
        ([ ("id", or_else (prop document "documentId") (prop document "id"));
           ("documentId", prop document "documentId");
           ("strapiId", prop document "id") ]
         ++ business_fields document
         ++ [ ("Description", VStr descriptionText);
              ("description_text", VStr descriptionText);
              ("attachments_text", VStr attachmentsText);
              ("searchableText", text);
              ("filters", filters document) ])))))).

Variable env : Env.

Definition indexToMeiliSearch (document : value) : M unit :=
  try_catch
    (doc <- lift (searchableDocument document) ;;
     perform env (AddDocuments [doc]) ;;;
     ret tt)
    (fun _ => ret tt).

Definition removeFromMeiliSearch (documentId : value) : M unit :=
  try_catch
    (perform env (DeleteDocument documentId) ;;;
     ret tt)
    (fun _ => ret tt).

Definition afterCreate (result : obj) : M unit :=
  if truthy (get result "publishedAt")
  then indexToMeiliSearch (VObj result)
  else ret tt.

Definition afterUpdate (result : obj) : M unit :=
  if truthy (get result "publishedAt")
  then indexToMeiliSearch (VObj result)
  else removeFromMeiliSearch
         (or_else (get result "documentId") (get result "id")).

Definition afterDelete (result : obj) : M unit :=
  removeFromMeiliSearch (or_else (get result "documentId") (get result "id")).

End WithHost.

End Inline.

(* ================================================================== *)
(** * The rebuild, restated from its description                       *)
(* ================================================================== *)

Module BatchSpec.
Import JS Effects.

(** The list cut into consecutive pieces of [n] elements, the last one
    possibly shorter. *)
Fixpoint chunks_fuel {A} (fuel n : nat) (l : list A) : list (list A) :=
  match fuel with
  | O => []
  | S fuel' =>
      match l with
      | [] => []
      | _ :: _ => firstn n l :: chunks_fuel fuel' n (skipn n l)
      end
  end.

Definition batches_of {A} (l : list A) : list (list A) :=
  chunks_fuel (S (List.length l)) Manager.batchSize l.

(** Submitting the batches one after the other: a batch the engine accepts
    counts as indexed, a batch it rejects counts as skipped, and the next
    batch is submitted in either case. *)
Fixpoint submit_all (env : Env) (batches : list (list value)) (w : World)
  : World * nat * nat :=
  match batches with
  | [] => (w, O, O)
  | batch :: rest =>
      let '(w', i, s) :=
        submit_all env rest (after_call env (AddDocuments batch) w) in
      match respond env (trace w) (AddDocuments batch) with
      | Ok _ => (w', List.length batch + i, s)
      | Throw _ => (w', i, List.length batch + s)
      end
  end.

End BatchSpec.

(* ================================================================== *)
(** * Sample hosts, environments and records                           *)
(* ================================================================== *)

Module Samples.
Import JS Effects.

(** A host whose [Date.parse] knows the ISO format only. *)
Definition iso_only_host : Host :=
  {| Number_toString := fun _ => "0"; Date_parse_fallback := fun _ => None |}.

(** An environment in which every call answers [null]. *)
Definition quiet_env : Env :=
  {| respond := fun _ _ => Ok VNull;
     latency := fun _ _ => 0%N;
     FASTAPI_BASE_URL := VStr "http://fastapi.local";
     FASTAPI_TOKEN := VStr "secret" |}.

(** An environment in which every call fails. *)
Definition failing_env : Env :=
  {| respond := fun _ _ => Throw (Error "connection refused");
     latency := fun _ _ => 0%N;
     FASTAPI_BASE_URL := VStr "http://fastapi.local";
     FASTAPI_TOKEN := VStr "secret" |}.

Definition start : World := {| trace := []; now := 0 |}.

(** The engine rejects the deletion of all documents with [null]; every
    other call answers [null]. *)
Definition engine_rejects_with_null : Env :=
  {| respond := fun _ c =>
       match c with
       | DeleteAllDocuments => Throw (Thrown VNull)
       | _ => Ok VNull
       end;
     latency := fun _ _ => 0%N;
     FASTAPI_BASE_URL := VStr "http://fastapi.local";
     FASTAPI_TOKEN := VStr "secret" |}.

(** The enrichment service rejects the request with [undefined]. *)
Definition service_rejects_with_undefined : Env :=
  {| respond := fun _ c =>
       match c with
       | AxiosGet _ _ => Throw (Thrown VUndefined)
       | _ => Ok VNull
       end;
     latency := fun _ _ => 0%N;
     FASTAPI_BASE_URL := VStr "http://fastapi.local";
     FASTAPI_TOKEN := VStr "secret" |}.

(** The enrichment service knows the business key and answers with a
    payload; the store has no record yet. *)
Definition enriching_env : Env :=
  {| respond := fun _ c =>
       match c with
       | AxiosGet _ _ =>
           Ok (VObj [ ("data",
                       VObj [ ("success", VBool true);
                              ("data",
                               VObj [ ("Client_Name", VStr "Acme");
                                      ("Industry", VStr "Industry A");
                                      ("Region", VStr "Atlantis");
                                      ("Last_Stage_Change_Date",
                                       VStr "2024-03-15T10:00:00Z") ]) ]) ])
       | _ => Ok VNull
       end;
     latency := fun _ _ => 0%N;
     FASTAPI_BASE_URL := VStr "http://fastapi.local";
     FASTAPI_TOKEN := VStr "secret" |}.

(** A record with both identifiers. *)
Definition failing_document : value :=
  VObj [ ("id", num_of_Z 7); ("documentId", VStr "abc123") ].

Definition draft_record : obj :=
  [ ("id", num_of_Z 7); ("documentId", VStr "abc123") ].

Definition published_record : obj :=
  [ ("id", num_of_Z 7); ("documentId", VStr "abc123");
    ("publishedAt", VStr "2024-01-01T00:00:00.000Z") ].

(** The record [{}] enriched with the description ["Hello world"]. *)
Definition hello_record : obj :=
  fst (@Mapper.mapAPIFieldsToStrapi iso_only_host []
         (VObj [("Description", VStr "Hello world")])).

(** 250 published records, and what the manager sends for each. *)
Definition records_250 : list value := repeat (VObj []) 250.

Definition empty_record_document : value :=
  match @Manager.transformDocumentForSearch iso_only_host (VObj []) with
  | Ok d => d
  | Throw _ => VNull
  end.

Definition count_adds (tr : list call) : nat :=
  List.length
    (filter (fun c => match c with AddDocuments _ => true | _ => false end) tr).

(** The store holds [records_250]; the engine rejects the second batch it
    is sent and accepts every other one. *)
Definition second_batch_fails : Env :=
  {| respond := fun tr c =>
       match c with
       | EntityFindMany => Ok (VArr records_250)
       | AddDocuments _ =>
           if (count_adds tr =? 1)%nat then Throw (Error "batch rejected")
           else Ok VNull
       | _ => Ok VNull
       end;
     latency := fun _ _ => 0%N;
     FASTAPI_BASE_URL := VStr "http://fastapi.local";
     FASTAPI_TOKEN := VStr "secret" |}.

End Samples.

(* ================================================================== *)
(** * The management endpoints ([controllers/meilisearch-controller.ts]) *)
(* ================================================================== *)

Module Controller.
Import JS Effects.
Local Open Scope eff_scope.

(** What a handler answers with: [ctx.send(body)] or
    [ctx.internalServerError(message)]. *)
Inductive response : Type :=
| Send (body : value)
| InternalServerError (message : string).

(** A count as a number. *)
Definition count_value (n : nat) : value := num_of_Z (Z.of_nat n).

(** The counts [{indexed, skipped}] as an object. *)
Definition stats_value (s : Manager.RebuildStats) : value :=
  VObj [ ("indexed", count_value (Manager.indexed s));
         ("skipped", count_value (Manager.skipped s)) ].

Section WithHost.
Context {host : Host}.
Variable env : Env.

(** Refresh entire index *)
Definition refreshIndex : M response :=
  try_catch
    (result <- Manager.refreshIndex env ;;
     ret (Send (VObj
       [ ("success", VBool (Manager.success result));
         ("message", VStr (Manager.message result));
         ("data", match Manager.stats result with
                  | Some s => stats_value s
                  | None => VUndefined
                  end) ])))
    (fun _ => ret (InternalServerError "Index refresh failed")).

(** Clear index *)
Definition clearIndex : M response :=
  try_catch
    (Manager.clearIndex env ;;;
     ret (Send (VObj [ ("success", VBool true);
                       ("message", VStr "Index cleared successfully") ])))
    (fun _ => ret (InternalServerError "Failed to clear index")).

(** Rebuild index *)
Definition rebuildIndex : M response :=
  try_catch
    (result <- Manager.rebuildIndex env ;;
     ret (Send (VObj
       [ ("success", VBool true);
         ("message", VStr ("Index rebuilt successfully. Indexed "
                           ++ Manager.count_to_string (Manager.indexed result)
                           ++ " documents."));
         ("data", stats_value result) ])))
    (fun _ => ret (InternalServerError "Failed to rebuild index")).

End WithHost.

End Controller.

(* ================================================================== *)
(** * Vocabulary of the further properties                             *)
(* ================================================================== *)

Module Shape.
Import JS Effects.

(** No element of the list is [null] or [undefined]. *)
Definition no_nullish (l : list value) : bool :=
  forallb (fun v => negb (is_nullish v)) l.

(** A block list whose blocks, and whose blocks' children when they form
    an array, are neither [null] nor [undefined]; anything that is no
    array counts. *)
Definition well_formed_blocks (blocks : value) : bool :=
  match blocks with
  | VArr bs =>
      forallb (fun block =>
                 negb (is_nullish block)
                 && match prop block "children" with
                    | VArr cs => no_nullish cs
                    | _ => true
                    end) bs
  | _ => true
  end.

Definition well_formed_attachments (attachments : value) : bool :=
  match attachments with
  | VArr atts => no_nullish atts
  | _ => true
  end.

(** A record whose parts the transformers can read: neither the record
    nor one of its blocks, blocks' children or attachments is [null] or
    [undefined]. *)
Definition indexable (document : value) : bool :=
  negb (is_nullish document)
  && well_formed_blocks (prop document "Description")
  && well_formed_attachments (prop document "Attachments").

(** Whether a computation returned. *)
Definition succeeds {A} (r : result A) : bool :=
  match r with
  | Ok _ => true
  | Throw _ => false
  end.

(** Whether a computation returned or threw an [Error] instance, which is
    what the run time itself throws. *)
Definition well_thrown {A} (r : result A) : bool :=
  match r with
  | Throw (Thrown _) => false
  | _ => true
  end.

(** The fields projected as [document.k || '']. *)
Definition defaulted_fields : list string :=
  [ "SF_Number"; "Unique_Id"; "Client_Name"; "Client_Type"; "Client_Contact";
    "Client_Contact_Buying_Center"; "Client_Journey";
    "Document_Confidentiality"; "Document_Type"; "Document_Sub_Type";
    "Document_Value_Range"; "Document_Outcome"; "Last_Stage_Change_Date";
    "Industry"; "Sub_Industry"; "Service"; "Sub_Service"; "Business_Unit";
    "Region"; "Country"; "State"; "City"; "Author"; "SMEs";
    "Commercial_Program"; "Competitors" ].

(** The fields of a record that enter the composite text. *)
Definition searchable_fields : list string :=
  [ "SF_Number"; "Unique_Id"; "Client_Name"; "Client_Contact";
    "Client_Contact_Buying_Center"; "Document_Confidentiality"; "Industry";
    "Service"; "Author"; "SMEs"; "Competitors" ].

(** What enters the composite text, before the falsy items are dropped. *)
Definition composite_items (document : value)
    (descriptionText attachmentsText : string) : list value :=
  [ prop document "SF_Number";
    prop document "Unique_Id";
    prop document "Client_Name";
    prop document "Client_Contact";
    prop document "Client_Contact_Buying_Center";
    VStr descriptionText;
    prop document "Document_Confidentiality";
    prop document "Industry";
    prop document "Service";
    prop document "Author";
    prop document "SMEs";
    prop document "Competitors";
    VStr attachmentsText ].

(** The keys of the [filters] sub-object. *)
Definition filter_keys : list string :=
  [ "Client_Type"; "Document_Type"; "Document_Sub_Type";
    "Document_Confidentiality"; "Industry"; "Sub_Industry"; "Service";
    "Sub_Service"; "Business_Unit"; "Region"; "Country"; "State"; "City";
    "Commercial_Program"; "Document_Outcome" ].

Section WithHost.
Context {host : Host}.

(** Whether converting the value to a string returns. *)
Definition printable (v : value) : bool := succeeds (ToString v).

(** [child.type === 'text'] *)
Definition is_text (child : value) : bool :=
  strict_eq (prop child "type") (VStr "text").

(** The text of every text child of every block can be printed. *)
Definition printable_blocks (blocks : value) : bool :=
  match blocks with
  | VArr bs =>
      forallb (fun block =>
                 match prop block "children" with
                 | VArr cs =>
                     forallb (fun child =>
                                negb (is_text child)
                                || printable (prop child "text")) cs
                 | _ => true
                 end) bs
  | _ => true
  end.

(** The name, alternative text and caption of every attachment can be
    printed. *)
Definition printable_attachments (attachments : value) : bool :=
  match attachments with
  | VArr atts =>
      forallb (fun attachment =>
                 printable (prop attachment "name")
                 && printable (prop attachment "alternativeText")
                 && printable (prop attachment "caption")) atts
  | _ => true
  end.

(** A record the transformers turn into a document: it is indexable, and
    what enters its texts can be printed. *)
Definition transformable (document : value) : bool :=
  indexable document
  && printable_blocks (prop document "Description")
  && printable_attachments (prop document "Attachments")
  && forallb (fun k => printable (prop document k)) searchable_fields.

(** Author and SMEs can be filled from the payload: the slot is taken
    already, or joining the payload's value returns. *)
Definition people_joinable (strapiData : obj) (apiData : value) : bool :=
  forallb (fun field =>
             truthy (get strapiData field)
             || succeeds (Mapper.join_people (prop apiData field)))
          ["Author"; "SMEs"].

(** What the handler of [refreshIndex] makes of a caught value: the
    failure report with the value's [message], or a [TypeError] when the
    value is [null] or [undefined] or its [message] has no string form. *)
Definition refresh_failure (error : exn) : result Manager.RefreshResult :=
  match error with
  | Error message =>
      Ok {| Manager.success := false;
            Manager.message := "Index refresh failed: " ++ message;
            Manager.stats := None |}
  | Thrown v =>
      if is_nullish v
      then Throw (Error "Cannot read properties of null or undefined (reading 'message')")
      else
        match ToString (prop v "message") with
        | Ok reason =>
            Ok {| Manager.success := false;
                  Manager.message := "Index refresh failed: " ++ reason;
                  Manager.stats := None |}
        | Throw e => Throw e
        end
  end.

(** The calls of the mapper before those for Author and SMEs, and these
    two. *)
Definition plain_mappings : list (string * option Mapper.Transformer) :=
  firstn 24 Mapper.field_mappings.

Definition people_mappings : list (string * option Mapper.Transformer) :=
  skipn 24 Mapper.field_mappings.

End WithHost.

(** A transformer, or none, that returns for every value. *)
Definition never_throws (t : option Mapper.Transformer) : Prop :=
  forall a, exists v,
    match t with Some f => f a | None => Ok a end = Ok v.

(** A caught value whose [message] cannot be read. *)
Definition unreadable (error : exn) : bool :=
  match error with
  | Error _ => false
  | Thrown v => is_nullish v
  end.

(** What [checkIfDocumentIsPublished] answers in a world: the stored
    record exists and its [publishedAt] is neither [null] nor
    [undefined]. *)
Definition store_says_published (env : Env) (w : World) (id : value) : bool :=
  match respond env (trace w) (DbFindOne id) with
  | Ok dbDoc =>
      truthy dbDoc
      && negb (strict_eq (prop dbDoc "publishedAt") VNull)
      && negb (strict_eq (prop dbDoc "publishedAt") VUndefined)
  | Throw _ => false
  end.

(** The single-document upsert of a transformed record, or nothing when
    the record does not transform. *)
Definition upsert_calls (transformed : result value) : list call :=
  match transformed with
  | Ok doc => [AddDocuments [doc]]
  | Throw _ => []
  end.

(** [result.documentId || result.id] *)
Definition removal_key_of (result : obj) : value :=
  or_else (get result "documentId") (get result "id").

(** The number of status polls in a trace. *)
Definition count_polls (tr : list call) : nat :=
  List.length
    (filter (fun c => match c with GetStats => true | _ => false end) tr).

(** Whether a call goes to the search engine. *)
Definition is_engine_call (c : call) : bool :=
  match c with
  | AddDocuments _ | DeleteDocument _ | DeleteAllDocuments | GetStats => true
  | _ => false
  end.

(** Whether a call goes to the enrichment service. *)
Definition is_enrichment_call (c : call) : bool :=
  match c with
  | AxiosGet _ _ => true
  | _ => false
  end.

End Shape.

(* ================================================================== *)
(** * Further sample environments                                      *)
(* ================================================================== *)

Module Scenarios.
Import JS Effects Samples.

(** The store holds two records; the engine rejects every batch. *)
Definition engine_down : Env :=
  {| respond := fun _ c =>
       match c with
       | EntityFindMany => Ok (VArr [VObj []; VObj []])
       | AddDocuments _ => Throw (Error "engine unreachable")
       | _ => Ok VNull
       end;
     latency := fun _ _ => 0%N;
     FASTAPI_BASE_URL := VStr "http://fastapi.local";
     FASTAPI_TOKEN := VStr "secret" |}.

(** The store holds a record and a [null] entry. *)
Definition store_with_null : Env :=
  {| respond := fun _ c =>
       match c with
       | EntityFindMany => Ok (VArr [VObj []; VNull])
       | _ => Ok VNull
       end;
     latency := fun _ _ => 0%N;
     FASTAPI_BASE_URL := VStr "http://fastapi.local";
     FASTAPI_TOKEN := VStr "secret" |}.


(** A payload whose author list holds an object with a [toString]
    property of its own. *)
Definition unjoinable_authors : value :=
  VObj [ ("Author", VArr [ VObj [ ("toString", num_of_Z 1) ] ]) ].

(** A record with a classification and an attachment, and what the
    manager sends for it. *)
Definition report_record : value :=
  VObj [ ("id", num_of_Z 7); ("documentId", VStr "abc123");
         ("Industry", VStr "Industry A");
         ("Attachments", VArr [ VObj [ ("name", VStr "Report.pdf") ] ]) ].

Definition report_document : value :=
  match @Manager.transformDocumentForSearch iso_only_host report_record with
  | Ok d => d
  | Throw _ => VNull
  end.

End Scenarios.

(* ================================================================== *)
(** * Properties                                                       *)
(* ================================================================== *)

Import JS JSDate Effects Text BatchSpec Samples Shape.

(** ** Objects *)

Lemma lookup_set_same (o : obj) (k : string) (v : value) :
  lookup (set o k v) k = Some v.
Proof.
  induction o as [|[k' v'] o IH]; simpl.
  - now rewrite String.eqb_refl.
  - destruct (String.eqb k' k) eqn:E; simpl.
    + now rewrite String.eqb_refl.
    + now rewrite E.
Qed.

Lemma lookup_set_other (o : obj) (k k' : string) (v : value) :
  k <> k' -> lookup (set o k v) k' = lookup o k'.
Proof.
  intros Hne. induction o as [|[k0 v0] o IH]; simpl.
  - destruct (String.eqb k k') eqn:E; [apply String.eqb_eq in E; contradiction | reflexivity].
  - destruct (String.eqb k0 k) eqn:E; simpl.
    + apply String.eqb_eq in E; subst k0.
      destruct (String.eqb k k') eqn:E'; [apply String.eqb_eq in E'; contradiction | reflexivity].
    + now rewrite IH.
Qed.

Lemma get_of_lookup (o o' : obj) (k : string) :
  lookup o k = lookup o' k -> get o k = get o' k.
Proof. unfold get; now intros ->. Qed.

(** ** The field mapper *)

Section MapperFacts.
Context {host : Host}.

Lemma populateField_write_guard sd f a t v :
  Mapper.populateField_write sd f a t = Ok (Some v) ->
  truthy (get sd f) = false /\ is_undefined a = false /\ is_null a = false
  /\ is_empty_string a = false /\ is_null v = false.
Proof.
  unfold Mapper.populateField_write.
  destruct (truthy (get sd f)); simpl; [discriminate|].
  destruct (is_undefined a); simpl; [discriminate|].
  destruct (is_null a); simpl; [discriminate|].
  destruct (is_empty_string a); simpl; [discriminate|].
  destruct (match t with Some g => g a | None => Ok a end) as [tv|e];
    simpl; [|discriminate].
  destruct (is_null tv) eqn:E; simpl; [discriminate|].
  intros [= <-]. now rewrite E.
Qed.

Lemma populateField_other sd sd' f a t k :
  Mapper.populateField sd f a t = Ok sd' -> f <> k ->
  lookup sd' k = lookup sd k.
Proof.
  unfold Mapper.populateField.
  destruct (Mapper.populateField_write sd f a t) as [[tv|]|e]; simpl;
    [ | |discriminate]; intros [= <-] Hne;
    [now apply lookup_set_other | reflexivity].
Qed.

Lemma populateField_truthy sd sd' f a t k :
  Mapper.populateField sd f a t = Ok sd' -> truthy (get sd k) = true ->
  lookup sd' k = lookup sd k.
Proof.
  intros Hp Ht. destruct (String.eqb f k) eqn:E.
  - apply String.eqb_eq in E; subst k. revert Hp.
    unfold Mapper.populateField, Mapper.populateField_write.
    rewrite Ht. simpl. now intros [= <-].
  - apply String.eqb_neq in E. now apply (populateField_other sd sd' f a t).
Qed.

(** What [populateField] does depends on the target only through the
    slot it is called for. *)
Lemma populateField_write_slot sd sd' f a t :
  lookup sd' f = lookup sd f ->
  Mapper.populateField_write sd' f a t = Mapper.populateField_write sd f a t.
Proof.
  intros H. unfold Mapper.populateField_write.
  now rewrite (get_of_lookup sd' sd f H).
Qed.

Lemma populateField_same_slot sd sd' sd1 f a t :
  lookup sd' f = lookup sd f ->
  Mapper.populateField sd f a t = Ok sd1 ->
  exists sd1', Mapper.populateField sd' f a t = Ok sd1'
               /\ lookup sd1' f = lookup sd1 f.
Proof.
  intros H. unfold Mapper.populateField.
  rewrite (populateField_write_slot sd sd' f a t H).
  destruct (Mapper.populateField_write sd f a t) as [[tv|]|e]; simpl;
    [ | |discriminate]; intros [= <-]; eexists; (split; [reflexivity|]).
  - now rewrite !lookup_set_same.
  - exact H.
Qed.

Lemma populateField_total sd f a t :
  never_throws t -> exists sd', Mapper.populateField sd f a t = Ok sd'.
Proof.
  intros Ht. unfold Mapper.populateField, Mapper.populateField_write.
  destruct (negb (truthy (get sd f)) && _ && _ && _); simpl; [|eauto].
  destruct (Ht a) as [v ->]. simpl. eauto.
Qed.

Lemma apply_mappings_truthy ms : forall sd api k,
  truthy (get sd k) = true ->
  lookup (fst (Mapper.apply_mappings ms sd api)) k = lookup sd k.
Proof.
  induction ms as [|[f t] ms IH]; intros sd api k Ht; simpl; [reflexivity|].
  destruct (get_prop api f) as [a|e]; simpl; [|reflexivity].
  destruct (Mapper.populateField sd f a t) as [sd'|e] eqn:Hp; [|reflexivity].
  pose proof (populateField_truthy _ _ _ _ _ _ Hp Ht) as Hk.
  rewrite IH; [exact Hk|].
  now rewrite (get_of_lookup _ sd k Hk).
Qed.

Lemma apply_mappings_untouched ms : forall sd api k,
  ~ In k (map fst ms) ->
  lookup (fst (Mapper.apply_mappings ms sd api)) k = lookup sd k.
Proof.
  induction ms as [|[f t] ms IH]; intros sd api k Hni; simpl; [reflexivity|].
  destruct (get_prop api f) as [a|e]; simpl; [|reflexivity].
  destruct (Mapper.populateField sd f a t) as [sd'|e] eqn:Hp; [|reflexivity].
  simpl in Hni. rewrite IH by tauto.
  apply (populateField_other _ _ _ _ _ _ Hp). tauto.
Qed.

Lemma apply_mappings_changed ms : forall sd api k,
  lookup (fst (Mapper.apply_mappings ms sd api)) k <> lookup sd k ->
  truthy (get sd k) = false
  /\ exists t, In (k, t) ms
       /\ is_undefined (prop api k) = false /\ is_null (prop api k) = false
       /\ is_empty_string (prop api k) = false.
Proof.
  intros sd api k Hch. split.
  { destruct (truthy (get sd k)) eqn:Ht; [|reflexivity].
    exfalso. apply Hch. now apply apply_mappings_truthy. }
  revert sd Hch.
  induction ms as [|[f t] ms IH]; intros sd Hch; simpl in Hch; [now elim Hch|].
  unfold get_prop in Hch.
  destruct (is_nullish api) eqn:En; simpl in Hch; [now elim Hch|].
  destruct (Mapper.populateField sd f (prop api f) t) as [sd'|e] eqn:Hp;
    [|now elim Hch].
  destruct (String.eqb f k) eqn:E.
  - apply String.eqb_eq in E; subst f. revert Hp. unfold Mapper.populateField.
    destruct (Mapper.populateField_write sd k (prop api k) t) as [[v|]|e] eqn:Ew;
      simpl; [ | |discriminate]; intros [= <-].
    + apply populateField_write_guard in Ew.
      exists t. simpl. intuition.
    + destruct (IH sd Hch) as (t' & Hin & Hc). exists t'. simpl. tauto.
  - apply String.eqb_neq in E.
    destruct (IH sd') as (t' & Hin & Hc).
    + now rewrite (populateField_other _ _ _ _ _ _ Hp E).
    + exists t'. simpl. tauto.
Qed.

Lemma apply_mappings_app ms1 : forall ms2 sd api,
  Mapper.apply_mappings (ms1 ++ ms2) sd api
  = match Mapper.apply_mappings ms1 sd api with
    | (sd', Ok _) => Mapper.apply_mappings ms2 sd' api
    | (sd', Throw e) => (sd', Throw e)
    end.
Proof.
  induction ms1 as [|[f t] ms1 IH]; intros ms2 sd api; simpl; [reflexivity|].
  destruct (get_prop api f) as [a|e]; [|reflexivity].
  destruct (Mapper.populateField sd f a t) as [sd'|e]; [apply IH | reflexivity].
Qed.

(** Where no transformer throws, every call is made, and the slot of a
    field ends as its own call leaves it. *)
Lemma apply_mappings_ok ms : forall sd api,
  Forall (fun m => never_throws (snd m)) ms ->
  is_nullish api = false -> snd (Mapper.apply_mappings ms sd api) = Ok tt.
Proof.
  induction ms as [|[g u] ms IH]; intros sd api Hall Hn; simpl; [reflexivity|].
  unfold get_prop. rewrite Hn. inversion Hall as [|? ? Hu Hall']; subst.
  destruct (populateField_total sd g (prop api g) u Hu) as [sd' ->].
  now apply IH.
Qed.

Lemma apply_mappings_slot ms : forall sd api f t,
  NoDup (map fst ms) -> Forall (fun m => never_throws (snd m)) ms ->
  In (f, t) ms -> is_nullish api = false ->
  exists sd1, Mapper.populateField sd f (prop api f) t = Ok sd1
              /\ lookup (fst (Mapper.apply_mappings ms sd api)) f
                 = lookup sd1 f.
Proof.
  induction ms as [|[g u] ms IH]; intros sd api f t Hnd Hall Hin Hn;
    [now elim Hin|].
  simpl. unfold get_prop. rewrite Hn.
  simpl in Hnd. inversion Hnd as [|? ? Hnotin Hnd']; subst.
  inversion Hall as [|? ? Hu Hall']; subst. cbn [snd] in Hu.
  destruct (populateField_total sd g (prop api g) u Hu) as [sdg Hg].
  rewrite Hg. destruct Hin as [Heq|Hin].
  - injection Heq as -> ->. exists sdg. split; [exact Hg|].
    now apply apply_mappings_untouched.
  - assert (g <> f) as Hne.
    { intros ->. apply Hnotin. change f with (fst (f, t)). now apply in_map. }
    destruct (IH sdg api f t Hnd' Hall' Hin Hn) as (sd1' & Hp' & Hl').
    assert (never_throws t) as Ht.
    { rewrite Forall_forall in Hall'. exact (Hall' (f, t) Hin). }
    destruct (populateField_total sd f (prop api f) t Ht) as [sd1 Hp].
    exists sd1. split; [exact Hp|]. rewrite Hl'.
    destruct (populateField_same_slot sd sdg sd1 f (prop api f) t
                (populateField_other _ _ _ _ _ _ Hg Hne) Hp)
      as (sd1'' & Hp'' & Hl'').
    rewrite Hp' in Hp''. now injection Hp'' as <-.
Qed.

Lemma field_mappings_NoDup : NoDup (map fst Mapper.field_mappings).
Proof.
  cbn [map fst Mapper.field_mappings].
  repeat (constructor; [cbn [In]; intuition discriminate|]).
  constructor.
Qed.

(** The calls for Author and SMEs come last; no transformer before them
    throws. *)
Lemma field_mappings_split :
  Mapper.field_mappings = (plain_mappings ++ people_mappings)%list.
Proof. symmetry. apply firstn_skipn. Qed.

Lemma plain_mappings_total :
  Forall (fun m => never_throws (snd m)) plain_mappings.
Proof.
  unfold plain_mappings. cbn [firstn Mapper.field_mappings].
  repeat (constructor; [intros a; eexists; reflexivity|]).
  constructor.
Qed.

Lemma plain_mappings_NoDup : NoDup (map fst plain_mappings).
Proof.
  pose proof field_mappings_NoDup as H.
  rewrite field_mappings_split, map_app in H.
  now apply NoDup_app_remove_r in H.
Qed.

Lemma plain_not_people f t :
  In (f, t) plain_mappings -> ~ In f (map fst people_mappings).
Proof.
  intros Hin Hp. pose proof field_mappings_NoDup as H.
  rewrite field_mappings_split, map_app in H.
  assert (In f (map fst plain_mappings)) as Hf
    by (change f with (fst (f, t)); now apply in_map).
  revert H Hf Hp. generalize (map fst plain_mappings) (map fst people_mappings).
  intros l1 l2 Hnd. induction l1 as [|x l1 IH]; [now intros []|].
  simpl in Hnd. inversion Hnd as [|? ? Hx Hnd']; subst.
  intros [->|Hf] Hp.
  - apply Hx. apply in_or_app. now right.
  - now apply IH.
Qed.

(** The run of the mapper on a payload that is an object: the plain part
    first, which ends normally, then Author and SMEs. *)
Lemma mapper_run sd api :
  is_nullish api = false ->
  exists sd', Mapper.apply_mappings plain_mappings sd api = (sd', Ok tt)
    /\ Mapper.mapAPIFieldsToStrapi sd api
       = Mapper.apply_mappings people_mappings sd' api.
Proof.
  intros Hn. unfold Mapper.mapAPIFieldsToStrapi.
  rewrite field_mappings_split, apply_mappings_app.
  pose proof (apply_mappings_ok plain_mappings sd api plain_mappings_total Hn)
    as Hok.
  destruct (Mapper.apply_mappings plain_mappings sd api) as [sd' r].
  cbn [snd] in Hok. subst r. now exists sd'.
Qed.

Lemma mapper_slot sd api f t :
  In (f, t) plain_mappings -> is_nullish api = false ->
  exists sd1, Mapper.populateField sd f (prop api f) t = Ok sd1
              /\ lookup (fst (Mapper.mapAPIFieldsToStrapi sd api)) f
                 = lookup sd1 f.
Proof.
  intros Hin Hn.
  destruct (mapper_run sd api Hn) as (sd' & Hplain & ->).
  destruct (apply_mappings_slot plain_mappings sd api f t plain_mappings_NoDup
              plain_mappings_total Hin Hn) as (sd1 & Hp & Hl).
  exists sd1. split; [exact Hp|].
  rewrite Hplain in Hl. cbn [fst] in Hl. rewrite <- Hl.
  apply apply_mappings_untouched. now apply (plain_not_people f t).
Qed.

(** A call for Author or SMEs throws exactly when the slot is free and
    joining the payload's value throws. *)
Lemma people_step sd f a :
  match Mapper.populateField sd f a (Some Mapper.join_people) with
  | Ok _ => truthy (get sd f) || succeeds (Mapper.join_people a) = true
  | Throw e =>
      truthy (get sd f) = false /\ Mapper.join_people a = Throw e
  end.
Proof.
  unfold Mapper.populateField, Mapper.populateField_write.
  destruct (truthy (get sd f)); [reflexivity|]. cbn [negb andb orb].
  destruct (negb (is_undefined a) && negb (is_null a)
            && negb (is_empty_string a)) eqn:Ec.
  - destruct (Mapper.join_people a) as [v|e]; simpl; [reflexivity | now split].
  - simpl. destruct a; try reflexivity; discriminate Ec.
Qed.

Lemma people_run sd api :
  is_nullish api = false ->
  let r := snd (Mapper.apply_mappings people_mappings sd api) in
  succeeds r = people_joinable sd api
  /\ forall e, r = Throw e ->
       Mapper.join_people (prop api "Author") = Throw e
       \/ Mapper.join_people (prop api "SMEs") = Throw e.
Proof.
  intros Hn. cbv zeta. unfold people_mappings, people_joinable.
  cbn [skipn Mapper.field_mappings Mapper.apply_mappings forallb].
  unfold get_prop. rewrite Hn.
  pose proof (people_step sd "Author" (prop api "Author")) as HA.
  destruct (Mapper.populateField sd "Author" (prop api "Author") _)
    as [sdA|e] eqn:HpA.
  - rewrite HA. cbn [andb].
    pose proof (people_step sdA "SMEs" (prop api "SMEs")) as HS.
    assert (get sdA "SMEs" = get sd "SMEs") as Hg
      by (apply get_of_lookup;
          apply (populateField_other _ _ _ _ _ _ HpA); discriminate).
    rewrite Hg in HS.
    destruct (Mapper.populateField sdA "SMEs" (prop api "SMEs") _) as [sdS|e].
    + cbn [snd succeeds]. rewrite HS. split; [reflexivity | discriminate].
    + cbn [snd succeeds]. destruct HS as [-> HS]. rewrite HS.
      split; [reflexivity|]. intros e' [= <-]. now right.
  - cbn [snd succeeds]. destruct HA as [-> HA]. rewrite HA.
    split; [reflexivity|]. intros e' [= <-]. now left.
Qed.

End MapperFacts.

Section MapperClaims.
Context {host : Host}.

(** C3.  For every target and every enrichment payload, a field of the
    target that is truthy before [mapAPIFieldsToStrapi] is the same after
    it; a field that differs after the call was falsy before it and its
    enrichment value is defined, non-null and not the empty string; and
    [populateField] makes a write only under these conditions. *)
Theorem field_mapper_keeps_nonempty
    (strapiData : obj) (apiData : value) (k : string) :
  let after := fst (Mapper.mapAPIFieldsToStrapi strapiData apiData) in
  (truthy (get strapiData k) = true -> lookup after k = lookup strapiData k)
  /\ (lookup after k <> lookup strapiData k ->
      truthy (get strapiData k) = false
      /\ is_undefined (prop apiData k) = false
      /\ is_null (prop apiData k) = false
      /\ is_empty_string (prop apiData k) = false)
  /\ (forall apiValue transformer written,
        Mapper.populateField_write strapiData k apiValue transformer
        = Ok (Some written) ->
        truthy (get strapiData k) = false
        /\ is_undefined apiValue = false
        /\ is_null apiValue = false
        /\ is_empty_string apiValue = false).
Proof.
  cbv zeta. unfold Mapper.mapAPIFieldsToStrapi. repeat split.
  - now apply apply_mappings_truthy.
  - now apply apply_mappings_changed in H.
  - apply apply_mappings_changed in H. destruct H as (_ & t & _ & H). tauto.
  - apply apply_mappings_changed in H. destruct H as (_ & t & _ & H). tauto.
  - apply apply_mappings_changed in H. destruct H as (_ & t & _ & H). tauto.
  - now apply populateField_write_guard in H.
  - now apply populateField_write_guard in H.
  - now apply populateField_write_guard in H.
  - now apply populateField_write_guard in H.
Qed.

Lemma schemaEnums_entry field allowed :
  In (field, allowed) Mapper.schemaEnums ->
  Mapper.enum_of Mapper.schemaEnums field = Some allowed
  /\ existsb (String.eqb "") allowed = false
  /\ In (field, Some (Mapper.returns (Mapper.validateEnum field)))
        plain_mappings.
Proof.
  intros Hin. unfold Mapper.schemaEnums in Hin.
  repeat (destruct Hin as [Hin|Hin];
          [ injection Hin as <- <-;
            split; [reflexivity|]; split; [reflexivity|];
            unfold plain_mappings; cbn [firstn Mapper.field_mappings];
            repeat first [ left; reflexivity | right ]
          | ]).
  now elim Hin.
Qed.

Lemma includes_nonempty allowed v :
  existsb (String.eqb "") allowed = false ->
  includes allowed v = true ->
  truthy v = true /\ is_undefined v = false /\ is_null v = false
  /\ is_empty_string v = false.
Proof.
  intros Hne Hin. destruct v; simpl in Hin; try discriminate.
  simpl. destruct (String.eqb s "") eqn:E; [|tauto].
  apply String.eqb_eq in E; subst s. congruence.
Qed.

Lemma truthy_defined v :
  truthy v = true ->
  is_undefined v = false /\ is_null v = false /\ is_empty_string v = false.
Proof.
  destruct v; simpl; try discriminate; try tauto.
  intros H. destruct (String.eqb s ""); [discriminate | tauto].
Qed.

(** C4.  For each of the fifteen enum-constrained fields whose target slot
    is empty (falsy), the mapper raises no error on the field's account
    (it ends normally, or with the error of joining Author or SMEs, which
    come after), sets the field to the enrichment value when that value is
    in the field's allow-list, and leaves the slot as it was when the
    value is non-empty (truthy) and not in the allow-list. *)
Theorem enum_fields_validated
    (strapiData : obj) (apiData : value) (field : string)
    (allowed : list string) :
  In (field, allowed) Mapper.schemaEnums ->
  truthy (get strapiData field) = false ->
  is_nullish apiData = false ->
  let after := fst (Mapper.mapAPIFieldsToStrapi strapiData apiData) in
  List.length Mapper.schemaEnums = 15
  /\ (snd (Mapper.mapAPIFieldsToStrapi strapiData apiData) = Ok tt
      \/ exists e,
           snd (Mapper.mapAPIFieldsToStrapi strapiData apiData) = Throw e
           /\ (Mapper.join_people (prop apiData "Author") = Throw e
               \/ Mapper.join_people (prop apiData "SMEs") = Throw e))
  /\ (includes allowed (prop apiData field) = true ->
      lookup after field = Some (prop apiData field))
  /\ (truthy (prop apiData field) = true ->
      includes allowed (prop apiData field) = false ->
      lookup after field = lookup strapiData field).
Proof.
  intros Hin Hempty Hobj. cbv zeta.
  destruct (schemaEnums_entry field allowed Hin) as (Henum & Hne & Hmap).
  destruct (mapper_slot strapiData apiData field _ Hmap Hobj)
    as (sd1 & Hp & ->).
  split; [reflexivity|]. split.
  { destruct (mapper_run strapiData apiData Hobj) as (sd' & _ & ->).
    pose proof (proj2 (people_run sd' apiData Hobj)) as Hpeople.
    cbv zeta in Hpeople.
    destruct (snd (Mapper.apply_mappings people_mappings sd' apiData))
      as [[]|e]; [now left|].
    right. exists e. split; [reflexivity | now apply Hpeople]. }
  unfold Mapper.populateField, Mapper.populateField_write, Mapper.returns,
    Mapper.validateEnum in Hp.
  rewrite Hempty, Henum in Hp. split.
  - intros Hinc.
    destruct (includes_nonempty _ _ Hne Hinc) as (Ht & Hu & Hn & He).
    rewrite Hu, Hn, He, Ht, Hinc in Hp. simpl in Hp. rewrite Hn in Hp.
    simpl in Hp. injection Hp as <-. apply lookup_set_same.
  - intros Ht Hinc.
    destruct (truthy_defined _ Ht) as (Hu & Hn & He).
    rewrite Hu, Hn, He, Ht, Hinc in Hp. simpl in Hp. now injection Hp as <-.
Qed.

End MapperClaims.

Lemma field_mapper_keeps_nonempty_witness :
  lookup (fst (@Mapper.mapAPIFieldsToStrapi iso_only_host
                 [("Client_Name", VStr "Acme")]
                 (VObj [("Client_Name", VStr "Other");
                        ("Industry", VStr "Industry A")])))
         "Client_Name"
  = Some (VStr "Acme").
Proof.
  apply (proj1 (@field_mapper_keeps_nonempty iso_only_host
                  [("Client_Name", VStr "Acme")]
                  (VObj [("Client_Name", VStr "Other");
                         ("Industry", VStr "Industry A")])
                  "Client_Name")).
  reflexivity.
Defined.

(** [populateField('Industry', 'Industry A')] sets the field and
    [populateField('Industry', 'NotARealIndustry')] leaves it absent. *)
Lemma enum_fields_validated_witness :
  lookup (fst (@Mapper.mapAPIFieldsToStrapi iso_only_host []
                 (VObj [("Industry", VStr "Industry A")]))) "Industry"
  = Some (VStr "Industry A")
  /\ lookup (fst (@Mapper.mapAPIFieldsToStrapi iso_only_host []
                    (VObj [("Industry", VStr "NotARealIndustry")]))) "Industry"
     = None.
Proof.
  split.
  - apply (@enum_fields_validated iso_only_host []
             (VObj [("Industry", VStr "Industry A")]) "Industry"
             ["Industry A"; "Industry B"; "Industry C"]);
      [ unfold Mapper.schemaEnums; do 5 right; left; reflexivity
      | reflexivity | reflexivity | reflexivity ].
  - apply (@enum_fields_validated iso_only_host []
             (VObj [("Industry", VStr "NotARealIndustry")]) "Industry"
             ["Industry A"; "Industry B"; "Industry C"]);
      [ unfold Mapper.schemaEnums; do 5 right; left; reflexivity
      | reflexivity | reflexivity | reflexivity | reflexivity ].
Defined.

(** ** Dates *)

Section DateFacts.
Local Open Scope Z_scope.

Lemma DayFromYear_estimate_low d :
  DayFromYear (1970 + d * 400 / 146097 - 1) <= d.
Proof. unfold DayFromYear. Z.div_mod_to_equations; lia. Qed.

Lemma DayFromYear_estimate_high d :
  d < DayFromYear (1970 + d * 400 / 146097 + 2).
Proof. unfold DayFromYear. Z.div_mod_to_equations; lia. Qed.

(** [YearFromTime t] is the year whose days contain [t]. *)
Lemma YearFromTime_bounds t :
  DayFromYear (YearFromTime t) <= Day t < DayFromYear (YearFromTime t + 1).
Proof.
  unfold YearFromTime. set (d := Day t).
  pose proof (DayFromYear_estimate_low d).
  pose proof (DayFromYear_estimate_high d).
  set (y := 1970 + d * 400 / 146097) in *.
  destruct (d <? DayFromYear y) eqn:E1.
  - apply Z.ltb_lt in E1. replace (y - 1 + 1) with y by lia. lia.
  - apply Z.ltb_ge in E1. destruct (DayFromYear (y + 1) <=? d) eqn:E2.
    + apply Z.leb_le in E2. replace (y + 1 + 1) with (y + 2) by lia. lia.
    + apply Z.leb_gt in E2. lia.
Qed.

Lemma DaysInYear y :
  DayFromYear (y + 1) - DayFromYear y = if InLeapYear_of y then 366 else 365.
Proof.
  unfold DayFromYear, InLeapYear_of.
  assert ((y + 1 - 1969) / 4 - (y - 1969) / 4 = if y mod 4 =? 0 then 1 else 0)
    as H4 by (destruct (Z.eqb_spec (y mod 4) 0); Z.div_mod_to_equations; lia).
  assert ((y + 1 - 1901) / 100 - (y - 1901) / 100
          = if y mod 100 =? 0 then 1 else 0)
    as H100 by (destruct (Z.eqb_spec (y mod 100) 0); Z.div_mod_to_equations; lia).
  assert ((y + 1 - 1601) / 400 - (y - 1601) / 400
          = if y mod 400 =? 0 then 1 else 0)
    as H400 by (destruct (Z.eqb_spec (y mod 400) 0); Z.div_mod_to_equations; lia).
  assert (y mod 400 = 0 -> y mod 100 = 0) as D1
    by (intros E; rewrite <- (Z.mod_mod_divide y 400 100) by (now exists 4);
        now rewrite E).
  assert (y mod 100 = 0 -> y mod 4 = 0) as D2
    by (intros E; rewrite <- (Z.mod_mod_divide y 100 4) by (now exists 25);
        now rewrite E).
  revert H4 H100 H400.
  destruct (Z.eqb_spec (y mod 4) 0); destruct (Z.eqb_spec (y mod 100) 0);
    destruct (Z.eqb_spec (y mod 400) 0); cbn [andb orb negb]; intros; lia.
Qed.

Lemma DayWithinYear_bounds t :
  0 <= DayWithinYear t < if InLeapYear_of (YearFromTime t) then 366 else 365.
Proof.
  unfold DayWithinYear.
  pose proof (YearFromTime_bounds t). pose proof (DaysInYear (YearFromTime t)).
  lia.
Qed.

(** The year, month and day that [toISOString] prints are the calendar
    date of the day of [t]. *)
Lemma calendar_date t :
  1 <= MonthFromTime t + 1 <= 12
  /\ 1 <= DateFromTime t
       <= days_in_month (YearFromTime t) (MonthFromTime t + 1)
  /\ MakeDay (YearFromTime t) (MonthFromTime t + 1) (DateFromTime t) = Day t.
Proof.
  pose proof (DayWithinYear_bounds t) as Hb.
  unfold MakeDay, days_in_month, DateFromTime, MonthFromTime.
  replace (month_of_day (InLeapYear_of (YearFromTime t)) (DayWithinYear t) + 1 - 1)
    with (month_of_day (InLeapYear_of (YearFromTime t)) (DayWithinYear t)) by lia.
  set (l := InLeapYear_of (YearFromTime t)) in *.
  set (d := DayWithinYear t) in *.
  assert (DayFromYear (YearFromTime t) + d = Day t) as Hd
    by (unfold d, DayWithinYear; lia).
  clearbody d l. unfold month_of_day.
  repeat match goal with
         | |- context [?a <? ?b] =>
             let E := fresh "E" in
             destruct (Z.ltb_spec a b) as [E|E]; cbn [month_start] in E
         end;
    cbn [month_start Z.add Z.sub Z.opp Pos.add Pos.succ Z.pos_sub Pos.pred_double];
    destruct l; lia.
Qed.

End DateFacts.

(** ** Strings *)

Lemma append_length (a b : string) :
  String.length (a ++ b) = (String.length a + String.length b)%nat.
Proof. induction a; simpl; congruence. Qed.

Lemma append_assoc (a b c : string) : (a ++ b) ++ c = a ++ (b ++ c).
Proof. induction a; simpl; congruence. Qed.

Lemma append_nil_r (a : string) : a ++ "" = a.
Proof. induction a; simpl; congruence. Qed.

Lemma has_char_app c a b : has_char c (a ++ b) = has_char c a || has_char c b.
Proof. induction a; simpl; [reflexivity|]. now rewrite IHa, orb_assoc. Qed.

Lemma split_head_app c a b :
  has_char c a = false -> split_head c (a ++ String c b) = a.
Proof.
  induction a as [|x a IH]; simpl; intros H.
  - now rewrite Ascii.eqb_refl.
  - apply orb_false_iff in H as [Hx Ha]. rewrite Hx. now rewrite IH.
Qed.

Lemma pad_length w : forall n, String.length (pad w n) = w.
Proof.
  induction w; intros n; simpl; [reflexivity|].
  rewrite append_length, IHw. simpl. lia.
Qed.

Lemma digit_not_T (n : Z) : Ascii.eqb (digit (n mod 10)) "T" = false.
Proof.
  assert (0 <= n mod 10 < 10)%Z as H by (apply Z.mod_pos_bound; lia).
  set (d := (n mod 10)%Z) in *. clearbody d.
  assert (d = 0 \/ d = 1 \/ d = 2 \/ d = 3 \/ d = 4 \/ d = 5 \/ d = 6
          \/ d = 7 \/ d = 8 \/ d = 9)%Z as Hd by lia.
  repeat (destruct Hd as [->|Hd]; [reflexivity|]). now subst d.
Qed.

Lemma pad_no_T w : forall n, has_char "T" (pad w n) = false.
Proof.
  induction w; intros n; simpl; [reflexivity|].
  rewrite has_char_app, IHw. cbn [has_char orb]. now rewrite digit_not_T.
Qed.

Lemma date_string_no_T t : has_char "T" (date_string t) = false.
Proof.
  unfold date_string, year_string.
  destruct ((0 <=? YearFromTime t)%Z && (YearFromTime t <=? 9999)%Z);
    [|destruct (YearFromTime t <? 0)%Z];
    repeat (rewrite has_char_app || rewrite pad_no_T); reflexivity.
Qed.

(** [date.toISOString().split('T')[0]] is the date part. *)
Lemma split_toISOString t : split_head "T" (toISOString t) = date_string t.
Proof.
  unfold toISOString. apply split_head_app. apply date_string_no_T.
Qed.

Section DateClaim.
Context {host : Host}.

(** C5 (amended).  For every non-empty string enrichment value for
    Last_Stage_Change_Date with an empty target slot: if the string parses
    to the instant [t], the mapper stores the date part of the ISO
    rendering of [t], which names the UTC calendar date of [t]; it has the
    form YYYY-MM-DD when the year lies in 0..9999 and is a sign, six year
    digits, -MM-DD otherwise; if parsing fails, the slot is left as it
    was. *)
Theorem stage_change_date_normalised
    (strapiData : obj) (apiData : value) (s : string) :
  truthy (get strapiData "Last_Stage_Change_Date") = false ->
  prop apiData "Last_Stage_Change_Date" = VStr s ->
  s <> "" ->
  let after := fst (Mapper.mapAPIFieldsToStrapi strapiData apiData) in
  match Date_parse s with
  | Some t =>
      let y := YearFromTime t in
      let m := (MonthFromTime t + 1)%Z in
      let d := DateFromTime t in
      lookup after "Last_Stage_Change_Date" = Some (VStr (date_string t))
      /\ (1 <= m <= 12)%Z /\ (1 <= d <= days_in_month y m)%Z
      /\ MakeDay y m d = Day t
      /\ ((0 <= y <= 9999)%Z ->
          date_string t = pad 4 y ++ "-" ++ pad 2 m ++ "-" ++ pad 2 d
          /\ String.length (date_string t) = 10)
      /\ ((y < 0 \/ 9999 < y)%Z ->
          date_string t
          = (if (y <? 0)%Z then "-" else "+") ++ pad 6 (Z.abs y)
            ++ "-" ++ pad 2 m ++ "-" ++ pad 2 d
          /\ String.length (date_string t) = 13)
  | None =>
      lookup after "Last_Stage_Change_Date"
      = lookup strapiData "Last_Stage_Change_Date"
  end.
Proof.
  intros Hempty Hval Hne. cbv zeta.
  assert (is_nullish apiData = false) as Hobj
    by (destruct apiData; try reflexivity; discriminate Hval).
  assert (In ("Last_Stage_Change_Date",
              Some (Mapper.returns Mapper.stage_change_date)) plain_mappings)
    as Hin
    by (unfold plain_mappings; cbn [firstn Mapper.field_mappings];
        repeat first [left; reflexivity | right]).
  destruct (mapper_slot strapiData apiData _ _ Hin Hobj) as (sd1 & Hp & ->).
  unfold Mapper.populateField, Mapper.populateField_write, Mapper.returns in Hp.
  rewrite Hempty, Hval in Hp.
  cbn [negb is_undefined is_null is_empty_string andb] in Hp.
  apply String.eqb_neq in Hne. rewrite Hne in Hp.
  cbn [negb andb Mapper.stage_change_date rbind] in Hp.
  destruct (Date_parse s) as [t|]; cbn [is_null negb] in Hp;
    injection Hp as <-; [|reflexivity].
  rewrite split_toISOString, lookup_set_same.
  destruct (calendar_date t) as (Hm & Hd & Hday).
  repeat split; try tauto; try lia.
  - unfold date_string, year_string.
    replace ((0 <=? YearFromTime t)%Z && (YearFromTime t <=? 9999)%Z) with true;
      [reflexivity|].
    symmetry; apply andb_true_iff; split; [apply Z.leb_le | apply Z.leb_le]; lia.
  - unfold date_string, year_string.
    replace ((0 <=? YearFromTime t)%Z && (YearFromTime t <=? 9999)%Z) with true.
    + now rewrite !append_length, !pad_length.
    + symmetry; apply andb_true_iff; split; [apply Z.leb_le | apply Z.leb_le]; lia.
  - unfold date_string, year_string.
    replace ((0 <=? YearFromTime t)%Z && (YearFromTime t <=? 9999)%Z) with false;
      [now rewrite !append_assoc|].
    symmetry; apply andb_false_iff.
    destruct H as [H|H]; [left; apply Z.leb_gt | right; apply Z.leb_gt]; lia.
  - unfold date_string, year_string.
    replace ((0 <=? YearFromTime t)%Z && (YearFromTime t <=? 9999)%Z) with false.
    + rewrite !append_length, !pad_length.
      now destruct (YearFromTime t <? 0)%Z.
    + symmetry; apply andb_false_iff.
      destruct H as [H|H]; [left; apply Z.leb_gt | right; apply Z.leb_gt]; lia.
Qed.

End DateClaim.

(** ["2024-03-15T10:00:00Z"] is stored as ["2024-03-15"]; ["not-a-date"],
    which a host that knows the ISO format only rejects, leaves the field
    absent. *)
Lemma stage_change_date_normalised_witness :
  lookup (fst (@Mapper.mapAPIFieldsToStrapi iso_only_host []
                 (VObj [("Last_Stage_Change_Date",
                         VStr "2024-03-15T10:00:00Z")])))
         "Last_Stage_Change_Date"
  = Some (VStr "2024-03-15")
  /\ lookup (fst (@Mapper.mapAPIFieldsToStrapi iso_only_host []
                    (VObj [("Last_Stage_Change_Date", VStr "not-a-date")])))
            "Last_Stage_Change_Date"
     = None.
Proof.
  split.
  - exact (proj1 (@stage_change_date_normalised iso_only_host []
                    (VObj [("Last_Stage_Change_Date",
                            VStr "2024-03-15T10:00:00Z")])
                    "2024-03-15T10:00:00Z" eq_refl eq_refl
                    ltac:(discriminate))).
  - exact (@stage_change_date_normalised iso_only_host []
             (VObj [("Last_Stage_Change_Date", VStr "not-a-date")])
             "not-a-date" eq_refl eq_refl ltac:(discriminate)).
Defined.

(** C5 as stated fails beyond the year 9999: the date
    ["+010000-01-01T00:00:00Z"] parses, and what is stored is the thirteen
    characters ["+010000-01-01"], which is no YYYY-MM-DD string. *)
Lemma stage_change_date_not_always_YYYY_MM_DD :
  let after := fst (@Mapper.mapAPIFieldsToStrapi iso_only_host []
                      (VObj [("Last_Stage_Change_Date",
                              VStr "+010000-01-01T00:00:00Z")])) in
  @Date_parse iso_only_host "+010000-01-01T00:00:00Z" = Some 253402300800000%Z
  /\ lookup after "Last_Stage_Change_Date" = Some (VStr "+010000-01-01")
  /\ ~ exists y m d : Z,
         lookup after "Last_Stage_Change_Date"
         = Some (VStr (pad 4 y ++ "-" ++ pad 2 m ++ "-" ++ pad 2 d)).
Proof.
  cbv zeta. split; [vm_compute; reflexivity|].
  split; [vm_compute; reflexivity|].
  intros (y & m & d & H).
  assert (lookup (fst (@Mapper.mapAPIFieldsToStrapi iso_only_host []
                      (VObj [("Last_Stage_Change_Date",
                              VStr "+010000-01-01T00:00:00Z")])))
            "Last_Stage_Change_Date" = Some (VStr "+010000-01-01")) as E
    by (vm_compute; reflexivity).
  rewrite E in H.
  apply (f_equal (fun o => match o with
                           | Some (VStr x) => String.length x
                           | _ => O
                           end)) in H.
  rewrite !append_length, !pad_length in H. discriminate H.
Qed.

(** ** The lifecycle hooks *)

Section HookClaims.
Context {host : Host}.
Variable env : Env.

(** C2.  When the payload of a pre-update event has the key [publishedAt],
    whatever its value, [beforeUpdate] returns at once: the world is the
    one it started in (no call to the store or to the enrichment service
    was made) and the payload is unchanged. *)
Theorem publish_guard (data where_ : obj) (w : World) :
  hasOwnProperty data "publishedAt" = true ->
  Mapper.beforeUpdate env data where_ w = (w, data, Ok tt).
Proof.
  intros H. unfold Mapper.beforeUpdate. now rewrite H.
Qed.

Lemma checkIfDocumentIsPublished_run (id : value) (w : World) :
  Lifecycle.checkIfDocumentIsPublished env id w
  = Some (after_call env (DbFindOne id) w,
          Ok match respond env (trace w) (DbFindOne id) with
             | Ok dbDoc =>
                 truthy dbDoc
                 && negb (strict_eq (prop dbDoc "publishedAt") VNull)
                 && negb (strict_eq (prop dbDoc "publishedAt") VUndefined)
             | Throw _ => false
             end).
Proof.
  unfold Lifecycle.checkIfDocumentIsPublished, try_catch, bind, perform, ret.
  destruct (respond env (trace w) (DbFindOne id)) as [dbDoc|e]; [|reflexivity].
  now destruct (truthy dbDoc && _ && _).
Qed.

Lemma removeDocument_run (key : value) (w : World) :
  try_catch (Manager.removeDocument env key) (fun _ => ret tt) w
  = Some (after_call env (DeleteDocument key) w, Ok tt).
Proof.
  unfold Manager.removeDocument, try_catch, bind, perform, ret, throw.
  now destruct (respond env (trace w) (DeleteDocument key)).
Qed.

Lemma removeFromMeiliSearch_run (key : value) (w : World) :
  Inline.removeFromMeiliSearch env key w
  = Some (after_call env (DeleteDocument key) w, Ok tt).
Proof.
  unfold Inline.removeFromMeiliSearch, try_catch, bind, perform, ret.
  now destruct (respond env (trace w) (DeleteDocument key)).
Qed.

Lemma afterUpdate_unpublished (result : obj) (w w1 : World) :
  Lifecycle.checkIfDocumentIsPublished env (get result "id") w
  = Some (w1, Ok false) ->
  Lifecycle.afterUpdate env result w
  = Some (after_call env
            (DeleteDocument (or_else (get result "documentId")
                                     (get result "id"))) w1, Ok tt).
Proof.
  intros Hc. unfold Lifecycle.afterUpdate, bind. rewrite Hc.
  apply removeDocument_run.
Qed.

(** C9.  The key passed to the index removal is the record's [documentId]
    when that is truthy and its [id] otherwise: for every post-delete
    event, and for every post-update event whose record is not published
    (the store check answers false in [src/index.ts], [publishedAt] is
    falsy in the inline variant), the one call made after the check is
    [DeleteDocument] of that key. *)
Theorem removal_key (result : obj) (w : World) :
  let key := if truthy (get result "documentId")
             then get result "documentId" else get result "id" in
  Lifecycle.afterDelete env result w
  = Some (after_call env (DeleteDocument key) w, Ok tt)
  /\ Inline.afterDelete env result w
     = Some (after_call env (DeleteDocument key) w, Ok tt)
  /\ (forall w1,
        Lifecycle.checkIfDocumentIsPublished env (get result "id") w
        = Some (w1, Ok false) ->
        Lifecycle.afterUpdate env result w
        = Some (after_call env (DeleteDocument key) w1, Ok tt))
  /\ (truthy (get result "publishedAt") = false ->
      Inline.afterUpdate env result w
      = Some (after_call env (DeleteDocument key) w, Ok tt)).
Proof.
  cbv zeta. fold (or_else (get result "documentId") (get result "id")).
  split; [apply removeDocument_run|].
  split; [apply removeFromMeiliSearch_run|].
  split.
  - intros w1 Hc. now apply afterUpdate_unpublished.
  - intros Hp. unfold Inline.afterUpdate. rewrite Hp.
    apply removeFromMeiliSearch_run.
Qed.

(** C10.  When the store lookup of [checkIfDocumentIsPublished] throws or
    finds no record, the check answers false whatever the event's record
    says: [afterCreate] makes no call besides the lookup (nothing is
    indexed) and [afterUpdate] removes the document under
    [documentId || id]. *)
Theorem lookup_failure_means_unpublished (result : obj) (w : World) :
  (exists e, respond env (trace w) (DbFindOne (get result "id")) = Throw e)
  \/ (exists dbDoc,
        respond env (trace w) (DbFindOne (get result "id")) = Ok dbDoc
        /\ truthy dbDoc = false) ->
  let w1 := after_call env (DbFindOne (get result "id")) w in
  let key := if truthy (get result "documentId")
             then get result "documentId" else get result "id" in
  Lifecycle.checkIfDocumentIsPublished env (get result "id") w
  = Some (w1, Ok false)
  /\ Lifecycle.afterCreate env result w = Some (w1, Ok tt)
  /\ Lifecycle.afterUpdate env result w
     = Some (after_call env (DeleteDocument key) w1, Ok tt)
  /\ trace (after_call env (DeleteDocument key) w1)
     = (trace w ++ [DbFindOne (get result "id"); DeleteDocument key])%list.
Proof.
  intros H. cbv zeta.
  assert (Lifecycle.checkIfDocumentIsPublished env (get result "id") w
          = Some (after_call env (DbFindOne (get result "id")) w, Ok false))
    as Hc.
  { rewrite checkIfDocumentIsPublished_run.
    destruct H as [[e ->]|(dbDoc & -> & Hf)]; [reflexivity|].
    now rewrite Hf. }
  split; [exact Hc|]. split; [|split].
  - unfold Lifecycle.afterCreate, bind. now rewrite Hc.
  - now apply afterUpdate_unpublished.
  - simpl. now rewrite <- app_assoc.
Qed.

End HookClaims.

Lemma publish_guard_witness :
  @Mapper.beforeUpdate iso_only_host quiet_env
    [("publishedAt", VStr "2024-01-01")] [("id", num_of_Z 7)] start
  = (start, [("publishedAt", VStr "2024-01-01")], Ok tt)
  /\ @Mapper.beforeUpdate iso_only_host quiet_env
       [("SF_Number", VStr "SF-1"); ("publishedAt", VNull)]
       [("id", num_of_Z 7)] start
     = (start, [("SF_Number", VStr "SF-1"); ("publishedAt", VNull)], Ok tt).
Proof.
  split; apply publish_guard; reflexivity.
Defined.

(** Without the key, the same payload reaches the store and the
    enrichment service. *)
Example beforeUpdate_without_publishedAt :
  trace (fst (fst (@Mapper.beforeUpdate iso_only_host quiet_env
                     [("SF_Number", VStr "SF-1")] [("id", num_of_Z 7)] start)))
  = [ EntityFindOne (num_of_Z 7);
      AxiosGet "http://fastapi.local/api/salesforce/document/SF-1"
               "Bearer secret" ].
Proof. reflexivity. Qed.

(** An enrichment on create: empty fields are filled, a filled field is
    kept, a value outside the allow-list is dropped. *)
Example beforeCreate_enriches :
  snd (fst (@Mapper.beforeCreate iso_only_host enriching_env
              [("SF_Number", VStr "SF-1"); ("Client_Name", VStr "Initech")]
              start))
  = [ ("SF_Number", VStr "SF-1");
      ("Client_Name", VStr "Initech");
      ("Industry", VStr "Industry A");
      ("Last_Stage_Change_Date", VStr "2024-03-15") ].
Proof. vm_compute. reflexivity. Qed.

Lemma removal_key_witness :
  @Lifecycle.afterUpdate iso_only_host quiet_env draft_record start
  = Some ({| trace := [ DbFindOne (num_of_Z 7);
                        DeleteDocument (VStr "abc123") ];
             now := 0 |}, Ok tt)
  /\ @Inline.afterUpdate iso_only_host quiet_env draft_record start
     = Some ({| trace := [ DeleteDocument (VStr "abc123") ]; now := 0 |},
             Ok tt).
Proof.
  split.
  - exact (proj1 (proj2 (proj2 (@removal_key iso_only_host quiet_env
                                   draft_record start)))
             {| trace := [DbFindOne (num_of_Z 7)]; now := 0 |} eq_refl).
  - exact (proj2 (proj2 (proj2 (@removal_key iso_only_host quiet_env
                                   draft_record start)))
             eq_refl).
Defined.

(** The store fails while the record of the event is published. *)
Lemma lookup_failure_means_unpublished_witness :
  @Lifecycle.afterCreate iso_only_host failing_env published_record start
  = Some ({| trace := [ DbFindOne (num_of_Z 7) ]; now := 0 |}, Ok tt)
  /\ @Lifecycle.afterUpdate iso_only_host failing_env published_record start
     = Some ({| trace := [ DbFindOne (num_of_Z 7);
                           DeleteDocument (VStr "abc123") ];
                now := 0 |}, Ok tt).
Proof.
  destruct (@lookup_failure_means_unpublished iso_only_host failing_env published_record start
              (or_introl (ex_intro _ (Error "connection refused") eq_refl)))
    as (_ & Hcreate & Hupdate & _).
  split; [exact Hcreate | exact Hupdate].
Defined.

(** ** The index manager *)

Section RebuildFacts.
Context {host : Host}.
Variable env : Env.

Lemma slice_batch {A} (l : list A) (i : nat) :
  Manager.slice l i (i + Manager.batchSize)
  = firstn Manager.batchSize (skipn i l).
Proof.
  unfold Manager.slice. f_equal. lia.
Qed.

Lemma batchLoop_run (fuel : nat) :
  forall (docs : list value) (i a b : nat) (w : World),
    List.length docs - i < fuel ->
    Manager.batchLoop env fuel docs i a b w
    = let '(w', x, y) :=
        submit_all env (chunks_fuel fuel Manager.batchSize (skipn i docs)) w in
      Some (w', Ok {| Manager.indexed := a + x; Manager.skipped := b + y |}).
Proof.
  induction fuel as [|fuel IH]; intros docs i a b w Hf; [lia|].
  cbn [Manager.batchLoop chunks_fuel].
  destruct (Nat.ltb_spec i (List.length docs)) as [Hlt|Hge].
  - destruct (skipn i docs) as [|x rest] eqn:Es.
    { apply (f_equal (@List.length _)) in Es. rewrite length_skipn in Es.
      simpl in Es. lia. }
    rewrite <- Es. cbn [submit_all].
    rewrite skipn_skipn, (Nat.add_comm Manager.batchSize i).
    rewrite slice_batch.
    set (batch := firstn Manager.batchSize (skipn i docs)).
    unfold bind, try_catch, perform, ret.
    assert (List.length docs - (i + Manager.batchSize) < fuel) as Hf'
      by (unfold Manager.batchSize; lia).
    destruct (respond env (trace w) (AddDocuments batch)) as [v|e].
    + rewrite (IH docs _ _ _ _ Hf').
      destruct (submit_all env _ _) as [[w' x'] y'].
      now rewrite Nat.add_assoc.
    + rewrite (IH docs _ _ _ _ Hf').
      destruct (submit_all env _ _) as [[w' x'] y'].
      now rewrite Nat.add_assoc.
  - rewrite skipn_all2 by lia. cbn [submit_all]. unfold ret.
    now rewrite !Nat.add_0_r.
Qed.

Lemma submit_all_trace (bs : list (list value)) : forall w,
  trace (fst (fst (submit_all env bs w)))
  = (trace w ++ map AddDocuments bs)%list.
Proof.
  induction bs as [|b bs IH]; intros w; cbn [submit_all map].
  - simpl. now rewrite app_nil_r.
  - specialize (IH (after_call env (AddDocuments b) w)).
    destruct (submit_all env bs _) as [[w' i] s].
    destruct (respond env (trace w) (AddDocuments b)); simpl in *;
      rewrite IH; now rewrite <- app_assoc.
Qed.

Lemma submit_all_total (bs : list (list value)) : forall w,
  snd (fst (submit_all env bs w)) + snd (submit_all env bs w)
  = List.length (concat bs).
Proof.
  induction bs as [|b bs IH]; intros w; cbn [submit_all concat]; [reflexivity|].
  specialize (IH (after_call env (AddDocuments b) w)).
  destruct (submit_all env bs _) as [[w' i] s].
  rewrite length_app.
  destruct (respond env (trace w) (AddDocuments b)); simpl in *; lia.
Qed.

Lemma chunks_fuel_concat {A} (fuel n : nat) : forall l : list A,
  0 < n -> List.length l < fuel -> concat (chunks_fuel fuel n l) = l.
Proof.
  induction fuel as [|fuel IH]; intros l Hn Hf; [lia|].
  destruct l as [|x l]; [reflexivity|].
  cbn [chunks_fuel concat]. rewrite IH; [apply firstn_skipn | exact Hn |].
  rewrite length_skipn. cbn [List.length] in *. lia.
Qed.

Lemma chunks_fuel_sizes {A} (fuel n : nat) : forall l : list A,
  Forall (fun b => 0 < List.length b <= n) (chunks_fuel fuel n l)
  \/ n = 0.
Proof.
  destruct n as [|n]; [now right|]. left. revert l.
  induction fuel as [|fuel IH]; intros l; [constructor|].
  destruct l as [|x l]; [constructor|].
  cbn [chunks_fuel]. constructor; [|apply IH].
  split; [simpl; lia | apply firstn_le_length].
Qed.

Lemma chunks_fuel_nil {A} (fuel n : nat) : @chunks_fuel A fuel n [] = [].
Proof. now destruct fuel. Qed.

(** Every batch but the last is full. *)
Lemma chunks_fuel_full {A} (fuel n : nat) :
  forall (l : list A) (pre : list (list A)) (b : list A) (post : list (list A)),
    chunks_fuel fuel n l = (pre ++ b :: post)%list ->
    post <> [] -> List.length b = n.
Proof.
  induction fuel as [|fuel IH]; intros l pre b post Hc Hpost.
  - destruct pre; discriminate Hc.
  - destruct l as [|x l]; [destruct pre; discriminate Hc|].
    cbn [chunks_fuel] in Hc. destruct pre as [|p pre].
    + cbn [app] in Hc. injection Hc as Hb Hrest. subst b.
      apply firstn_length_le.
      destruct (Nat.le_gt_cases n (List.length (x :: l))) as [Hle|Hgt];
        [exact Hle|].
      rewrite skipn_all2, chunks_fuel_nil in Hrest by lia.
      now subst post.
    + cbn [app] in Hc. injection Hc as _ Hrest.
      exact (IH _ _ _ _ Hrest Hpost).
Qed.

Lemma map_result_length {A B} (f : A -> result B) : forall l l',
  map_result f l = Ok l' -> List.length l' = List.length l.
Proof.
  induction l as [|x l IH]; intros l' H; simpl in H.
  - now injection H as <-.
  - destruct (f x) as [y|e]; simpl in H; [|discriminate].
    destruct (map_result f l) as [ys|e]; simpl in H; [|discriminate].
    injection H as <-. simpl. f_equal. now apply IH.
Qed.

Lemma length_is_zero (l : list value) :
  strict_eq (Manager.js_length (VArr l)) (num_of_Z 0)
  = match l with [] => true | _ => false end.
Proof. destruct l; reflexivity. Qed.

Lemma rebuildIndex_run (docs sdocs : list value) (w : World) :
  respond env (trace w) EntityFindMany = Ok (VArr docs) ->
  map_result Manager.transformDocumentForSearch docs = Ok sdocs ->
  Manager.rebuildIndex env w
  = let '(w', x, y) :=
      submit_all env (batches_of sdocs) (after_call env EntityFindMany w) in
    Some (w', Ok {| Manager.indexed := x; Manager.skipped := y |}).
Proof.
  intros Hfind Htr.
  unfold Manager.rebuildIndex, try_catch, bind, perform, lift. rewrite Hfind.
  cbn [truthy negb orb]. rewrite length_is_zero.
  destruct docs as [|d docs].
  - simpl in Htr. injection Htr as <-. reflexivity.
  - rewrite Htr. rewrite batchLoop_run by lia.
    unfold batches_of. cbn [skipn].
    now destruct (submit_all env _ _) as [[w' x] y].
Qed.

End RebuildFacts.

Section RebuildClaim.
Context {host : Host}.
Variable env : Env.

Lemma chunks_fuel_cons {A} (fuel n : nat) (l : list A) :
  l <> [] ->
  chunks_fuel (S fuel) n l = firstn n l :: chunks_fuel fuel n (skipn n l).
Proof. destruct l; [congruence | reflexivity]. Qed.

Lemma three_batches {A} (l : list A) :
  List.length l = 250 ->
  exists b1 b2 b3,
    batches_of l = [b1; b2; b3]
    /\ List.length b1 = 100 /\ List.length b2 = 100 /\ List.length b3 = 50.
Proof.
  intros Hl. unfold batches_of, Manager.batchSize. rewrite Hl.
  assert (forall k (m : list A), List.length m = S k -> m <> []) as Hne
    by (intros k m Hm ->; discriminate).
  exists (firstn 100 l), (firstn 100 (skipn 100 l)),
         (firstn 100 (skipn 100 (skipn 100 l))).
  rewrite (chunks_fuel_cons 250 100 l) by (apply (Hne 249); exact Hl).
  rewrite (chunks_fuel_cons 249 100 (skipn 100 l))
    by (apply (Hne 149); rewrite length_skipn, Hl; reflexivity).
  rewrite (chunks_fuel_cons 248 100 (skipn 100 (skipn 100 l)))
    by (apply (Hne 49); rewrite !length_skipn, Hl; reflexivity).
  assert (skipn 100 (skipn 100 (skipn 100 l)) = []) as ->
    by (apply skipn_all2; rewrite !length_skipn, Hl; apply Nat.leb_le; reflexivity).
  repeat split.
  - rewrite length_firstn, Hl. reflexivity.
  - rewrite length_firstn, length_skipn, Hl. reflexivity.
  - rewrite length_firstn, !length_skipn, Hl. reflexivity.
Qed.

(** C6.  When the store returns the published records [docs] and each one
    transforms, [rebuildIndex] returns counts: it has submitted the
    transformed records in consecutive batches of 100 (the last one may be
    shorter), one after the other in order; a rejected batch is counted as
    skipped and the following batches are still submitted; indexed plus skipped is the
    number of records.  For 250 records there are three batches of 100, 100
    and 50, and when exactly the second one is rejected the result is
    [{indexed: 150, skipped: 100}]. *)
Theorem rebuild_batches (docs sdocs : list value) (w : World) :
  respond env (trace w) EntityFindMany = Ok (VArr docs) ->
  map_result Manager.transformDocumentForSearch docs = Ok sdocs ->
  let w0 := after_call env EntityFindMany w in
  let bs := batches_of sdocs in
  exists w' result,
    Manager.rebuildIndex env w = Some (w', Ok result)
    /\ submit_all env bs w0
       = (w', Manager.indexed result, Manager.skipped result)
    /\ trace w' = (trace w ++ EntityFindMany :: map AddDocuments bs)%list
    /\ concat bs = sdocs
    /\ Forall (fun b => 0 < List.length b <= 100) bs
    /\ (forall pre b post,
          bs = (pre ++ b :: post)%list -> post <> [] -> List.length b = 100)
    /\ Manager.indexed result + Manager.skipped result = List.length docs
    /\ (List.length docs = 250 ->
        exists b1 b2 b3,
          bs = [b1; b2; b3]
          /\ List.length b1 = 100 /\ List.length b2 = 100
          /\ List.length b3 = 50
          /\ ((exists v, respond env (trace w0) (AddDocuments b1) = Ok v) ->
              (exists e, respond env (trace w0 ++ [AddDocuments b1])
                           (AddDocuments b2) = Throw e) ->
              (exists v, respond env
                           (trace w0 ++ [AddDocuments b1; AddDocuments b2])
                           (AddDocuments b3) = Ok v) ->
              result = {| Manager.indexed := 150; Manager.skipped := 100 |})).
Proof.
  intros Hfind Htr. cbv zeta.
  pose proof (map_result_length _ _ _ Htr) as Hlen.
  rewrite (rebuildIndex_run env docs sdocs w Hfind Htr).
  pose proof (submit_all_trace env (batches_of sdocs)
                (after_call env EntityFindMany w)) as Htrace.
  pose proof (submit_all_total env (batches_of sdocs)
                (after_call env EntityFindMany w)) as Htotal.
  assert (concat (batches_of sdocs) = sdocs) as Hcat
    by (apply chunks_fuel_concat; [unfold Manager.batchSize|]; lia).
  destruct (submit_all env (batches_of sdocs) (after_call env EntityFindMany w))
    as [[w' x] y] eqn:Es.
  exists w', {| Manager.indexed := x; Manager.skipped := y |}.
  cbn [Manager.indexed Manager.skipped fst snd] in *.
  split; [reflexivity|]. split; [reflexivity|].
  split; [rewrite Htrace; cbn [after_call trace]; now rewrite <- app_assoc|].
  split; [exact Hcat|].
  split.
  { destruct (chunks_fuel_sizes (S (List.length sdocs)) Manager.batchSize sdocs)
      as [H|H]; [exact H | discriminate H]. }
  split.
  { intros pre b post Hbs Hpost.
    exact (chunks_fuel_full _ _ _ _ _ _ Hbs Hpost). }
  split; [rewrite Htotal, Hcat; exact Hlen|].
  intros H250. rewrite <- Hlen in H250.
  destruct (three_batches sdocs H250) as (b1 & b2 & b3 & Hbs & L1 & L2 & L3).
  exists b1, b2, b3. repeat (split; [assumption|]).
  intros [v1 R1] [e2 R2] [v3 R3].
  rewrite Hbs in Es. cbn [submit_all after_call trace] in Es, R1, R2, R3.
  rewrite <- (app_assoc _ [AddDocuments b1] [AddDocuments b2]) in Es.
  cbn [app] in Es.
  rewrite R1, R2, R3, L1, L2, L3 in Es.
  now injection Es as _ <- <-.
Qed.

End RebuildClaim.

Lemma rebuild_batches_witness :
  exists w',
    @Manager.rebuildIndex iso_only_host second_batch_fails start
    = Some (w', Ok {| Manager.indexed := 150; Manager.skipped := 100 |})
    /\ map (fun c => match c with
                     | AddDocuments b => List.length b
                     | _ => O
                     end) (trace w')
       = [0; 100; 100; 50].
Proof.
  assert (map_result
            (@Manager.transformDocumentForSearch iso_only_host) records_250
          = Ok (repeat empty_record_document 250)) as Htr
    by (vm_compute; reflexivity).
  destruct (@rebuild_batches iso_only_host second_batch_fails records_250
              (repeat empty_record_document 250) start eq_refl Htr)
    as (w' & r & Hrun & _ & Htrace & _ & _ & _ & _ & H250).
  destruct (H250 (repeat_length _ 250))
    as (b1 & b2 & b3 & Hbs & L1 & L2 & L3 & Hcase).
  exists w'. rewrite Hrun, Htrace, Hbs.
  rewrite (Hcase (ex_intro _ VNull eq_refl)
                 (ex_intro _ (Error "batch rejected") eq_refl)
                 (ex_intro _ VNull eq_refl)).
  split; [reflexivity|]. cbn. now rewrite L1, L2, L3.
Defined.

Section RefreshClaim.
Context {host : Host}.
Variable env : Env.

Lemma after_call_now (c : call) (w : World) :
  (now w + duration c <= now (after_call env c w))%Z.
Proof. unfold after_call; simpl. lia. Qed.

(** The polling loop ends before its fuel does: each turn that goes on
    has slept a second. *)
Lemma waitLoop_returns (fuel : nat) : forall (startTime timeout : Z) (w : World),
  (1 <= Z.of_nat fuel)%Z ->
  (timeout - (now w - startTime) <= 1000 * (Z.of_nat fuel - 1))%Z ->
  exists w', Manager.waitLoop env fuel startTime timeout w = Some (w', Ok tt).
Proof.
  induction fuel as [|fuel IH]; intros startTime timeout w H1 Hb; [lia|].
  cbn [Manager.waitLoop]. unfold bind at 1. unfold Date_now.
  destruct (Z.ltb_spec (now w - startTime) timeout) as [Hlt|Hge];
    [|eexists; reflexivity].
  unfold bind, try_catch, perform, sleep, lift, ret.
  pose proof (after_call_now GetStats w) as Hn1. cbn [duration] in Hn1.
  destruct (respond env (trace w) GetStats) as [stats|e];
    [|eexists; reflexivity].
  destruct (get_prop stats "isIndexing") as [isIndexing|e];
    [|eexists; reflexivity].
  destruct (truthy isIndexing); cbn [negb]; [|eexists; reflexivity].
  pose proof (after_call_now (Sleep 1000) (after_call env GetStats w)) as Hn2.
  cbn [duration] in Hn2. change (Z.max 0 1000) with 1000%Z in Hn2.
  apply IH; lia.
Qed.

Lemma waitForTask_returns (timeout : Z) (w : World) :
  exists w', Manager.waitForTask env timeout w = Some (w', Ok tt).
Proof.
  unfold Manager.waitForTask, bind, Date_now.
  apply waitLoop_returns; [lia|].
  destruct (Z.le_gt_cases 0 timeout) as [Hpos|Hneg].
  - rewrite Nat2Z.inj_add, Z2Nat.id by (apply Z.div_pos; lia).
    pose proof (Z.mod_pos_bound timeout 1000 ltac:(lia)).
    pose proof (Z.div_mod timeout 1000 ltac:(lia)). lia.
  - lia.
Qed.

Lemma clearIndex_returns (w : World) :
  exists w' r, Manager.clearIndex env w = Some (w', r).
Proof.
  unfold Manager.clearIndex, try_catch, bind, perform, throw.
  destruct (respond env (trace w) DeleteAllDocuments); [|eauto].
  destruct (waitForTask_returns 30000 (after_call env DeleteAllDocuments w))
    as [w' Hw].
  rewrite Hw. eauto.
Qed.

Lemma rebuildIndex_returns (w : World) :
  exists w' r, Manager.rebuildIndex env w = Some (w', r).
Proof.
  unfold Manager.rebuildIndex, try_catch, bind, perform, throw, lift, ret.
  destruct (respond env (trace w) EntityFindMany) as [documents|e]; [|eauto].
  destruct (negb (truthy documents) || _); [eauto|].
  destruct documents; eauto.
  destruct (map_result Manager.transformDocumentForSearch elems) as [sdocs|e];
    [|eauto].
  rewrite batchLoop_run by lia.
  destruct (submit_all env _ _) as [[w' x] y]. eauto.
Qed.

(** The handler of [refreshIndex] on a caught value. *)
Lemma refreshIndex_handler (error : exn) (w : World) :
  bind (lift (rbind (error_message error) ToString))
       (fun reason =>
          ret {| Manager.success := false;
                 Manager.message := "Index refresh failed: " ++ reason;
                 Manager.stats := None |}) w
  = Some (w, refresh_failure error).
Proof.
  unfold bind, lift, ret, refresh_failure.
  destruct error as [message|v]; [reflexivity|].
  cbn [error_message]. unfold get_prop.
  destruct (is_nullish v); [reflexivity|]. cbn [rbind].
  now destruct (ToString (prop v "message")).
Qed.

(** [refreshIndex] always ends: with the success report when both steps
    return, and otherwise with what its handler makes of the value
    thrown. *)
Lemma refreshIndex_run (w : World) :
  exists w' r,
    Manager.refreshIndex env w = Some (w', r)
    /\ match Manager.clearIndex env w with
       | Some (w1, Ok _) =>
           match Manager.rebuildIndex env w1 with
           | Some (w2, Ok counts) =>
               w' = w2
               /\ r = Ok {| Manager.success := true;
                            Manager.message :=
                              "Index refreshed successfully. Indexed "
                              ++ Manager.count_to_string (Manager.indexed counts)
                              ++ " documents.";
                            Manager.stats := Some counts |}
           | Some (w2, Throw e) => w' = w2 /\ r = refresh_failure e
           | None => False
           end
       | Some (w1, Throw e) => w' = w1 /\ r = refresh_failure e
       | None => False
       end.
Proof.
  unfold Manager.refreshIndex, try_catch. unfold bind at 1.
  destruct (clearIndex_returns w) as (w1 & r1 & ->).
  destruct r1 as [[]|e].
  - unfold bind at 1.
    destruct (rebuildIndex_returns w1) as (w2 & r2 & ->).
    destruct r2 as [counts|e]; [unfold ret; eauto|].
    rewrite refreshIndex_handler. eauto.
  - rewrite refreshIndex_handler. eauto.
Qed.

End RefreshClaim.

(** An engine that refuses the connection: the refresh ends with the
    failure report. *)
Example refreshIndex_reports_an_error :
  option_map snd (@Manager.refreshIndex iso_only_host failing_env start)
  = Some (Ok {| Manager.success := false;
                Manager.message := "Index refresh failed: connection refused";
                Manager.stats := None |}).
Proof. vm_compute. reflexivity. Qed.

(** C7.  [refreshIndex] runs [clearIndex] and then [rebuildIndex] and
    always ends.  When both return it reports success with the rebuild
    counts; when one of them throws an [Error], or any value whose
    [message] can be read and printed, it reports the failure with that
    message.  But it does raise: when the engine rejects the deletion with
    [null], the handler's [error.message] throws a [TypeError], which
    [refreshIndex] propagates. *)
Theorem refreshIndex_raises_on_null_rejection :
  (forall (host : Host) (env : Env) (w : World),
     exists w' r,
       Manager.refreshIndex env w = Some (w', r)
       /\ match Manager.clearIndex env w with
          | Some (w1, Ok _) =>
              match Manager.rebuildIndex env w1 with
              | Some (w2, Ok counts) =>
                  w' = w2
                  /\ r = Ok {| Manager.success := true;
                               Manager.message :=
                                 "Index refreshed successfully. Indexed "
                                 ++ Manager.count_to_string
                                      (Manager.indexed counts)
                                 ++ " documents.";
                               Manager.stats := Some counts |}
              | Some (w2, Throw e) => w' = w2 /\ r = refresh_failure e
              | None => False
              end
          | Some (w1, Throw e) => w' = w1 /\ r = refresh_failure e
          | None => False
          end)
  /\ (forall (host : Host) (message : string),
        refresh_failure (Error message)
        = Ok {| Manager.success := false;
                Manager.message := "Index refresh failed: " ++ message;
                Manager.stats := None |})
  /\ @Manager.refreshIndex iso_only_host engine_rejects_with_null start
     = Some ({| trace := [DeleteAllDocuments]; now := 0 |},
             Throw (Error "Cannot read properties of null or undefined (reading 'message')")).
Proof.
  split; [|split].
  - intros host env w. apply refreshIndex_run.
  - reflexivity.
  - vm_compute. reflexivity.
Qed.

(** ** The document transformer *)

Lemma toLowerCase_app (a b : string) :
  toLowerCase (a ++ b) = toLowerCase a ++ toLowerCase b.
Proof. induction a; simpl; congruence. Qed.

Lemma contains_toLowerCase (s t : string) :
  contains s t -> contains (toLowerCase s) (toLowerCase t).
Proof.
  intros (pre & post & ->). exists (toLowerCase pre), (toLowerCase post).
  now rewrite !toLowerCase_app.
Qed.

Lemma contains_join (sep : string) (l : list string) (x : string) :
  In x l -> contains (join sep l) x.
Proof.
  induction l as [|y l IH]; intros Hin; [now elim Hin|].
  destruct Hin as [->|Hin].
  - destruct l as [|z l].
    + exists "", "". cbn. now rewrite append_nil_r.
    + exists "", (sep ++ join sep (z :: l)). reflexivity.
  - destruct (IH Hin) as (pre & post & E).
    destruct l as [|z l]; [now elim Hin|].
    change (join sep (y :: z :: l)) with (y ++ sep ++ join sep (z :: l)).
    rewrite E. exists (y ++ sep ++ pre), post. now rewrite !append_assoc.
Qed.

Section TransformFacts.
Context {host : Host}.

Lemma element_strings_In (s : string) (l : list value) : forall ss,
  element_strings l = Ok ss -> In (VStr s) l -> In s ss.
Proof.
  induction l as [|x l IH]; intros ss Hs Hin; [now elim Hin|].
  cbn [element_strings] in Hs.
  destruct (element_string x) as [sx|e] eqn:Hx; cbn [rbind] in Hs;
    [|discriminate Hs].
  destruct (element_strings l) as [sl|e]; cbn [rbind] in Hs;
    [|discriminate Hs].
  injection Hs as <-. destruct Hin as [->|Hin].
  - left. now injection Hx.
  - right. now apply IH.
Qed.

Lemma contains_array_join (sep s text : string) (l : list value) :
  array_join sep l = Ok text -> In (VStr s) l -> contains text s.
Proof.
  unfold array_join. intros Hj Hin.
  destruct (element_strings l) as [ss|e] eqn:Hs; cbn [rbind] in Hj;
    [|discriminate Hj].
  injection Hj as <-. apply contains_join.
  now apply (element_strings_In s l).
Qed.

(** The fields of the manager's output document that the claims read. *)
Lemma transformDocumentForSearch_fields (document out : value) :
  Manager.transformDocumentForSearch document = Ok out ->
  exists descriptionText attachmentsText,
    extractTextFromBlocks (prop document "Description") = Ok descriptionText
    /\ formatAttachments (prop document "Attachments") = Ok attachmentsText
    /\ prop out "id" = prop document "id"
    /\ prop out "documentId" = prop document "documentId"
    /\ prop out "Description" = VStr descriptionText
    /\ searchableText document descriptionText attachmentsText
       = Ok (prop out "searchableText").
Proof.
  unfold Manager.transformDocumentForSearch, get_prop.
  destruct (is_nullish document); cbn [rbind]; [discriminate|].
  destruct (extractTextFromBlocks _) as [d|e]; cbn [rbind]; [|discriminate].
  destruct (formatAttachments _) as [a|e]; cbn [rbind]; [|discriminate].
  destruct (searchableText document d a) as [text|e] eqn:Ht; cbn [rbind];
    [|discriminate].
  intros [= <-]. exists d, a. rewrite Ht. repeat split; reflexivity.
Qed.

Lemma searchableDocument_id (document out : value) :
  Inline.searchableDocument document = Ok out ->
  prop out "id" = or_else (prop document "documentId") (prop document "id").
Proof.
  unfold Inline.searchableDocument, get_prop.
  destruct (is_nullish document); cbn [rbind]; [discriminate|].
  destruct (extractTextFromBlocks _) as [d|e]; cbn [rbind]; [|discriminate].
  destruct (formatAttachments _) as [a|e]; cbn [rbind]; [|discriminate].
  destruct (searchableText document d a) as [text|e]; cbn [rbind];
    [|discriminate].
  intros [= <-]. reflexivity.
Qed.

(** C1 (the code departs from the claim).  The manager's transformer
    copies the internal id into the primary-key field: for the record
    [{id: 7, documentId: "abc123"}] the output [id] is 7, not ["abc123"],
    whereas the inline path builds the same field from the document
    identifier. *)
Theorem manager_primary_key_is_internal_id :
  exists out out',
    Manager.transformDocumentForSearch failing_document = Ok out
    /\ prop out "id" = num_of_Z 7
    /\ prop out "id" <> prop failing_document "documentId"
    /\ Inline.searchableDocument failing_document = Ok out'
    /\ prop out' "id" = VStr "abc123".
Proof.
  destruct (Manager.transformDocumentForSearch failing_document) as [out|e] eqn:E;
    [|discriminate E].
  destruct (Inline.searchableDocument failing_document) as [out'|e] eqn:E';
    [|discriminate E'].
  exists out, out'.
  destruct (transformDocumentForSearch_fields _ _ E) as (d & a & _ & _ & Hid & _).
  pose proof (searchableDocument_id _ _ E') as Hid'.
  rewrite Hid, Hid'. repeat split; try reflexivity. discriminate.
Qed.

Lemma mapped_description (strapiData : obj) (apiData : value) (s : string) :
  truthy (get strapiData "Description") = false ->
  prop apiData "Description" = VStr s ->
  s <> "" ->
  get (fst (Mapper.mapAPIFieldsToStrapi strapiData apiData)) "Description"
  = Mapper.description_blocks (VStr s).
Proof.
  intros Hempty Hval Hne.
  assert (is_nullish apiData = false) as Hobj
    by (destruct apiData; try reflexivity; discriminate Hval).
  assert (In ("Description", Some (Mapper.returns Mapper.description_blocks))
             plain_mappings) as Hin
    by (unfold plain_mappings; cbn [firstn Mapper.field_mappings];
        repeat first [left; reflexivity | right]).
  destruct (mapper_slot strapiData apiData _ _ Hin Hobj) as (sd1 & Hp & Hl).
  unfold get. rewrite Hl.
  unfold Mapper.populateField, Mapper.populateField_write, Mapper.returns in Hp.
  rewrite Hempty, Hval in Hp.
  cbn [negb is_undefined is_null is_empty_string andb] in Hp.
  apply String.eqb_neq in Hne. rewrite Hne in Hp.
  cbn [negb is_null andb Mapper.description_blocks rbind] in Hp.
  injection Hp as <-. now rewrite lookup_set_same.
Qed.

Lemma extract_single_paragraph (s : string) :
  extractTextFromBlocks (Mapper.description_blocks (VStr s)) = Ok (trim s).
Proof.
  reflexivity.
Qed.

Lemma searchableText_contains (document out : value) (d a : string) :
  searchableText document d a = Ok out ->
  d <> "" ->
  exists text, out = VStr text /\ contains text (toLowerCase d).
Proof.
  unfold searchableText. intros Hs Hne.
  destruct (array_join " " _) as [joined|e] eqn:Hj; cbn [rbind] in Hs;
    [|discriminate Hs].
  injection Hs as <-. eexists. split; [reflexivity|].
  apply contains_toLowerCase. apply (contains_array_join _ _ _ _ Hj).
  unfold filter_Boolean. apply filter_In. split.
  - do 5 right. left. reflexivity.
  - cbn [truthy]. apply String.eqb_neq in Hne. now rewrite Hne.
Qed.

Lemma transformed_description (mapped : obj) (out : value) :
  get mapped "Description" = Mapper.description_blocks (VStr "Hello world") ->
  Manager.transformDocumentForSearch (VObj mapped) = Ok out ->
  prop out "Description" = VStr "Hello world"
  /\ exists a,
       searchableText (VObj mapped) "Hello world" a
       = Ok (prop out "searchableText").
Proof.
  intros Hd Hout.
  destruct (transformDocumentForSearch_fields _ _ Hout)
    as (d & a & Hx & _ & _ & _ & HD & HS).
  cbn [prop] in Hx. rewrite Hd, extract_single_paragraph in Hx.
  assert (d = "Hello world") as -> by (injection Hx as <-; reflexivity).
  split; [exact HD | now exists a].
Qed.

(** C8 (amended).  Mapping the enrichment description ["Hello world"] into
    a record whose Description is empty stores the single-paragraph block
    list; transforming the mapped record then yields the Description text
    ["Hello world"] and a composite searchable text that contains its
    lower-case form ["hello world"]. *)
Theorem description_round_trip
    (strapiData : obj) (apiData out : value) :
  truthy (get strapiData "Description") = false ->
  prop apiData "Description" = VStr "Hello world" ->
  let mapped := fst (Mapper.mapAPIFieldsToStrapi strapiData apiData) in
  Manager.transformDocumentForSearch (VObj mapped) = Ok out ->
  get mapped "Description" = Mapper.description_blocks (VStr "Hello world")
  /\ prop out "Description" = VStr "Hello world"
  /\ exists text,
       prop out "searchableText" = VStr text /\ contains text "hello world".
Proof.
  intros Hempty Hval mapped Hout.
  pose proof (mapped_description strapiData apiData "Hello world" Hempty Hval
                ltac:(discriminate)) as Hd.
  destruct (transformed_description mapped out Hd Hout) as (HD & a & HS).
  destruct (searchableText_contains (VObj mapped) _ "Hello world" a HS
              ltac:(discriminate)) as (text & Ht & Hc).
  split; [exact Hd|]. split; [exact HD|].
  exists text. split; [exact Ht | exact Hc].
Qed.

End TransformFacts.

Lemma description_round_trip_witness :
  exists out text,
    @Manager.transformDocumentForSearch iso_only_host (VObj hello_record) = Ok out
    /\ prop out "searchableText" = VStr text
    /\ contains text "hello world".
Proof.
  assert (exists out,
            @Manager.transformDocumentForSearch iso_only_host (VObj hello_record)
            = Ok out) as [out E]
    by (eexists; vm_compute; reflexivity).
  destruct (@description_round_trip iso_only_host []
              (VObj [("Description", VStr "Hello world")]) out
              eq_refl eq_refl E) as (_ & _ & text & Ht & Hc).
  exists out, text. split; [exact E|]. split; assumption.
Defined.

(** C8 as stated fails: the composite text of the enriched record is
    ["hello world"], which does not contain ["Hello world"]. *)
Lemma searchable_text_is_lower_case :
  exists out,
    @Manager.transformDocumentForSearch iso_only_host (VObj hello_record) = Ok out
    /\ prop out "searchableText" = VStr "hello world"
    /\ ~ contains "hello world" "Hello world".
Proof.
  eexists. split; [vm_compute; reflexivity|].
  split; [vm_compute; reflexivity|].
  intros (pre & post & E).
  assert (String.length "hello world"
          = String.length (pre ++ "Hello world" ++ post)) as L by now rewrite <- E.
  rewrite !append_length in L. cbn [String.length] in L.
  destruct pre; [|simpl in L; lia]. destruct post; [|simpl in L; lia].
  discriminate E.
Qed.

(* ================================================================== *)
(** * Further properties                                               *)
(* ================================================================== *)

Import Shape Scenarios.

(** ** The field mapper, further *)

Lemma set_same (o : obj) (k : string) (v : value) :
  lookup o k = Some v -> set o k v = o.
Proof.
  induction o as [|[k' v'] o IH]; simpl; [discriminate|].
  destruct (String.eqb k' k) eqn:E.
  - intros [= ->]. apply String.eqb_eq in E. now subst.
  - intros H. now rewrite IH.
Qed.

Lemma lookup_set_keeps (o : obj) (k k' : string) (v : value) :
  lookup o k' <> None -> lookup (set o k v) k' <> None.
Proof.
  destruct (String.eqb k k') eqn:E.
  - apply String.eqb_eq in E; subst. now rewrite lookup_set_same.
  - apply String.eqb_neq in E. now rewrite lookup_set_other.
Qed.

Section MapperMore.
Context {host : Host}.

(** A call that returned returns again, and changes nothing, on any
    target whose slot is as the call left it. *)
Lemma populateField_stable s s1 u f a t :
  Mapper.populateField s f a t = Ok s1 ->
  lookup u f = lookup s1 f ->
  Mapper.populateField u f a t = Ok u.
Proof.
  unfold Mapper.populateField at 1.
  destruct (Mapper.populateField_write s f a t) as [[tv|]|e] eqn:Ew;
    cbn [rbind]; [ | |discriminate]; intros [= <-].
  - rewrite lookup_set_same. intros Hl.
    pose proof (populateField_write_guard _ _ _ _ _ Ew) as (_ & Hu & Hn & He & _).
    unfold Mapper.populateField_write in Ew. rewrite Hu, Hn, He in Ew.
    destruct (truthy (get s f)); [discriminate Ew|]. cbn [negb andb] in Ew.
    unfold Mapper.populateField, Mapper.populateField_write.
    rewrite Hu, Hn, He. unfold get at 1. rewrite Hl.
    destruct (truthy tv); cbn [negb andb rbind]; [reflexivity|].
    destruct (match t with Some g => g a | None => Ok a end) as [tv'|e];
      cbn [rbind] in Ew |- *; [|discriminate Ew].
    destruct (negb (is_null tv')); [|discriminate Ew].
    injection Ew as ->. now rewrite set_same.
  - intros Hl. unfold Mapper.populateField.
    rewrite (populateField_write_slot s u f a t Hl), Ew. reflexivity.
Qed.

(** A second run from a target that agrees with the result of the first
    on the fields of the calls changes nothing: it repeats the calls that
    returned, which write nothing, and stops where the first run threw. *)
Lemma apply_mappings_again ms : forall s api u,
  NoDup (map fst ms) ->
  (forall f, In f (map fst ms) ->
             lookup u f = lookup (fst (Mapper.apply_mappings ms s api)) f) ->
  fst (Mapper.apply_mappings ms u api) = u.
Proof.
  induction ms as [|[f t] ms IH]; intros s api u Hnd H; [reflexivity|].
  cbn [map fst] in Hnd. inversion Hnd as [|? ? Hnotin Hnd']; subst.
  cbn [Mapper.apply_mappings] in H |- *. unfold get_prop in H |- *.
  destruct (is_nullish api); [reflexivity|].
  destruct (Mapper.populateField s f (prop api f) t) as [s1|e] eqn:Hp.
  - assert (lookup u f = lookup s1 f) as Hf.
    { rewrite (H f (or_introl eq_refl)).
      now apply apply_mappings_untouched. }
    rewrite (populateField_stable _ _ _ _ _ _ Hp Hf).
    apply (IH s1); [exact Hnd'|].
    intros g Hg. apply H. now right.
  - assert (lookup u f = lookup s f) as Hf by exact (H f (or_introl eq_refl)).
    unfold Mapper.populateField in Hp |- *.
    rewrite (populateField_write_slot s u f (prop api f) t Hf).
    destruct (Mapper.populateField_write s f (prop api f) t) as [wr|e'];
      [discriminate Hp | reflexivity].
Qed.

Lemma apply_mappings_nullish ms s api :
  is_nullish api = true -> ms <> [] ->
  exists e, Mapper.apply_mappings ms s api = (s, Throw e).
Proof.
  intros Hn Hms. destruct ms as [|[f t] ms]; [congruence|].
  cbn [Mapper.apply_mappings]. unfold get_prop. rewrite Hn. eauto.
Qed.

(** X1.  Mapping the same enrichment payload into a record a second time
    changes nothing: the record after two runs of [mapAPIFieldsToStrapi]
    is the record after one. *)
Theorem mapper_idempotent (strapiData : obj) (apiData : value) :
  let once := fst (Mapper.mapAPIFieldsToStrapi strapiData apiData) in
  fst (Mapper.mapAPIFieldsToStrapi once apiData) = once.
Proof.
  cbv zeta. unfold Mapper.mapAPIFieldsToStrapi.
  apply (apply_mappings_again _ strapiData);
    [apply field_mappings_NoDup | reflexivity].
Qed.

Lemma apply_mappings_keeps ms : forall s api k,
  lookup s k <> None ->
  lookup (fst (Mapper.apply_mappings ms s api)) k <> None.
Proof.
  induction ms as [|[f t] ms IH]; intros s api k H; [exact H|].
  cbn [Mapper.apply_mappings].
  destruct (get_prop api f) as [a|e]; [|exact H].
  unfold Mapper.populateField.
  destruct (Mapper.populateField_write s f a t) as [[tv|]|e]; cbn [rbind];
    [ | |exact H]; apply IH; [now apply lookup_set_keeps | exact H].
Qed.

Lemma people_slots_after_plain sd sd' api :
  Mapper.apply_mappings plain_mappings sd api = (sd', Ok tt) ->
  people_joinable sd' api = people_joinable sd api.
Proof.
  intros Hplain.
  assert (forall k, ~ In k (map fst plain_mappings) -> get sd' k = get sd k)
    as Hsame.
  { intros k Hk. apply get_of_lookup.
    change sd' with (fst (sd', @Ok unit tt)). rewrite <- Hplain.
    now apply apply_mappings_untouched. }
  unfold people_joinable. cbn [forallb].
  rewrite !Hsame; [reflexivity| |];
    unfold plain_mappings; cbn [firstn Mapper.field_mappings map fst In];
    intuition discriminate.
Qed.

(** X2.  [mapAPIFieldsToStrapi] never removes a property of the target
    and never touches a property outside its 26 recognised fields.  It
    throws on a payload that is [null] or [undefined], and then the target
    is left as it was; on any other payload it throws exactly when Author
    or SMEs has a free slot and the payload's value for it is an array
    that cannot be joined, and the error is the one of that [join]. *)
Theorem mapper_reach (strapiData : obj) (apiData : value) (k : string) :
  let after := fst (Mapper.mapAPIFieldsToStrapi strapiData apiData) in
  (hasOwnProperty strapiData k = true -> hasOwnProperty after k = true)
  /\ (~ In k (map fst Mapper.field_mappings) ->
      lookup after k = lookup strapiData k)
  /\ (is_nullish apiData = true ->
      after = strapiData
      /\ exists e, snd (Mapper.mapAPIFieldsToStrapi strapiData apiData) = Throw e)
  /\ (is_nullish apiData = false ->
      succeeds (snd (Mapper.mapAPIFieldsToStrapi strapiData apiData))
      = people_joinable strapiData apiData
      /\ forall e,
           snd (Mapper.mapAPIFieldsToStrapi strapiData apiData) = Throw e ->
           Mapper.join_people (prop apiData "Author") = Throw e
           \/ Mapper.join_people (prop apiData "SMEs") = Throw e).
Proof.
  cbv zeta. split; [|split; [|split]].
  - unfold Mapper.mapAPIFieldsToStrapi, hasOwnProperty. intros H.
    pose proof (apply_mappings_keeps Mapper.field_mappings strapiData apiData k) as Hk.
    destruct (lookup strapiData k); [|discriminate H].
    destruct (lookup (fst _) k); [reflexivity|].
    exfalso. assert (Some v <> None) as Hv by discriminate.
    exact (Hk Hv eq_refl).
  - now apply apply_mappings_untouched.
  - intros H. unfold Mapper.mapAPIFieldsToStrapi.
    destruct (apply_mappings_nullish Mapper.field_mappings strapiData apiData H)
      as [e ->]; [discriminate|]. split; [reflexivity | now exists e].
  - intros H.
    destruct (mapper_run strapiData apiData H) as (sd' & Hplain & ->).
    rewrite <- (people_slots_after_plain _ _ _ Hplain).
    exact (people_run sd' apiData H).
Qed.

End MapperMore.

(** ** What the run time throws *)

Section RunTimeErrors.
Context {host : Host}.

Lemma ToString_array (l : list value) :
  ToString (VArr l) = array_join "," l.
Proof. reflexivity. Qed.

Lemma rbind_well_thrown {A B} (r : result A) (k : A -> result B) :
  well_thrown r = true -> (forall a, well_thrown (k a) = true) ->
  well_thrown (rbind r k) = true.
Proof. destruct r as [a|[m|v]]; simpl; auto. Qed.

Lemma get_prop_well_thrown (v : value) (k : string) :
  well_thrown (get_prop v k) = true.
Proof. unfold get_prop. now destruct (is_nullish v). Qed.

Lemma element_strings_well_thrown (l : list value) :
  (forall x, In x l -> well_thrown (ToString x) = true) ->
  well_thrown (element_strings l) = true.
Proof.
  induction l as [|x l IH]; intros H; [reflexivity|].
  cbn [element_strings]. apply rbind_well_thrown.
  - unfold element_string. destruct (is_nullish x); [reflexivity|].
    apply H. now left.
  - intros sx. apply rbind_well_thrown; [|reflexivity].
    apply IH. intros y Hy. apply H. now right.
Qed.

(** A conversion to a string throws nothing but a [TypeError]. *)
Lemma ToString_well_thrown : forall v : value, well_thrown (ToString v) = true.
Proof.
  fix IH 1. intros [| |[|]|n|s|l|o]; try reflexivity.
  - rewrite ToString_array. unfold array_join.
    apply rbind_well_thrown; [|reflexivity].
    induction l as [|x l IHl]; [reflexivity|].
    cbn [element_strings]. apply rbind_well_thrown.
    + unfold element_string. destruct (is_nullish x); [reflexivity | apply IH].
    + intros sx. apply rbind_well_thrown; [exact IHl | reflexivity].
  - cbn [ToString]. now destruct (hasOwnProperty o "toString").
Qed.

Lemma array_join_well_thrown (sep : string) (l : list value) :
  well_thrown (array_join sep l) = true.
Proof.
  unfold array_join. apply rbind_well_thrown; [|reflexivity].
  apply element_strings_well_thrown. intros x _. apply ToString_well_thrown.
Qed.

Lemma join_people_well_thrown (val : value) :
  well_thrown (Mapper.join_people val) = true.
Proof.
  destruct val; try reflexivity.
  cbn [Mapper.join_people]. apply rbind_well_thrown; [|reflexivity].
  apply array_join_well_thrown.
Qed.

Lemma mapper_well_thrown (strapiData : obj) (apiData : value) :
  well_thrown (snd (Mapper.mapAPIFieldsToStrapi strapiData apiData)) = true.
Proof.
  destruct (is_nullish apiData) eqn:Hn.
  - unfold Mapper.mapAPIFieldsToStrapi, Mapper.field_mappings.
    cbn [Mapper.apply_mappings]. unfold get_prop. now rewrite Hn.
  - destruct (mapper_run strapiData apiData Hn) as (sd' & _ & ->).
    pose proof (proj2 (people_run sd' apiData Hn)) as Hthrow.
    cbv zeta in Hthrow.
    destruct (snd (Mapper.apply_mappings people_mappings sd' apiData))
      as [[]|[m|v]]; try reflexivity.
    destruct (Hthrow _ eq_refl) as [H|H].
    + pose proof (join_people_well_thrown (prop apiData "Author")) as Hw.
      now rewrite H in Hw.
    + pose proof (join_people_well_thrown (prop apiData "SMEs")) as Hw.
      now rewrite H in Hw.
Qed.

Lemma enrichment_request_well_thrown (env : Env) (data : obj) :
  well_thrown (Mapper.enrichment_request env data) = true.
Proof.
  unfold Mapper.enrichment_request.
  repeat (apply rbind_well_thrown; [apply ToString_well_thrown | intros ?]).
  reflexivity.
Qed.

End RunTimeErrors.

(** [[null, 'a', [1, 2]].join(' ')] skips [null] and joins the inner array
    with commas; an element with a [toString] property of its own makes
    [join] throw. *)
Example join_renders_elements :
  @array_join iso_only_host " "
    [VNull; VStr "a"; VArr [VStr "b"; VStr "c"]]
  = Ok " a b,c".
Proof. reflexivity. Qed.

Example join_throws_on_own_toString :
  @array_join iso_only_host ", "
    [VStr "a"; VObj [("toString", num_of_Z 1)]]
  = Throw (Error "Cannot convert object to primitive value").
Proof. reflexivity. Qed.

(** ** The pre-save hooks and the enrichment client *)

Section EnrichmentMore.
Context {host : Host}.
Variable env : Env.

(** The enrichment client in closed form. *)
Lemma fetchAndPopulateFromFastAPI_run (data : obj) (w : World) :
  Mapper.fetchAndPopulateFromFastAPI env data w
  = match Mapper.enrichment_request env data with
    | Throw _ => (w, data, Ok tt)
    | Ok request =>
        match respond env (trace w) request with
        | Throw e =>
            (after_call env request w, data,
             if unreadable e
             then Throw (Error "Cannot read properties of null or undefined (reading 'message')")
             else Ok tt)
        | Ok response =>
            (after_call env request w,
             if truthy (prop (prop response "data") "success")
             then fst (Mapper.mapAPIFieldsToStrapi data
                         (prop (prop response "data") "data"))
             else data,
             Ok tt)
        end
    end.
Proof.
  unfold Mapper.fetchAndPopulateFromFastAPI, Mapper.enrichment_attempt.
  pose proof (enrichment_request_well_thrown env data) as Hreq.
  destruct (Mapper.enrichment_request env data) as [request|[m|v]];
    [ | reflexivity | discriminate Hreq ].
  destruct (respond env (trace w) request) as [response|e]; cbn [rbind].
  - unfold get_prop. destruct (is_nullish response) eqn:Hn.
    { destruct response; try discriminate Hn; reflexivity. }
    destruct (truthy (prop response "data")) eqn:Ht; cbn [andb].
    + destruct (truthy (prop (prop response "data") "success")); [|reflexivity].
      pose proof (mapper_well_thrown data (prop (prop response "data") "data"))
        as Hm.
      destruct (Mapper.mapAPIFieldsToStrapi data _) as [data' [[]|[m|v]]];
        [reflexivity | reflexivity | discriminate Hm].
    + replace (prop (prop response "data") "success") with VUndefined;
        [reflexivity|].
      destruct (prop response "data"); try reflexivity; discriminate Ht.
  - destruct e as [m|v]; [reflexivity|].
    cbn [error_message unreadable]. unfold get_prop.
    now destruct (is_nullish v).
Qed.

Lemma mapper_frame (data : obj) (apiData : value) (k : string) :
  truthy (get data k) = true \/ ~ In k (map fst Mapper.field_mappings) ->
  lookup (fst (Mapper.mapAPIFieldsToStrapi data apiData)) k = lookup data k.
Proof.
  unfold Mapper.mapAPIFieldsToStrapi. intros [H|H].
  - now apply apply_mappings_truthy.
  - now apply apply_mappings_untouched.
Qed.

(** X4.  [fetchAndPopulateFromFastAPI] makes at most one request: the one
    to the address built from the business key, and none when that
    address cannot be built.  It changes neither a truthy field of the
    pending record nor a field outside the mapper's recognised ones.  It
    throws exactly when the request is rejected with [null] or
    [undefined], whose [message] its handler cannot read, and then the
    record is as it was.  The payload is merged exactly when the answer
    carries a truthy [data.success]; when the request fails or the flag
    is missing or falsy, the record is as it was. *)
Theorem enrichment_client_outcome (data : obj) (w : World) :
  exists w' data' r,
    Mapper.fetchAndPopulateFromFastAPI env data w = (w', data', r)
    /\ match Mapper.enrichment_request env data with
       | Ok request => w' = after_call env request w
       | Throw _ => w' = w /\ data' = data /\ r = Ok tt
       end
    /\ (forall k,
          truthy (get data k) = true \/ ~ In k (map fst Mapper.field_mappings) ->
          lookup data' k = lookup data k)
    /\ (forall request e,
          Mapper.enrichment_request env data = Ok request ->
          respond env (trace w) request = Throw e ->
          data' = data
          /\ r = if unreadable e
                 then Throw (Error "Cannot read properties of null or undefined (reading 'message')")
                 else Ok tt)
    /\ (forall e, r = Throw e ->
          exists request v,
            Mapper.enrichment_request env data = Ok request
            /\ respond env (trace w) request = Throw (Thrown v)
            /\ is_nullish v = true)
    /\ (forall request response,
          Mapper.enrichment_request env data = Ok request ->
          respond env (trace w) request = Ok response ->
          r = Ok tt
          /\ data' = if truthy (prop (prop response "data") "success")
                     then fst (Mapper.mapAPIFieldsToStrapi data
                                 (prop (prop response "data") "data"))
                     else data).
Proof.
  rewrite fetchAndPopulateFromFastAPI_run.
  destruct (Mapper.enrichment_request env data) as [request|e0].
  - destruct (respond env (trace w) request) as [response|e] eqn:Hr.
    + eexists _, _, _. split; [reflexivity|]. split; [reflexivity|].
      split; [|split; [|split]].
      * intros k Hk.
        destruct (truthy (prop (prop response "data") "success"));
          [now apply mapper_frame | reflexivity].
      * intros request' e' [= <-] H. rewrite Hr in H. discriminate H.
      * intros e' H. discriminate H.
      * intros request' response' [= <-] H. rewrite Hr in H.
        injection H as <-. now split.
    + eexists _, _, _. split; [reflexivity|]. split; [reflexivity|].
      split; [reflexivity|]. split; [|split].
      * intros request' e' [= <-] H. rewrite Hr in H.
        injection H as <-. now split.
      * intros e'. destruct e as [m|v]; cbn [unreadable]; [discriminate|].
        destruct (is_nullish v) eqn:Hv; [|discriminate].
        intros _. now exists request, v.
      * intros request' response' [= <-] H. rewrite Hr in H. discriminate H.
  - exists w, data, (Ok tt). split; [reflexivity|]. split; [now repeat split|].
    split; [reflexivity|]. split; [|split].
    + intros request e H. discriminate H.
    + intros e H. discriminate H.
    + intros request response H. discriminate H.
Qed.

(** X5.  [beforeCreate] and [beforeUpdate] make at most the store lookup
    followed by one enrichment request, and, however they end, they
    change neither a truthy field of the pending record nor a field
    outside the mapper's recognised ones (the business key, the override
    flag, the publication timestamp).  [beforeCreate] throws only when
    the enrichment service rejected its request with [null] or
    [undefined]. *)
Theorem pre_save_hooks_frame (data where_ : obj) (w : World) :
  (exists w' data' r calls,
     Mapper.beforeCreate env data w = (w', data', r)
     /\ trace w' = (trace w ++ calls)%list
     /\ (calls = []
         \/ exists request,
              Mapper.enrichment_request env data = Ok request
              /\ calls = [request])
     /\ (forall k,
           truthy (get data k) = true \/ ~ In k (map fst Mapper.field_mappings)
           -> lookup data' k = lookup data k)
     /\ (forall e, r = Throw e ->
           exists request v,
             Mapper.enrichment_request env data = Ok request
             /\ calls = [request]
             /\ respond env (trace w) request = Throw (Thrown v)
             /\ is_nullish v = true))
  /\ (exists w' data' r calls,
        Mapper.beforeUpdate env data where_ w = (w', data', r)
        /\ trace w' = (trace w ++ calls)%list
        /\ (calls = [] \/ calls = [EntityFindOne (get where_ "id")]
            \/ exists request,
                 Mapper.enrichment_request env data = Ok request
                 /\ calls = [EntityFindOne (get where_ "id"); request])
        /\ forall k,
             truthy (get data k) = true
             \/ ~ In k (map fst Mapper.field_mappings)
             -> lookup data' k = lookup data k).
Proof.
  assert (forall w0,
            exists w' data' r calls,
              Mapper.fetchAndPopulateFromFastAPI env data w0 = (w', data', r)
              /\ trace w' = (trace w0 ++ calls)%list
              /\ (calls = []
                  \/ exists request,
                       Mapper.enrichment_request env data = Ok request
                       /\ calls = [request])
              /\ (forall k,
                    truthy (get data k) = true
                    \/ ~ In k (map fst Mapper.field_mappings)
                    -> lookup data' k = lookup data k)
              /\ (forall e, r = Throw e ->
                    exists request v,
                      Mapper.enrichment_request env data = Ok request
                      /\ calls = [request]
                      /\ respond env (trace w0) request = Throw (Thrown v)
                      /\ is_nullish v = true)) as Hfetch.
  { intros w0. rewrite fetchAndPopulateFromFastAPI_run.
    destruct (Mapper.enrichment_request env data) as [request|e0].
    - destruct (respond env (trace w0) request) as [response|e] eqn:Hr.
      + eexists _, _, _, [request]. split; [reflexivity|].
        split; [reflexivity|]. split; [right; now exists request|]. split.
        * intros k Hk.
          destruct (truthy (prop (prop response "data") "success"));
            [now apply mapper_frame | reflexivity].
        * intros e H. discriminate H.
      + eexists _, _, _, [request]. split; [reflexivity|].
        split; [reflexivity|]. split; [right; now exists request|].
        split; [reflexivity|].
        intros e'. destruct e as [m|v]; cbn [unreadable]; [discriminate|].
        destruct (is_nullish v) eqn:Hv; [|discriminate].
        intros _. now exists request, v.
    - exists w0, data, (Ok tt), []. rewrite app_nil_r.
      split; [reflexivity|]. split; [reflexivity|]. split; [now left|].
      split; [reflexivity|]. intros e H. discriminate H. }
  split.
  - unfold Mapper.beforeCreate.
    destruct (truthy (get data "SF_Number") && _); [apply Hfetch|].
    exists w, data, (Ok tt), []. rewrite app_nil_r.
    split; [reflexivity|]. split; [reflexivity|]. split; [now left|].
    split; [reflexivity|]. intros e H. discriminate H.
  - unfold Mapper.beforeUpdate.
    destruct (hasOwnProperty data "publishedAt").
    { exists w, data, (Ok tt), []. rewrite app_nil_r.
      split; [reflexivity|]. split; [reflexivity|].
      split; [now left | reflexivity]. }
    destruct (truthy (get data "SF_Number") && _).
    2:{ exists w, data, (Ok tt), []. rewrite app_nil_r.
        split; [reflexivity|]. split; [reflexivity|].
        split; [now left | reflexivity]. }
    cbv zeta.
    destruct (respond env (trace w) (EntityFindOne (get where_ "id")))
      as [existingRecord|e].
    + destruct (negb (truthy existingRecord) || _).
      * destruct (Hfetch (after_call env (EntityFindOne (get where_ "id")) w))
          as (w2 & data' & r & calls & -> & Htr & Hcalls & Hframe & _).
        exists w2, data', (Ok tt), (EntityFindOne (get where_ "id") :: calls).
        split; [reflexivity|]. split.
        { rewrite Htr. cbn [after_call trace]. now rewrite <- app_assoc. }
        split; [|exact Hframe].
        destruct Hcalls as [->|(request & Hreq & ->)];
          [now right; left | right; right; now exists request].
      * eexists _, _, _, [EntityFindOne (get where_ "id")].
        split; [reflexivity|]. split; [reflexivity|].
        split; [now right; left | reflexivity].
    + eexists _, _, _, [EntityFindOne (get where_ "id")].
      split; [reflexivity|]. split; [reflexivity|].
      split; [now right; left | reflexivity].
Qed.


End EnrichmentMore.

(** ** The post-save hooks *)

Section PostSaveMore.
Context {host : Host}.
Variable env : Env.

Lemma indexDocument_run (document : value) (w : World) :
  try_catch (Manager.indexDocument env document) (fun _ => ret tt) w
  = Some ({| trace := trace w
                      ++ upsert_calls
                           (Manager.transformDocumentForSearch document);
             now := match Manager.transformDocumentForSearch document with
                    | Ok doc => now (after_call env (AddDocuments [doc]) w)
                    | Throw _ => now w
                    end |}, Ok tt).
Proof.
  unfold Manager.indexDocument, try_catch, bind, perform, lift, ret, throw.
  destruct (Manager.transformDocumentForSearch document) as [doc|e];
    cbn [upsert_calls].
  - now destruct (respond env (trace w) (AddDocuments [doc])).
  - rewrite app_nil_r. now destruct w.
Qed.

Lemma indexToMeiliSearch_run (document : value) (w : World) :
  Inline.indexToMeiliSearch env document w
  = Some ({| trace := trace w
                      ++ upsert_calls (Inline.searchableDocument document);
             now := match Inline.searchableDocument document with
                    | Ok doc => now (after_call env (AddDocuments [doc]) w)
                    | Throw _ => now w
                    end |}, Ok tt).
Proof.
  unfold Inline.indexToMeiliSearch, try_catch, bind, perform, lift, ret.
  destruct (Inline.searchableDocument document) as [doc|e];
    cbn [upsert_calls].
  - now destruct (respond env (trace w) (AddDocuments [doc])).
  - rewrite app_nil_r. now destruct w.
Qed.

(** X7.  The post-save hooks of [src/index.ts] never throw, and after the
    store check each makes at most one engine call: [afterCreate] upserts
    the one transformed record when the store says published and nothing
    otherwise; [afterUpdate] upserts it when published and otherwise
    deletes by [documentId || id]; [afterDelete] deletes by that key.  A
    record that does not transform is skipped without a call. *)
Theorem lifecycle_hooks_one_engine_call (result : obj) (w : World) :
  let id := get result "id" in
  let upsert :=
    upsert_calls (Manager.transformDocumentForSearch (VObj result)) in
  let remove := [DeleteDocument (removal_key_of result)] in
  (exists w',
     Lifecycle.afterCreate env result w = Some (w', Ok tt)
     /\ trace w'
        = (trace w ++ DbFindOne id
             :: (if store_says_published env w id then upsert else []))%list)
  /\ (exists w',
        Lifecycle.afterUpdate env result w = Some (w', Ok tt)
        /\ trace w'
           = (trace w ++ DbFindOne id
                :: (if store_says_published env w id then upsert
                    else remove))%list)
  /\ (exists w',
        Lifecycle.afterDelete env result w = Some (w', Ok tt)
        /\ trace w' = (trace w ++ remove)%list).
Proof.
  cbv zeta. unfold Lifecycle.afterCreate, Lifecycle.afterUpdate,
    Lifecycle.afterDelete, bind.
  rewrite checkIfDocumentIsPublished_run.
  fold (store_says_published env w (get result "id")).
  fold (removal_key_of result).
  destruct (store_says_published env w (get result "id")).
  - rewrite indexDocument_run, !removeDocument_run.
    repeat split; eexists; (split; [reflexivity|]); cbn [trace after_call];
      now rewrite <- ?app_assoc.
  - rewrite !removeDocument_run. unfold ret.
    repeat split; eexists; (split; [reflexivity|]); cbn [trace after_call];
      now rewrite <- ?app_assoc.
Qed.

(** X8.  The post-save hooks of the inline variant never throw and decide
    by the event's own [publishedAt], without asking the store:
    [afterCreate] upserts when it is truthy and makes no call otherwise,
    [afterUpdate] upserts when it is truthy and deletes by
    [documentId || id] otherwise, [afterDelete] deletes by that key. *)
Theorem inline_hooks_one_engine_call (result : obj) (w : World) :
  let upsert := upsert_calls (Inline.searchableDocument (VObj result)) in
  let remove := [DeleteDocument (removal_key_of result)] in
  (exists w',
     Inline.afterCreate env result w = Some (w', Ok tt)
     /\ trace w'
        = (trace w
             ++ (if truthy (get result "publishedAt") then upsert else []))%list)
  /\ (exists w',
        Inline.afterUpdate env result w = Some (w', Ok tt)
        /\ trace w'
           = (trace w
                ++ (if truthy (get result "publishedAt") then upsert
                    else remove))%list)
  /\ (exists w',
        Inline.afterDelete env result w = Some (w', Ok tt)
        /\ trace w' = (trace w ++ remove)%list).
Proof.
  cbv zeta. unfold Inline.afterCreate, Inline.afterUpdate, Inline.afterDelete.
  fold (removal_key_of result).
  destruct (truthy (get result "publishedAt")).
  - rewrite indexToMeiliSearch_run, removeFromMeiliSearch_run.
    repeat split; eexists; (split; [reflexivity|]); reflexivity.
  - rewrite removeFromMeiliSearch_run. unfold ret.
    repeat split; eexists; (split; [reflexivity|]); cbn [trace after_call];
      now rewrite ?app_nil_r.
Qed.

End PostSaveMore.

(** ** The document transformers, further *)

Lemma lower_ascii_idempotent (c : ascii) :
  lower_ascii (lower_ascii c) = lower_ascii c.
Proof.
  destruct c as [[] [] [] [] [] [] [] []]; reflexivity.
Qed.

Lemma toLowerCase_idempotent (s : string) :
  toLowerCase (toLowerCase s) = toLowerCase s.
Proof.
  induction s as [|c s IH]; [reflexivity|].
  cbn [toLowerCase]. now rewrite lower_ascii_idempotent, IH.
Qed.

Lemma trimEnd_idempotent (s : string) : trimEnd (trimEnd s) = trimEnd s.
Proof.
  induction s as [|c s IH]; [reflexivity|].
  cbn [trimEnd]. destruct (trimEnd s) as [|d t] eqn:E.
  - destruct (is_space c) eqn:Ec; [reflexivity|].
    cbn [trimEnd]. now rewrite Ec.
  - cbn [trimEnd]. cbn [trimEnd] in IH. rewrite IH. reflexivity.
Qed.

Lemma trimStart_head (s : string) :
  match trimStart s with
  | EmptyString => True
  | String c _ => is_space c = false
  end.
Proof.
  induction s as [|c s IH]; [exact I|].
  cbn [trimStart]. destruct (is_space c) eqn:E; [exact IH | exact E].
Qed.

Lemma trimEnd_head (c : ascii) (s : string) :
  is_space c = false -> exists t, trimEnd (String c s) = String c t.
Proof.
  intros Hc. cbn [trimEnd]. destruct (trimEnd s); [rewrite Hc|]; eauto.
Qed.

(** [trim] leaves nothing to trim. *)
Lemma trim_idempotent (s : string) : trim (trim s) = trim s.
Proof.
  unfold trim. pose proof (trimStart_head s) as Hh.
  destruct (trimStart s) as [|c t]; [reflexivity|].
  destruct (trimEnd_head c t Hh) as [t' E]. rewrite E.
  cbn [trimStart]. rewrite Hh, <- E. apply trimEnd_idempotent.
Qed.

Lemma forallb_pointwise {A} (p q : A -> bool) (l : list A) :
  (forall x, p x = q x) -> forallb p l = forallb q l.
Proof.
  intros H. induction l as [|x l IH]; [reflexivity|].
  cbn [forallb]. now rewrite H, IH.
Qed.

Lemma map_result_succeeds {A B} (f : A -> result B) (l : list A) :
  succeeds (map_result f l) = forallb (fun x => succeeds (f x)) l.
Proof.
  induction l as [|x l IH]; [reflexivity|].
  cbn [map_result forallb]. destruct (f x); cbn [rbind succeeds andb];
    [|reflexivity].
  rewrite <- IH. now destruct (map_result f l).
Qed.

Lemma forallb_andb {A} (p q : A -> bool) (l : list A) :
  forallb (fun x => p x && q x) l = forallb p l && forallb q l.
Proof.
  induction l as [|x l IH]; [reflexivity|].
  cbn [forallb]. rewrite IH.
  destruct (p x), (q x), (forallb p l); reflexivity.
Qed.

Lemma forallb_map_filter {A B} (f : A -> B) (keep : A -> bool) (p : B -> bool)
    (l : list A) :
  forallb p (map f (filter keep l))
  = forallb (fun x => negb (keep x) || p (f x)) l.
Proof.
  induction l as [|x l IH]; [reflexivity|].
  cbn [filter forallb]. destruct (keep x); cbn [map forallb negb orb];
    now rewrite IH.
Qed.

Section TransformMore.
Context {host : Host}.

Lemma falsy_printable (v : value) : truthy v = false -> printable v = true.
Proof. destruct v as [| |[|]|n|s|l|o]; try reflexivity; discriminate. Qed.

Lemma element_strings_succeeds (l : list value) :
  succeeds (element_strings l) = forallb printable l.
Proof.
  induction l as [|x l IH]; [reflexivity|].
  cbn [element_strings forallb]. rewrite <- IH.
  unfold element_string, printable.
  destruct (is_nullish x) eqn:Hn.
  - destruct x; try discriminate Hn; cbn [rbind ToString succeeds andb];
      now destruct (element_strings l).
  - destruct (ToString x); cbn [rbind succeeds andb]; [|reflexivity].
    now destruct (element_strings l).
Qed.

(** [join] returns exactly when every element can be printed. *)
Lemma array_join_succeeds (sep : string) (l : list value) :
  succeeds (array_join sep l) = forallb printable l.
Proof.
  unfold array_join. rewrite <- element_strings_succeeds.
  now destruct (element_strings l).
Qed.

Lemma filter_Boolean_printable (l : list value) :
  forallb printable (filter_Boolean l) = forallb printable l.
Proof.
  unfold filter_Boolean. induction l as [|x l IH]; [reflexivity|].
  cbn [filter forallb]. destruct (truthy x) eqn:Ht; cbn [forallb].
  - now rewrite IH.
  - now rewrite IH, (falsy_printable x Ht).
Qed.

Lemma filter_text_succeeds (cs : list value) :
  succeeds (filter_text cs) = no_nullish cs.
Proof.
  induction cs as [|c cs IH]; [reflexivity|].
  cbn [filter_text no_nullish forallb]. unfold get_prop.
  destruct (is_nullish c); cbn [rbind succeeds negb andb]; [reflexivity|].
  fold (no_nullish cs). rewrite <- IH. now destruct (filter_text cs).
Qed.

Lemma filter_text_run (cs kept : list value) :
  filter_text cs = Ok kept -> kept = filter is_text cs.
Proof.
  revert kept. induction cs as [|c cs IH]; intros kept; cbn [filter_text filter].
  - now intros [= <-].
  - unfold get_prop. destruct (is_nullish c); cbn [rbind]; [discriminate|].
    destruct (filter_text cs) as [kept'|e]; cbn [rbind]; [|discriminate].
    intros [= <-]. rewrite (IH kept' eq_refl). reflexivity.
Qed.

Lemma block_text_succeeds (block : value) :
  succeeds (block_text block)
  = (negb (is_nullish block)
     && match prop block "children" with
        | VArr cs => no_nullish cs
        | _ => true
        end)
    && match prop block "children" with
       | VArr cs =>
           forallb (fun child =>
                      negb (is_text child) || printable (prop child "text")) cs
       | _ => true
       end.
Proof.
  unfold block_text, get_prop.
  destruct (is_nullish block); cbn [rbind succeeds negb andb]; [reflexivity|].
  destruct (prop block "children") as [| | | | |cs|]; try reflexivity.
  rewrite <- filter_text_succeeds.
  destruct (filter_text cs) as [kept|e] eqn:Hk; cbn [rbind succeeds andb];
    [|reflexivity].
  rewrite array_join_succeeds, (filter_text_run cs kept Hk).
  apply forallb_map_filter.
Qed.

Lemma extractTextFromBlocks_succeeds (blocks : value) :
  succeeds (extractTextFromBlocks blocks)
  = well_formed_blocks blocks && printable_blocks blocks.
Proof.
  destruct blocks as [| | | | |bs|]; try reflexivity.
  cbn [extractTextFromBlocks well_formed_blocks printable_blocks].
  rewrite <- forallb_andb.
  rewrite (forallb_pointwise _ (fun b => succeeds (block_text b)))
    by (intros b; now rewrite block_text_succeeds).
  rewrite <- map_result_succeeds. now destruct (map_result block_text bs).
Qed.

Lemma attachment_text_succeeds (attachment : value) :
  succeeds (attachment_text attachment)
  = negb (is_nullish attachment)
    && (printable (prop attachment "name")
        && printable (prop attachment "alternativeText")
        && printable (prop attachment "caption")).
Proof.
  unfold attachment_text, get_prop.
  destruct (is_nullish attachment); cbn [rbind negb andb]; [reflexivity|].
  rewrite array_join_succeeds, filter_Boolean_printable.
  cbn [forallb]. now rewrite andb_true_r, andb_assoc.
Qed.

Lemma formatAttachments_succeeds (attachments : value) :
  succeeds (formatAttachments attachments)
  = well_formed_attachments attachments && printable_attachments attachments.
Proof.
  destruct attachments as [| | | | |atts|]; try reflexivity.
  cbn [formatAttachments well_formed_attachments printable_attachments].
  unfold no_nullish. rewrite <- forallb_andb.
  rewrite (forallb_pointwise _ (fun a => succeeds (attachment_text a)))
    by (intros a; now rewrite attachment_text_succeeds).
  rewrite <- map_result_succeeds.
  now destruct (map_result attachment_text atts).
Qed.

Lemma searchableText_succeeds (document : value) (d a : string) :
  succeeds (searchableText document d a)
  = forallb (fun k => printable (prop document k)) searchable_fields.
Proof.
  unfold searchableText.
  destruct (array_join " " _) as [joined|e] eqn:Hj;
    cbn [rbind];
    pose proof (array_join_succeeds " "
                  (filter_Boolean
                     [ prop document "SF_Number"; prop document "Unique_Id";
                       prop document "Client_Name";
                       prop document "Client_Contact";
                       prop document "Client_Contact_Buying_Center";
                       VStr d; prop document "Document_Confidentiality";
                       prop document "Industry"; prop document "Service";
                       prop document "Author"; prop document "SMEs";
                       prop document "Competitors"; VStr a ])) as H;
    rewrite Hj, filter_Boolean_printable in H; cbn [succeeds] in H |- *;
    rewrite H; cbn [forallb searchable_fields];
    change (printable (VStr d)) with true;
    change (printable (VStr a)) with true;
    cbn [andb]; reflexivity.
Qed.

(** The transformers return exactly on the transformable records. *)
Lemma transformDocumentForSearch_succeeds (document : value) :
  succeeds (Manager.transformDocumentForSearch document)
  = transformable document.
Proof.
  unfold Manager.transformDocumentForSearch, transformable, indexable, get_prop.
  pose proof (extractTextFromBlocks_succeeds (prop document "Description"))
    as Hd.
  pose proof (formatAttachments_succeeds (prop document "Attachments")) as Ha.
  destruct (is_nullish document); cbn [rbind negb andb]; [reflexivity|].
  destruct (extractTextFromBlocks _) as [d|e]; cbn [rbind succeeds] in Hd |- *;
    [|symmetry in Hd; apply andb_false_iff in Hd as [-> | ->];
      cbn [andb]; rewrite ?andb_false_r; reflexivity].
  destruct (formatAttachments _) as [a|e]; cbn [rbind succeeds] in Ha |- *;
    [|symmetry in Ha; apply andb_false_iff in Ha as [-> | ->];
      cbn [andb]; rewrite ?andb_false_r; reflexivity].
  symmetry in Hd, Ha.
  apply andb_true_iff in Hd as [-> ->]. apply andb_true_iff in Ha as [-> ->].
  cbn [andb]. rewrite <- (searchableText_succeeds document d a).
  now destruct (searchableText document d a).
Qed.

Lemma searchableDocument_succeeds (document : value) :
  succeeds (Inline.searchableDocument document) = transformable document.
Proof.
  unfold Inline.searchableDocument, transformable, indexable, get_prop.
  pose proof (extractTextFromBlocks_succeeds (prop document "Description"))
    as Hd.
  pose proof (formatAttachments_succeeds (prop document "Attachments")) as Ha.
  destruct (is_nullish document); cbn [rbind negb andb]; [reflexivity|].
  destruct (extractTextFromBlocks _) as [d|e]; cbn [rbind succeeds] in Hd |- *;
    [|symmetry in Hd; apply andb_false_iff in Hd as [-> | ->];
      cbn [andb]; rewrite ?andb_false_r; reflexivity].
  destruct (formatAttachments _) as [a|e]; cbn [rbind succeeds] in Ha |- *;
    [|symmetry in Ha; apply andb_false_iff in Ha as [-> | ->];
      cbn [andb]; rewrite ?andb_false_r; reflexivity].
  symmetry in Hd, Ha.
  apply andb_true_iff in Hd as [-> ->]. apply andb_true_iff in Ha as [-> ->].
  cbn [andb]. rewrite <- (searchableText_succeeds document d a).
  now destruct (searchableText document d a).
Qed.

Lemma transformable_indexable (document : value) :
  transformable document = true -> indexable document = true.
Proof.
  unfold transformable. intros H.
  apply andb_true_iff in H as [H _]. apply andb_true_iff in H as [H _].
  now apply andb_true_iff in H as [H _].
Qed.

(** X9.  Both transformers return exactly on the same records: those
    that are neither [null] nor [undefined], whose Description blocks,
    blocks' children and attachments, where these are arrays, hold no
    [null] or [undefined] element, and in which everything that enters a
    text can be converted to a string (the text of the text children, the
    three labels of the attachments, the eleven fields of the composite
    text).  On every other record they throw; in particular on every
    record that is not indexable, and on an indexable record whose Author
    is an object with a [toString] property of its own. *)
Theorem transformers_accept_transformable (document : value) :
  succeeds (Manager.transformDocumentForSearch document)
  = transformable document
  /\ succeeds (Inline.searchableDocument document) = transformable document
  /\ (indexable document = false ->
      succeeds (Manager.transformDocumentForSearch document) = false
      /\ succeeds (Inline.searchableDocument document) = false)
  /\ (forall o : obj,
        hasOwnProperty o "toString" = true ->
        prop document "Author" = VObj o ->
        succeeds (Manager.transformDocumentForSearch document) = false
        /\ succeeds (Inline.searchableDocument document) = false).
Proof.
  rewrite transformDocumentForSearch_succeeds, searchableDocument_succeeds.
  split; [reflexivity|]. split; [reflexivity|]. split.
  - intros H. destruct (transformable document) eqn:Ht; [|now split].
    apply transformable_indexable in Ht. congruence.
  - intros o Ho Ha.
    assert (transformable document = false) as ->; [|now split].
    unfold transformable. cbn [forallb searchable_fields]. rewrite Ha.
    unfold printable at 9. cbn [ToString]. rewrite Ho. cbn [succeeds andb].
    now rewrite !andb_false_r.
Qed.

(** X10.  The plain text [extractTextFromBlocks] renders is trimmed:
    trimming it again gives the same string. *)
Theorem description_text_is_trimmed (blocks : value) (text : string) :
  extractTextFromBlocks blocks = Ok text -> trim text = text.
Proof.
  destruct blocks; cbn [extractTextFromBlocks]; try (now intros [= <-]).
  destruct (map_result block_text elems); cbn [rbind]; [|discriminate].
  intros [= <-]. apply trim_idempotent.
Qed.

End TransformMore.

Lemma lookup_app (a b : obj) (k : string) :
  lookup (a ++ b)%list k
  = match lookup a k with
    | Some v => Some v
    | None => lookup b k
    end.
Proof.
  induction a as [|[k' v] a IH]; [reflexivity|].
  cbn [app lookup]. now destruct (String.eqb k' k).
Qed.

Lemma or_else_not_nullish (v : value) :
  is_nullish (or_else v (VStr "")) = false.
Proof. unfold or_else. now destruct v as [| |[]|[]|s| |]; try destruct s. Qed.

Section OutputMore.
Context {host : Host}.

Lemma manager_output (document out : value) :
  Manager.transformDocumentForSearch document = Ok out ->
  exists d a text,
    is_nullish document = false
    /\ extractTextFromBlocks (prop document "Description") = Ok d
    /\ formatAttachments (prop document "Attachments") = Ok a
    /\ searchableText document d a = Ok text
    /\ out = VObj
            ([ ("id", prop document "id");
               ("documentId", prop document "documentId") ]
             ++ business_fields document
             ++ [ ("Description", VStr d);
                  ("attachments_text", VStr a);
                  ("searchableText", text);
                  ("filters", filters document) ]).
Proof.
  unfold Manager.transformDocumentForSearch, get_prop.
  destruct (is_nullish document); cbn [rbind]; [discriminate|].
  destruct (extractTextFromBlocks _) as [d|e]; cbn [rbind]; [|discriminate].
  destruct (formatAttachments _) as [a|e]; cbn [rbind]; [|discriminate].
  destruct (searchableText document d a) as [text|e] eqn:Ht; cbn [rbind];
    [|discriminate].
  intros H. exists d, a, text. repeat (split; [reflexivity|]).
  split; [exact Ht|]. symmetry. now injection H.
Qed.

Lemma inline_output (document text : value) (d a : string) :
  extractTextFromBlocks (prop document "Description") = Ok d ->
  formatAttachments (prop document "Attachments") = Ok a ->
  searchableText document d a = Ok text ->
  is_nullish document = false ->
  Inline.searchableDocument document
  = Ok (VObj
          ([ ("id", or_else (prop document "documentId") (prop document "id"));
             ("documentId", prop document "documentId");
             ("strapiId", prop document "id") ]
           ++ business_fields document
           ++ [ ("Description", VStr d);
                ("description_text", VStr d);
                ("attachments_text", VStr a);
                ("searchableText", text);
                ("filters", filters document) ])).
Proof.
  intros Hd Ha Ht Hn. unfold Inline.searchableDocument, get_prop.
  rewrite Hn. cbn [rbind]. rewrite Hd. cbn [rbind]. rewrite Ha. cbn [rbind].
  rewrite Ht. reflexivity.
Qed.

(** The composite text is the lower-cased join of its truthy items. *)
Lemma searchableText_run (document text : value) (d a : string) :
  searchableText document d a = Ok text ->
  exists joined,
    array_join " " (filter_Boolean (composite_items document d a)) = Ok joined
    /\ text = VStr (toLowerCase joined).
Proof.
  unfold searchableText. fold (composite_items document d a).
  destruct (array_join " " _) as [joined|e]; cbn [rbind]; [|discriminate].
  intros [= <-]. now exists joined.
Qed.

(** X11.  In the document the manager sends, each of the 26 business
    fields is the record's value when that is truthy and [''] otherwise,
    hence never [null] or [undefined]; and each of the 15 keys of the
    [filters] sub-object is one of these fields and holds the same value
    as the top-level field. *)
Theorem indexed_fields_are_defaulted (document out : value) (k : string) :
  Manager.transformDocumentForSearch document = Ok out ->
  (In k defaulted_fields ->
   prop out k = or_else (prop document k) (VStr "")
   /\ is_nullish (prop out k) = false)
  /\ (In k filter_keys ->
      In k defaulted_fields /\ prop (prop out "filters") k = prop out k).
Proof.
  intros Hout.
  destruct (manager_output _ _ Hout) as (d & a & text & _ & _ & _ & _ & ->).
  split.
  - intros Hin.
    assert (prop (VObj
            ([ ("id", prop document "id");
               ("documentId", prop document "documentId") ]
             ++ business_fields document
             ++ [ ("Description", VStr d);
                  ("attachments_text", VStr a);
                  ("searchableText", text);
                  ("filters", filters document) ])) k
            = or_else (prop document k) (VStr "")) as E.
    { unfold defaulted_fields in Hin.
      repeat (destruct Hin as [<-|Hin]; [reflexivity|]). now elim Hin. }
    rewrite E. split; [reflexivity | apply or_else_not_nullish].
  - intros Hin. unfold filter_keys in Hin.
    repeat (destruct Hin as [<-|Hin];
            [split; [unfold defaulted_fields;
                     repeat first [left; reflexivity | right]
                    | reflexivity]|]).
    now elim Hin.
Qed.

Lemma searchableText_holds (items : list value) (joined s : string) :
  array_join " " (filter_Boolean items) = Ok joined ->
  In (VStr s) items -> s <> "" ->
  contains (toLowerCase joined) (toLowerCase s).
Proof.
  intros Hj Hin Hne. apply contains_toLowerCase.
  apply (contains_array_join _ _ _ _ Hj).
  unfold filter_Boolean. apply filter_In. split; [exact Hin|].
  cbn [truthy]. apply String.eqb_neq in Hne. now rewrite Hne.
Qed.

(** X12.  The composite [searchableText] of the document the manager
    sends is lower-case (it is its own [toLowerCase]) and contains the
    lower-cased value of every non-empty string among the eleven record
    fields that enter it, of the Description text and of the attachments
    text. *)
Theorem composite_text_covers_fields (document out : value) :
  Manager.transformDocumentForSearch document = Ok out ->
  exists text,
    prop out "searchableText" = VStr text
    /\ toLowerCase text = text
    /\ (forall k s,
          In k searchable_fields -> prop document k = VStr s -> s <> "" ->
          contains text (toLowerCase s))
    /\ (forall s,
          prop out "Description" = VStr s \/ prop out "attachments_text" = VStr s ->
          s <> "" -> contains text (toLowerCase s)).
Proof.
  intros Hout.
  destruct (manager_output _ _ Hout) as (d & a & text & _ & _ & _ & Ht & ->).
  destruct (searchableText_run _ _ _ _ Ht) as (joined & Hj & ->).
  eexists. split; [reflexivity|]. split; [apply toLowerCase_idempotent|].
  split.
  - intros k s Hin Hk Hne. apply (searchableText_holds _ _ _ Hj); [|exact Hne].
    rewrite <- Hk. unfold searchable_fields in Hin. unfold composite_items.
    repeat (destruct Hin as [<-|Hin];
            [repeat first [left; reflexivity | right]|]).
    now elim Hin.
  - intros s [Hs|Hs] Hne; apply (searchableText_holds _ _ _ Hj);
      try exact Hne; unfold composite_items.
    + assert (VStr d = VStr s) as <- by exact Hs.
      do 5 right. left. reflexivity.
    + assert (VStr a = VStr s) as <- by exact Hs.
      do 12 right. left. reflexivity.
Qed.

(** X14.  On every record the manager transforms, the inline variant's
    [indexToMeiliSearch] builds a document too, with the same value under
    every key except [id], which it takes from [documentId || id]; its two
    additional keys [strapiId] and [description_text] repeat the manager's
    [id] and [Description]. *)
Theorem inline_agrees_with_manager (document out : value) :
  Manager.transformDocumentForSearch document = Ok out ->
  exists out',
    Inline.searchableDocument document = Ok out'
    /\ prop out' "id"
       = or_else (prop document "documentId") (prop document "id")
    /\ prop out' "strapiId" = prop out "id"
    /\ prop out' "description_text" = prop out "Description"
    /\ forall k,
         k <> "id" -> k <> "strapiId" -> k <> "description_text" ->
         prop out' k = prop out k.
Proof.
  intros Hout.
  destruct (manager_output _ _ Hout) as (d & a & text & Hn & Hd & Ha & Ht & ->).
  rewrite (inline_output document text d a Hd Ha Ht Hn).
  eexists. split; [reflexivity|]. split; [reflexivity|].
  split; [reflexivity|]. split; [reflexivity|].
  intros k H1 H2 H3.
  apply String.eqb_neq in H1, H2, H3.
  rewrite String.eqb_sym in H1. rewrite String.eqb_sym in H2.
  rewrite String.eqb_sym in H3.
  generalize (business_fields document). intros B.
  cbn [prop]. unfold get. rewrite !lookup_app.
  cbn [lookup]. rewrite H1, H2.
  destruct (String.eqb "documentId" k); [reflexivity|].
  destruct (lookup B k); [reflexivity|].
  rewrite H3. reflexivity.
Qed.

End OutputMore.

(** ** The index manager, further *)

Lemma count_polls_app (a b : list call) :
  count_polls (a ++ b) = count_polls a + count_polls b.
Proof. unfold count_polls. now rewrite filter_app, length_app. Qed.

Section ManagerMore.
Context {host : Host}.
Variable env : Env.

(** X15.  When the store returns a falsy value or an empty array,
    [rebuildIndex] returns [{indexed: 0, skipped: 0}] and the store read
    is the only call it makes. *)
Theorem rebuild_of_empty_store (documents : value) (w : World) :
  respond env (trace w) EntityFindMany = Ok documents ->
  truthy documents = false \/ documents = VArr [] ->
  Manager.rebuildIndex env w
  = Some (after_call env EntityFindMany w,
          Ok {| Manager.indexed := 0; Manager.skipped := 0 |}).
Proof.
  intros Hfind Hempty.
  unfold Manager.rebuildIndex, try_catch, bind, perform, ret.
  rewrite Hfind. destruct Hempty as [Hf| ->]; [now rewrite Hf | reflexivity].
Qed.

Lemma map_result_rejects (docs : list value) :
  forallb indexable docs = false ->
  exists e, map_result Manager.transformDocumentForSearch docs = Throw e.
Proof.
  intros H.
  destruct (map_result _ docs) as [l|e] eqn:Hm; [|now exists e].
  pose proof (map_result_succeeds Manager.transformDocumentForSearch docs)
    as Hs.
  rewrite Hm in Hs. cbn [succeeds] in Hs. symmetry in Hs.
  rewrite forallb_forall in Hs.
  assert (forallb indexable docs = true) as Hi; [|congruence].
  apply forallb_forall. intros d Hd. apply transformable_indexable.
  rewrite <- transformDocumentForSearch_succeeds. now apply Hs.
Qed.

(** X16.  [rebuildIndex] transforms all records before it sends any: when
    the store read throws, or one of the records returned does not
    transform (it is not indexable, or the transformer throws on it for
    another reason), the error is rethrown and the store read is the only
    call made, so no batch reaches the engine. *)
Theorem rebuild_sends_nothing_on_failure (w : World) :
  let w0 := after_call env EntityFindMany w in
  ((exists e, respond env (trace w) EntityFindMany = Throw e) ->
   exists e, Manager.rebuildIndex env w = Some (w0, Throw e))
  /\ (forall docs,
        respond env (trace w) EntityFindMany = Ok (VArr docs) ->
        forallb indexable docs = false
        \/ forallb (fun d => succeeds (Manager.transformDocumentForSearch d))
                   docs = false ->
        exists e, Manager.rebuildIndex env w = Some (w0, Throw e)).
Proof.
  cbv zeta. split.
  - intros [e He]. exists e.
    unfold Manager.rebuildIndex, try_catch, bind, perform, throw.
    now rewrite He.
  - intros docs Hfind Hbad.
    assert (exists e,
              map_result Manager.transformDocumentForSearch docs = Throw e)
      as [e He].
    { destruct Hbad as [Hbad|Hbad]; [now apply map_result_rejects|].
      rewrite <- map_result_succeeds in Hbad.
      destruct (map_result _ docs) as [l|e]; [discriminate Hbad | now exists e]. }
    exists e.
    unfold Manager.rebuildIndex, try_catch, bind, perform, throw, lift.
    rewrite Hfind. cbn [truthy negb orb]. rewrite length_is_zero.
    destruct docs as [|d docs]; [|now rewrite He].
    discriminate He.
Qed.

Lemma waitLoop_polls (fuel : nat) :
  forall (startTime timeout : Z) (w w' : World) (r : result unit),
    Manager.waitLoop env fuel startTime timeout w = Some (w', r) ->
    r = Ok tt
    /\ exists calls,
         trace w' = (trace w ++ calls)%list
         /\ ((timeout - (now w - startTime) <= 0)%Z -> count_polls calls = 0)
         /\ (0 < timeout - (now w - startTime) ->
             1000 * Z.of_nat (count_polls calls)
             < timeout - (now w - startTime) + 1000)%Z.
Proof.
  induction fuel as [|fuel IH]; intros startTime timeout w w' r Hrun;
    [discriminate Hrun|].
  cbn [Manager.waitLoop] in Hrun. unfold bind at 1 in Hrun.
  unfold Date_now in Hrun.
  destruct (Z.ltb_spec (now w - startTime) timeout) as [Hlt|Hge].
  2:{ injection Hrun as <- <-. split; [reflexivity|]. exists [].
      rewrite app_nil_r. split; [reflexivity|]. split; [reflexivity | lia]. }
  unfold bind, try_catch, perform, sleep, lift, ret in Hrun.
  pose proof (after_call_now env GetStats w) as Hn1. cbn [duration] in Hn1.
  assert (forall w1 : World,
            trace w1 = (trace w ++ [GetStats])%list ->
            exists calls,
              trace w1 = (trace w ++ calls)%list
              /\ ((timeout - (now w - startTime) <= 0)%Z -> count_polls calls = 0)
              /\ (0 < timeout - (now w - startTime) ->
                  1000 * Z.of_nat (count_polls calls)
                  < timeout - (now w - startTime) + 1000)%Z) as Hone.
  { intros w1 Hw1. exists [GetStats]. split; [exact Hw1|].
    change (count_polls [GetStats]) with 1. split; lia. }
  destruct (respond env (trace w) GetStats) as [stats|e].
  2:{ injection Hrun as <- <-. split; [reflexivity | now apply Hone]. }
  destruct (get_prop stats "isIndexing") as [isIndexing|e].
  2:{ injection Hrun as <- <-. split; [reflexivity | now apply Hone]. }
  destruct (truthy isIndexing); cbn [negb] in Hrun.
  2:{ injection Hrun as <- <-. split; [reflexivity | now apply Hone]. }
  pose proof (after_call_now env (Sleep 1000) (after_call env GetStats w)) as Hn2.
  cbn [duration] in Hn2. change (Z.max 0 1000) with 1000%Z in Hn2.
  destruct (IH _ _ _ _ _ Hrun) as (-> & calls & Htr & Hz & Hb).
  split; [reflexivity|].
  exists (GetStats :: Sleep 1000 :: calls). split.
  - rewrite Htr. cbn [after_call trace]. now rewrite <- !app_assoc.
  - change (count_polls (GetStats :: Sleep 1000 :: calls))
      with (S (count_polls calls)).
    split; [lia|]. intros _.
    destruct (Z.le_gt_cases
                (timeout - (now (after_call env (Sleep 1000)
                                   (after_call env GetStats w)) - startTime)) 0)
      as [Hle|Hgt].
    + rewrite (Hz Hle). lia.
    + specialize (Hb Hgt). lia.
Qed.

(** X17.  [clearIndex] always ends.  It rethrows a failure of
    [deleteAllDocuments] without polling; once the deletion is accepted it
    returns normally, whatever the polls answer, after at most 30 status
    polls. *)
Theorem clear_polls_at_most_thirty_times (w : World) :
  exists w' r,
    Manager.clearIndex env w = Some (w', r)
    /\ count_polls (trace w') <= count_polls (trace w) + 30
    /\ match respond env (trace w) DeleteAllDocuments with
       | Throw e =>
           r = Throw e /\ trace w' = (trace w ++ [DeleteAllDocuments])%list
       | Ok _ =>
           r = Ok tt
           /\ exists polls,
                trace w' = (trace w ++ DeleteAllDocuments :: polls)%list
       end.
Proof.
  unfold Manager.clearIndex, try_catch, bind, perform, throw.
  destruct (respond env (trace w) DeleteAllDocuments) as [v|e].
  - destruct (waitForTask_returns env 30000
                (after_call env DeleteAllDocuments w)) as [w' Hw].
    rewrite Hw. exists w', (Ok tt). split; [reflexivity|].
    unfold Manager.waitForTask, bind, Date_now in Hw.
    destruct (waitLoop_polls _ _ _ _ _ _ Hw) as (_ & calls & Htr & _ & Hb).
    cbn [after_call trace] in Htr. rewrite <- app_assoc in Htr.
    split; [|split; [reflexivity | now exists calls]].
    rewrite Htr, !count_polls_app.
    change (count_polls [DeleteAllDocuments]) with 0.
    assert (1000 * Z.of_nat (count_polls calls) < 31000)%Z by lia. lia.
  - exists (after_call env DeleteAllDocuments w), (Throw e).
    split; [reflexivity|]. split; [|now split].
    cbn [after_call trace]. rewrite count_polls_app.
    change (count_polls [DeleteAllDocuments]) with 0. lia.
Qed.

End ManagerMore.

(** ** The management endpoints *)

Section ControllerMore.
Context {host : Host}.
Variable env : Env.

Lemma submit_all_rejected (bs : list (list value)) : forall w,
  (forall tr batch, exists e, respond env tr (AddDocuments batch) = Throw e) ->
  snd (fst (submit_all env bs w)) = 0
  /\ snd (submit_all env bs w) = List.length (concat bs).
Proof.
  induction bs as [|b bs IH]; intros w Hrej; [now split|].
  cbn [submit_all concat].
  destruct (IH (after_call env (AddDocuments b) w) Hrej) as [Hi Hs].
  destruct (submit_all env bs _) as [[w' i] s]. cbn [fst snd] in Hi, Hs.
  destruct (Hrej (trace w) b) as [e ->]. cbn [fst snd].
  rewrite length_app. split; [exact Hi | now rewrite Hs].
Qed.

(** X18.  The refresh endpoint always answers.  When clear and rebuild
    return it sends the success report with the counts; when one of them
    throws a value of which the manager can make a failure report (every
    [Error]), it sends that report, with [success: false] and no data; and
    when the manager's handler throws itself, on a value that is [null] or
    [undefined] or whose [message] cannot be printed, it answers with an
    internal server error. *)
Theorem refresh_endpoint_outcome (w : World) :
  exists w' answer,
    Controller.refreshIndex env w = Some (w', Ok answer)
    /\ let failed (e : exn) :=
         match refresh_failure e with
         | Ok report =>
             answer
             = Controller.Send
                 (VObj [ ("success", VBool false);
                         ("message", VStr (Manager.message report));
                         ("data", VUndefined) ])
         | Throw _ =>
             answer = Controller.InternalServerError "Index refresh failed"
         end in
       match Manager.clearIndex env w with
       | Some (w1, Ok _) =>
           match Manager.rebuildIndex env w1 with
           | Some (_, Ok counts) =>
               answer
               = Controller.Send
                   (VObj [ ("success", VBool true);
                           ("message",
                            VStr ("Index refreshed successfully. Indexed "
                                  ++ Manager.count_to_string
                                       (Manager.indexed counts)
                                  ++ " documents."));
                           ("data", Controller.stats_value counts) ])
           | Some (_, Throw e) => failed e
           | None => False
           end
       | Some (_, Throw e) => failed e
       | None => False
       end.
Proof.
  assert (forall e (r : result Manager.RefreshResult) (w' : World),
            r = refresh_failure e ->
            exists answer,
              match r with
              | Ok a =>
                  Some (w', Ok (Controller.Send (VObj
                    [ ("success", VBool (Manager.success a));
                      ("message", VStr (Manager.message a));
                      ("data", match Manager.stats a with
                               | Some s => Controller.stats_value s
                               | None => VUndefined
                               end) ])))
              | Throw _ =>
                  Some (w', Ok (Controller.InternalServerError
                                  "Index refresh failed"))
              end = Some (w', Ok answer)
              /\ match refresh_failure e with
                 | Ok report =>
                     answer
                     = Controller.Send
                         (VObj [ ("success", VBool false);
                                 ("message", VStr (Manager.message report));
                                 ("data", VUndefined) ])
                 | Throw _ =>
                     answer
                     = Controller.InternalServerError "Index refresh failed"
                 end) as Hfail.
  { intros e r w' ->. unfold refresh_failure.
    destruct e as [m|v]; [eexists; split; reflexivity|].
    destruct (is_nullish v); [eexists; split; reflexivity|].
    destruct (ToString (prop v "message")); eexists; split; reflexivity. }
  unfold Controller.refreshIndex, try_catch. unfold bind at 1.
  destruct (refreshIndex_run env w) as (w' & r & -> & Hcases). cbv zeta.
  destruct (Manager.clearIndex env w) as [[w1 [[]|e]]|]; [ | |now elim Hcases].
  - destruct (Manager.rebuildIndex env w1) as [[w2 [counts|e]]|];
      [ | |now elim Hcases]; destruct Hcases as [-> Hr].
    + subst r. unfold ret. eexists _, _. split; reflexivity.
    + destruct (Hfail e r w2 Hr) as (answer & Ha & Hb).
      exists w2, answer. split; [|exact Hb].
      destruct r; exact Ha.
  - destruct Hcases as [-> Hr].
    destruct (Hfail e r w1 Hr) as (answer & Ha & Hb).
    exists w1, answer. split; [|exact Hb].
    destruct r; exact Ha.
Qed.

(** X19.  The rebuild endpoint reports success whenever the rebuild
    returns, however many batches were skipped: when the engine rejects
    every batch of records that all transform, the answer is sent with
    [success: true], the message ["... Indexed 0 documents."] and the
    counts [{indexed: 0, skipped: n}] for the [n] records. *)
Theorem rebuild_endpoint_reports_success_when_all_rejected
    (docs : list value) (w : World) :
  respond env (trace w) EntityFindMany = Ok (VArr docs) ->
  forallb (fun d => succeeds (Manager.transformDocumentForSearch d)) docs
  = true ->
  (forall tr batch, exists e, respond env tr (AddDocuments batch) = Throw e) ->
  exists w' body,
    Controller.rebuildIndex env w = Some (w', Ok (Controller.Send body))
    /\ prop body "success" = VBool true
    /\ prop body "message"
       = VStr "Index rebuilt successfully. Indexed 0 documents."
    /\ prop body "data"
       = Controller.stats_value
           {| Manager.indexed := 0; Manager.skipped := List.length docs |}.
Proof.
  intros Hfind Hok Hrej.
  destruct (map_result Manager.transformDocumentForSearch docs)
    as [sdocs|e] eqn:Htr.
  2:{ rewrite <- map_result_succeeds, Htr in Hok. discriminate Hok. }
  unfold Controller.rebuildIndex, try_catch, bind, ret.
  rewrite (rebuildIndex_run env docs sdocs w Hfind Htr).
  destruct (submit_all_rejected (batches_of sdocs)
              (after_call env EntityFindMany w) Hrej) as [Hi Hs].
  destruct (submit_all env _ _) as [[w' x] y]. cbn [fst snd] in Hi, Hs.
  assert (concat (batches_of sdocs) = sdocs) as Hcat
    by (apply chunks_fuel_concat; [unfold Manager.batchSize|]; lia).
  subst x. rewrite Hs, Hcat, (map_result_length _ _ _ Htr).
  eexists _, _. split; [reflexivity|]. repeat split.
Qed.

(** X20.  The clear endpoint always answers: with an internal server
    error exactly when [deleteAllDocuments] failed, and with
    [success: true] otherwise, also when the polls failed or timed
    out. *)
Theorem clear_endpoint_fails_only_on_delete (w : World) :
  exists w' answer,
    Controller.clearIndex env w = Some (w', Ok answer)
    /\ answer
       = match respond env (trace w) DeleteAllDocuments with
         | Ok _ =>
             Controller.Send
               (VObj [ ("success", VBool true);
                       ("message", VStr "Index cleared successfully") ])
         | Throw _ => Controller.InternalServerError "Failed to clear index"
         end.
Proof.
  unfold Controller.clearIndex, Manager.clearIndex, try_catch, bind, perform,
    throw, ret.
  destruct (respond env (trace w) DeleteAllDocuments) as [v|e].
  - destruct (waitForTask_returns env 30000
                (after_call env DeleteAllDocuments w)) as [w' ->].
    now eexists _, _.
  - now eexists _, _.
Qed.

End ControllerMore.

(** ** Allow-lists and attachments *)

Lemma contains_trans (a b c : string) :
  contains a b -> contains b c -> contains a c.
Proof.
  intros (p & q & ->) (p' & q' & ->). exists (p ++ p'), (q' ++ q).
  now rewrite !append_assoc.
Qed.

Lemma map_result_In {A B} (f : A -> result B) : forall l ys x,
  map_result f l = Ok ys -> In x l -> exists y, f x = Ok y /\ In y ys.
Proof.
  induction l as [|a l IH]; intros ys x H Hin; [now elim Hin|].
  cbn [map_result] in H. destruct (f a) as [y|e] eqn:Ea; cbn [rbind] in H;
    [|discriminate H].
  destruct (map_result f l) as [ys'|e]; cbn [rbind] in H; [|discriminate H].
  injection H as <-. destruct Hin as [->|Hin].
  - exists y. split; [exact Ea | now left].
  - destruct (IH ys' x eq_refl Hin) as (y' & Hy & Hin'). exists y'.
    split; [exact Hy | now right].
Qed.

Section AllowListMore.
Context {host : Host}.

(** X3.  The allow-lists are an invariant of the mapper: if an
    enum-constrained field of the target is either falsy or in its
    allow-list before [mapAPIFieldsToStrapi], it is either falsy or in its
    allow-list after it, whatever the payload holds. *)
Theorem enum_slots_stay_valid
    (strapiData : obj) (apiData : value) (field : string)
    (allowed : list string) :
  In (field, allowed) Mapper.schemaEnums ->
  (truthy (get strapiData field) = true ->
   includes allowed (get strapiData field) = true) ->
  let after := fst (Mapper.mapAPIFieldsToStrapi strapiData apiData) in
  truthy (get after field) = true ->
  includes allowed (get after field) = true.
Proof.
  intros Hin Hvalid. cbv zeta.
  destruct (schemaEnums_entry field allowed Hin) as (Henum & _ & Hmap).
  unfold Mapper.mapAPIFieldsToStrapi.
  destruct (is_nullish apiData) eqn:Hn.
  { destruct (apply_mappings_nullish Mapper.field_mappings strapiData apiData Hn)
      as [e ->]; [discriminate | exact Hvalid]. }
  destruct (mapper_slot strapiData apiData field _ Hmap Hn)
    as (sd1 & Hp & Hl).
  fold (Mapper.mapAPIFieldsToStrapi strapiData apiData).
  rewrite (get_of_lookup _ sd1 field Hl).
  unfold Mapper.populateField in Hp.
  destruct (Mapper.populateField_write strapiData field (prop apiData field)
              (Some (Mapper.returns (Mapper.validateEnum field))))
    as [[tv|]|e] eqn:Ew; cbn [rbind] in Hp; [ | |discriminate Hp];
    injection Hp as <-; [|exact Hvalid].
  unfold get. rewrite lookup_set_same.
  unfold Mapper.populateField_write, Mapper.returns in Ew.
  destruct (negb (truthy (get strapiData field)) && _ && _ && _);
    [|discriminate Ew].
  cbn [rbind] in Ew.
  destruct (negb (is_null _)); [|discriminate Ew].
  injection Ew as <-. unfold Mapper.validateEnum. rewrite Henum.
  destruct (truthy (prop apiData field)) eqn:Hv; cbn [negb].
  - destruct (includes allowed (prop apiData field)) eqn:Hi;
      [intros _; exact Hi | discriminate].
  - now rewrite Hv.
Qed.

Lemma attachment_text_holds (att : value) (text f s : string) :
  attachment_text att = Ok text ->
  f = "name" \/ f = "alternativeText" \/ f = "caption" ->
  prop att f = VStr s -> s <> "" -> contains text s.
Proof.
  unfold attachment_text, get_prop.
  destruct (is_nullish att); cbn [rbind]; [discriminate|].
  intros H Hf Hs Hne.
  apply (contains_array_join _ _ _ _ H).
  unfold filter_Boolean. apply filter_In. split.
  - rewrite <- Hs.
    destruct Hf as [ -> | [ -> | -> ] ];
      repeat first [left; reflexivity | right].
  - cbn [truthy]. apply String.eqb_neq in Hne. now rewrite Hne.
Qed.

(** X13.  Every non-empty string [name], [alternativeText] or [caption]
    of an attachment of the record occurs in the [attachments_text] of the
    document the manager sends, and lower-cased in its [searchableText]. *)
Theorem attachments_are_searchable
    (document out att : value) (atts : list value) (f s : string) :
  Manager.transformDocumentForSearch document = Ok out ->
  prop document "Attachments" = VArr atts ->
  In att atts ->
  f = "name" \/ f = "alternativeText" \/ f = "caption" ->
  prop att f = VStr s -> s <> "" ->
  exists attachmentsText text,
    prop out "attachments_text" = VStr attachmentsText
    /\ contains attachmentsText s
    /\ prop out "searchableText" = VStr text
    /\ contains text (toLowerCase s).
Proof.
  intros Hout Hatts Hin Hf Hs Hne.
  destruct (manager_output _ _ Hout) as (d & a & text & _ & _ & Ha & Ht' & ->).
  destruct (searchableText_run _ _ _ _ Ht') as (joined & Hj & ->).
  rewrite Hatts in Ha. cbn [formatAttachments] in Ha.
  destruct (map_result attachment_text atts) as [texts|e] eqn:Hm;
    cbn [rbind] in Ha; [|discriminate Ha].
  injection Ha as <-.
  destruct (map_result_In _ _ _ _ Hm Hin) as (t & Ht & Hint).
  assert (contains (join " " texts) s) as Hc.
  { apply contains_trans with t; [now apply contains_join|].
    exact (attachment_text_holds att t f s Ht Hf Hs Hne). }
  exists (join " " texts). eexists. split; [reflexivity|].
  split; [exact Hc|]. split; [reflexivity|].
  assert (join " " texts <> "") as Hne'.
  { intros E. rewrite E in Hc. destruct Hc as (p & q & Hc).
    destruct p; [|discriminate Hc]. destruct s; [now elim Hne | discriminate Hc]. }
  apply contains_trans with (toLowerCase (join " " texts)).
  - apply (searchableText_holds _ _ _ Hj); [|exact Hne'].
    unfold composite_items. do 12 right. left. reflexivity.
  - now apply contains_toLowerCase.
Qed.

End AllowListMore.

(** ** Instances *)

(** The business key is out of the mapper's reach; a [null] payload
    leaves the record as it was; an author that cannot be joined makes
    the mapper throw. *)
Lemma mapper_reach_witness :
  lookup (fst (@Mapper.mapAPIFieldsToStrapi iso_only_host
                 [("SF_Number", VStr "SF-1")]
                 (VObj [("Industry", VStr "Industry A")]))) "SF_Number"
  = Some (VStr "SF-1")
  /\ fst (@Mapper.mapAPIFieldsToStrapi iso_only_host
            [("SF_Number", VStr "SF-1")] VNull)
     = [("SF_Number", VStr "SF-1")]
  /\ succeeds (snd (@Mapper.mapAPIFieldsToStrapi iso_only_host
                      [("SF_Number", VStr "SF-1")] unjoinable_authors))
     = false.
Proof.
  split; [|split].
  - apply (proj1 (proj2 (@mapper_reach iso_only_host
                           [("SF_Number", VStr "SF-1")]
                           (VObj [("Industry", VStr "Industry A")])
                           "SF_Number"))).
    cbn [map fst Mapper.field_mappings In]. intuition discriminate.
  - apply (proj1 (proj2 (proj2 (@mapper_reach iso_only_host
                                  [("SF_Number", VStr "SF-1")] VNull
                                  "SF_Number")))).
    reflexivity.
  - exact (proj1 (proj2 (proj2 (proj2 (@mapper_reach iso_only_host
                                         [("SF_Number", VStr "SF-1")]
                                         unjoinable_authors "SF_Number")))
                    eq_refl)).
Defined.

Lemma enum_slots_stay_valid_witness :
  includes ["Industry A"; "Industry B"; "Industry C"]
    (get (fst (@Mapper.mapAPIFieldsToStrapi iso_only_host []
                 (VObj [("Industry", VStr "Industry A")]))) "Industry")
  = true.
Proof.
  apply (@enum_slots_stay_valid iso_only_host []
           (VObj [("Industry", VStr "Industry A")]) "Industry"
           ["Industry A"; "Industry B"; "Industry C"]).
  - unfold Mapper.schemaEnums. do 5 right. left. reflexivity.
  - intros H. discriminate H.
  - reflexivity.
Defined.

(** A refused connection leaves the record as it was and the client
    returns; a rejection with [undefined] makes the client throw. *)
Lemma enrichment_client_outcome_witness :
  (exists w',
     @Mapper.fetchAndPopulateFromFastAPI iso_only_host failing_env
       [("SF_Number", VStr "SF-1")] start
     = (w', [("SF_Number", VStr "SF-1")], Ok tt))
  /\ (exists w',
        @Mapper.fetchAndPopulateFromFastAPI iso_only_host
          service_rejects_with_undefined [("SF_Number", VStr "SF-1")] start
        = (w', [("SF_Number", VStr "SF-1")],
           Throw (Error "Cannot read properties of null or undefined (reading 'message')"))).
Proof.
  split.
  - destruct (@enrichment_client_outcome iso_only_host failing_env
                [("SF_Number", VStr "SF-1")] start)
      as (w' & data' & r & Hrun & _ & _ & Hrej & _).
    destruct (Hrej (AxiosGet "http://fastapi.local/api/salesforce/document/SF-1"
                             "Bearer secret")
                   (Error "connection refused") eq_refl eq_refl) as [Hd Hr].
    exists w'. rewrite Hrun, Hd, Hr. reflexivity.
  - destruct (@enrichment_client_outcome iso_only_host
                service_rejects_with_undefined
                [("SF_Number", VStr "SF-1")] start)
      as (w' & data' & r & Hrun & _ & _ & Hrej & _).
    destruct (Hrej (AxiosGet "http://fastapi.local/api/salesforce/document/SF-1"
                             "Bearer secret")
                   (Thrown VUndefined) eq_refl eq_refl) as [Hd Hr].
    exists w'. rewrite Hrun, Hd, Hr. reflexivity.
Defined.

Lemma pre_save_hooks_frame_witness :
  exists w' data' r,
    @Mapper.beforeCreate iso_only_host enriching_env
      [("SF_Number", VStr "SF-1"); ("Client_Name", VStr "Initech")] start
    = (w', data', r)
    /\ lookup data' "Client_Name" = Some (VStr "Initech").
Proof.
  destruct (proj1 (@pre_save_hooks_frame iso_only_host enriching_env
                     [("SF_Number", VStr "SF-1");
                      ("Client_Name", VStr "Initech")] [] start))
    as (w' & data' & r & calls & Hrun & _ & _ & Hframe & _).
  exists w', data', r. split; [exact Hrun|].
  exact (Hframe "Client_Name" (or_introl eq_refl)).
Defined.


Lemma description_text_is_trimmed_witness : trim "Hello world" = "Hello world".
Proof.
  exact (@description_text_is_trimmed iso_only_host
           (Mapper.description_blocks (VStr "  Hello world "))
           "Hello world" eq_refl).
Defined.

Lemma report_document_transformed :
  @Manager.transformDocumentForSearch iso_only_host report_record
  = Ok report_document.
Proof. vm_compute. reflexivity. Qed.

Lemma indexed_fields_are_defaulted_witness :
  prop report_document "Industry" = VStr "Industry A"
  /\ prop report_document "Region" = VStr ""
  /\ prop (prop report_document "filters") "Industry"
     = prop report_document "Industry".
Proof.
  split; [|split].
  - apply (proj1 (@indexed_fields_are_defaulted iso_only_host report_record
                    report_document "Industry" report_document_transformed)).
    unfold defaulted_fields. do 13 right. left. reflexivity.
  - apply (proj1 (@indexed_fields_are_defaulted iso_only_host report_record
                    report_document "Region" report_document_transformed)).
    unfold defaulted_fields. do 18 right. left. reflexivity.
  - apply (proj2 (@indexed_fields_are_defaulted iso_only_host report_record
                    report_document "Industry" report_document_transformed)).
    unfold filter_keys. do 4 right. left. reflexivity.
Defined.

Lemma composite_text_covers_fields_witness :
  exists text,
    prop report_document "searchableText" = VStr text
    /\ contains text "industry a".
Proof.
  destruct (@composite_text_covers_fields iso_only_host report_record
              report_document report_document_transformed)
    as (text & Ht & _ & Hfields & _).
  exists text. split; [exact Ht|].
  apply (Hfields "Industry" "Industry A");
    [ unfold searchable_fields; do 6 right; left; reflexivity
    | reflexivity | discriminate ].
Defined.

Lemma attachments_are_searchable_witness :
  exists text,
    prop report_document "searchableText" = VStr text
    /\ contains text "report.pdf".
Proof.
  destruct (@attachments_are_searchable iso_only_host report_record
              report_document (VObj [("name", VStr "Report.pdf")])
              [VObj [("name", VStr "Report.pdf")]] "name" "Report.pdf"
              report_document_transformed eq_refl (or_introl eq_refl)
              (or_introl eq_refl) eq_refl ltac:(discriminate))
    as (a & text & _ & _ & Ht & Hc).
  exists text. split; [exact Ht | exact Hc].
Defined.

Lemma inline_agrees_with_manager_witness :
  exists out',
    @Inline.searchableDocument iso_only_host report_record = Ok out'
    /\ prop out' "id" = VStr "abc123"
    /\ prop out' "searchableText" = prop report_document "searchableText".
Proof.
  destruct (@inline_agrees_with_manager iso_only_host report_record
              report_document report_document_transformed)
    as (out' & Hrun & Hid & _ & _ & Hsame).
  exists out'. split; [exact Hrun|]. split; [exact Hid|].
  apply Hsame; discriminate.
Defined.

Lemma rebuild_of_empty_store_witness :
  @Manager.rebuildIndex iso_only_host quiet_env start
  = Some ({| trace := [EntityFindMany]; now := 0 |},
          Ok {| Manager.indexed := 0; Manager.skipped := 0 |}).
Proof.
  exact (@rebuild_of_empty_store iso_only_host quiet_env VNull start
           eq_refl (or_introl eq_refl)).
Defined.

Lemma rebuild_sends_nothing_on_failure_witness :
  exists e,
    @Manager.rebuildIndex iso_only_host store_with_null start
    = Some ({| trace := [EntityFindMany]; now := 0 |}, Throw e).
Proof.
  exact (proj2 (@rebuild_sends_nothing_on_failure iso_only_host
                  store_with_null start)
           [VObj []; VNull] eq_refl (or_introl eq_refl)).
Defined.

Lemma rebuild_endpoint_reports_success_when_all_rejected_witness :
  exists w' body,
    @Controller.rebuildIndex iso_only_host engine_down start
    = Some (w', Ok (Controller.Send body))
    /\ prop body "success" = VBool true
    /\ prop body "data"
       = Controller.stats_value
           {| Manager.indexed := 0; Manager.skipped := 2 |}.
Proof.
  destruct (@rebuild_endpoint_reports_success_when_all_rejected iso_only_host
              engine_down [VObj []; VObj []] start eq_refl eq_refl
              (fun _ _ => ex_intro _ (Error "engine unreachable") eq_refl))
    as (w' & body & Hrun & Hs & _ & Hd).
  exists w', body. split; [exact Hrun|]. split; [exact Hs | exact Hd].
Defined.
